(** * HubSpot CRM client adapter (src/client.ts): model and verified properties

    A shallow embedding of [CrmClientImpl]: the shared [request] primitive, the
    per-family create/update property builders, search, list pagination, batch
    operations, pipelines and call logging; reading and deleting one object,
    moving a deal to a stage, meetings, and creating an activity.

    Conventions of the embedding.
    - A JavaScript object used as a string-keyed record ([Record<string, T>],
      an object literal, the [properties] under construction) is a [gmap string T]
      of its own properties.  The two places where the prototype shows are
      modelled as such: a lookup that reaches an inherited member (see
      [mapFilterOperator]) and an assignment to the accessor [__proto__], which
      adds no own property (see [merge_entry]).
    - [number] values are [NaN] or an integer.  The integers stand for the
      doubles that represent them exactly (magnitude at most 2^53, see
      [MAX_SAFE]); on that range [String], [parseInt], [*] and the comparison of
      two numbers are exact, and the statements that name a numeral carry that
      range as a hypothesis.  Doubles that need not be integers (amounts,
      probabilities) are never inspected by the modelled code and are kept
      symbolic, see [float] and [JDouble].
    - A string is a sequence of characters below 128; a JavaScript string with
      other code units is outside the model.
    - An optional field or parameter ([x?: T]) is an [option]; [None] is
      [undefined].
    - Effects are explicit: an adapter method is a function from the log of
      transport calls made so far to an outcome (a value or a thrown error) and
      the extended log.  The transport always answers with a response; a
      network failure of [fetch] itself is not modelled. *)

From Stdlib Require Import ZArith QArith Qround Ascii String List Sorted.
From Stdlib Require Import DecimalString DecimalZ DecimalPos DecimalN DecimalFacts.
From stdpp Require Import base option list gmap strings.

Open Scope Z_scope.

Set Warnings "-register-all".

(* ========================================================================= *)
(** * Part I. The model                                                       *)
(* ========================================================================= *)

(** ** JavaScript values *)

(** The integer-valued doubles up to this magnitude are exact. *)
Definition MAX_SAFE : Z := 2 ^ 53.

Inductive number : Type :=
| NaN
| Finite (z : Z).

(** A double that the adapter only passes along: [parseFloat s] is the value
    the platform parses from [s]. *)
Inductive float : Type :=
| parseFloat (s : string).

(** The values [JSON.parse] yields, and [undefined].  [JNumber] holds [NaN]
    and the integers of magnitude up to 2^53; [JDouble text] is any other
    number (a fraction, a larger magnitude), given by the text [String] prints
    for it.  The entries of a [JObject] are its own properties. *)
Inductive JsValue : Type :=
| JUndefined
| JNull
| JBool (b : bool)
| JNumber (n : number)
| JDouble (text : string)
| JString (s : string)
| JArray (elements : list JsValue)
| JObject (entries : list (string * JsValue)).

(** [ToBoolean]: what [if (v)], [v || w] and [!!v] test. *)
Definition truthy_string (s : string) : bool :=
  match s with
  | EmptyString => false
  | String _ _ => true
  end.

Definition truthy_number (n : number) : bool :=
  match n with
  | NaN => false
  | Finite z => negb (z =? 0)
  end.

Definition ToBoolean (v : JsValue) : bool :=
  match v with
  | JUndefined | JNull => false
  | JBool b => b
  | JNumber n => truthy_number n
  | JDouble _ => true
  | JString s => truthy_string s
  | JArray _ | JObject _ => true
  end.

(** [a || b] on values. *)
Definition JS_or (a b : JsValue) : JsValue :=
  if ToBoolean a then a else b.

(** [s || undefined] and [if (s)] on an optional string: the string when it is
    present and not empty. *)
Definition truthy (s : option string) : option string :=
  match s with
  | Some s' => if truthy_string s' then Some s' else None
  | None => None
  end.

(** The digits of a numeral without its trailing zeros. *)
Fixpoint strip_trailing_zeros (digits : string) : string :=
  match digits with
  | EmptyString => EmptyString
  | String c rest =>
      match strip_trailing_zeros rest with
      | EmptyString => if Ascii.eqb c "0" then EmptyString else String c EmptyString
      | significant => String c significant
      end
  end.

(** The exponent form [d.ddde+n] of the numeral [digits]. *)
Definition exponent_form (digits : string) : string :=
  let exponent := NilZero.string_of_uint (Nat.to_uint (String.length digits - 1)) in
  match strip_trailing_zeros digits with
  | EmptyString => "0"
  | String d EmptyString => String d ("e+" +:+ exponent)
  | String d significant => String d ("." +:+ significant +:+ "e+" +:+ exponent)
  end.

(** [String(n)] for a number: below 10^21 the decimal numeral, with a leading
    minus sign for a negative one; from 10^21 on the exponent form.  The
    numeral is what [String] prints for every integer of magnitude up to 2^53,
    and the exponent form for every integer-valued double that has at most 15
    significant digits; the digits [String] picks for the other integers are
    not modelled. *)
Definition Number_toString (n : number) : string :=
  match n with
  | NaN => "NaN"
  | Finite z =>
      if Z.abs z <? 10 ^ 21 then NilZero.string_of_int (Z.to_int z)
      else (if z <? 0 then "-" else "")
           +:+ exponent_form (NilZero.string_of_int (Z.to_int (Z.abs z)))
  end.

Fixpoint join (sep : string) (l : list string) : string :=
  match l with
  | [] => ""
  | [s] => s
  | s :: rest => s +:+ sep +:+ join sep rest
  end.

(** [String(v)] throws a TypeError: [v] is an object with an own [toString]
    property, which in a parsed value is never a function, so that neither it
    nor [valueOf] gives a primitive; or [v] is an array with such an element
    (an array joins the strings of its elements, [null] and [undefined]
    apart). *)
Fixpoint String_throws (v : JsValue) : bool :=
  match v with
  | JObject entries => existsb (fun e => String.eqb (fst e) "toString") entries
  | JArray l =>
      existsb (fun e => match e with
                        | JUndefined | JNull => false
                        | _ => String_throws e
                        end) l
  | _ => false
  end.

(** [String(v)], the generic stringification, where it does not throw (see
    [String_throws]).  An array joins its elements with commas ([null] and
    [undefined] elements as empty strings); any other object is
    ["[object Object]"]. *)
Fixpoint ToString (v : JsValue) : string :=
  match v with
  | JUndefined => "undefined"
  | JNull => "null"
  | JBool true => "true"
  | JBool false => "false"
  | JNumber n => Number_toString n
  | JDouble text => text
  | JString s => s
  | JArray l =>
      join "," (map (fun e => match e with
                              | JUndefined | JNull => ""
                              | _ => ToString e
                              end) l)
  | JObject _ => "[object Object]"
  end.

(** [v.k]: reading a property.  [None] is the TypeError of reading a property
    of [null] or [undefined]; a primitive or an array has no property of the
    names read here. *)
Definition JS_get (v : JsValue) (k : string) : option JsValue :=
  match v with
  | JUndefined | JNull => None
  | JObject entries =>
      Some (default JUndefined (snd <$> List.find (fun e => String.eqb (fst e) k) entries))
  | _ => Some JUndefined
  end.

(** ** [parseInt(s, 10)] *)

Definition is_white_space (c : ascii) : bool :=
  let n := N_of_ascii c in
  ((9 <=? n) && (n <=? 13))%N || (n =? 32)%N.

Fixpoint trimStart (s : string) : string :=
  match s with
  | String c s' => if is_white_space c then trimStart s' else s
  | EmptyString => s
  end.

Definition digit_of (c : ascii) : option Z :=
  let n := N_of_ascii c in
  if ((48 <=? n) && (n <=? 57))%N then Some (Z.of_N n - 48) else None.

(** The value of the longest prefix of decimal digits; [acc] is [None] until a
    digit has been read. *)
Fixpoint parse_digits (s : string) (acc : option Z) : option Z :=
  match s with
  | EmptyString => acc
  | String c s' =>
      match digit_of c with
      | Some d => parse_digits s' (Some (10 * default 0 acc + d))
      | None => acc
      end
  end.

Definition parseInt (s : string) : number :=
  let s := trimStart s in
  let '(sign, s) :=
    match s with
    | String "-" s' => (-1, s')
    | String "+" s' => (1, s')
    | _ => (1, s)
    end in
  match parse_digits s None with
  | Some z => Finite (sign * z)
  | None => NaN
  end.

(** ** [Math.round] *)

(** [Math.round(q)]: the integer nearest to [q], a tie going up. *)
Definition Math_round (q : Q) : Z := Qfloor (Qplus q (Qmake 1 2)).

(** ** Strings *)

Fixpoint trimEnd (s : string) : string :=
  match s with
  | EmptyString => EmptyString
  | String c s' =>
      match trimEnd s' with
      | EmptyString => if is_white_space c then EmptyString else String c EmptyString
      | t => String c t
      end
  end.

(** [s.trim()] *)
Definition trim (s : string) : string := trimEnd (trimStart s).

(** [s.split(',')] *)
Fixpoint split_comma_aux (s : string) (cur : string) : list string :=
  match s with
  | EmptyString => [cur]
  | String c s' =>
      if Ascii.eqb c "," then cur :: split_comma_aux s' ""
      else split_comma_aux s' (cur +:+ String c "")
  end.

Definition split_comma (s : string) : list string := split_comma_aux s "".

(** ** [URLSearchParams] *)

Definition hex_digit (n : N) : ascii :=
  ascii_of_N (if (n <? 10)%N then 48 + n else 55 + n)%N.

Definition is_urlencode_safe (c : ascii) : bool :=
  let n := N_of_ascii c in
  ((48 <=? n) && (n <=? 57) || (65 <=? n) && (n <=? 90) || (97 <=? n) && (n <=? 122)
   || (n =? 42) || (n =? 45) || (n =? 46) || (n =? 95))%N.

(** application/x-www-form-urlencoded serialization of one name or value,
    byte by byte. *)
Fixpoint urlencode (s : string) : string :=
  match s with
  | EmptyString => EmptyString
  | String c s' =>
      let n := N_of_ascii c in
      if is_urlencode_safe c then String c (urlencode s')
      else if (n =? 32)%N then String "+" (urlencode s')
      else String "%" (String (hex_digit (n / 16)) (String (hex_digit (n mod 16)) (urlencode s')))
  end.

Definition URLSearchParams := list (string * string).

(** [queryParams.set(name, value)] *)
Fixpoint URLSearchParams_set (q : URLSearchParams) (name value : string) : URLSearchParams :=
  match q with
  | [] => [(name, value)]
  | (k, v) :: rest =>
      if String.eqb k name
      then (name, value) :: List.filter (fun e => negb (String.eqb (fst e) name)) rest
      else (k, v) :: URLSearchParams_set rest name value
  end.

(** [queryParams.get(name)] *)
Definition URLSearchParams_get (q : URLSearchParams) (name : string) : option string :=
  snd <$> List.find (fun e => String.eqb (fst e) name) q.

(** [`${queryParams}`] *)
Definition URLSearchParams_toString (q : URLSearchParams) : string :=
  join "&" (map (fun e => urlencode (fst e) +:+ "=" +:+ urlencode (snd e)) q).

(** ** Configuration (client.ts, lines 72-95) *)

Definition API_BASE_URL : string := "https://api.hubapi.com".

Definition CONTACT_PROPERTIES : string :=
  "firstname,lastname,email,phone,jobtitle,company,lifecyclestage,hs_lead_status,createdate,lastmodifieddate".
Definition COMPANY_PROPERTIES : string :=
  "name,domain,website,industry,description,numberofemployees,annualrevenue,type,phone,createdate,lastmodifieddate".
Definition DEAL_PROPERTIES : string :=
  "dealname,amount,dealstage,pipeline,closedate,hs_deal_stage_probability,createdate,lastmodifieddate".
Definition TICKET_PROPERTIES : string :=
  "subject,content,hs_pipeline,hs_pipeline_stage,hs_ticket_priority,hubspot_owner_id,createdate,lastmodifieddate".
Definition PRODUCT_PROPERTIES : string :=
  "name,description,price,hs_sku,hs_recurring_billing_period,createdate,lastmodifieddate".
Definition LINE_ITEM_PROPERTIES : string :=
  "name,quantity,price,amount,discount,hs_product_id,createdate,lastmodifieddate".
Definition QUOTE_PROPERTIES : string :=
  "hs_title,hs_status,hs_expiration_date,hs_deal_id,hs_total,createdate,lastmodifieddate".
Definition NOTE_PROPERTIES : string :=
  "hs_note_body,hs_timestamp,hubspot_owner_id,createdate,lastmodifieddate".
Definition MEETING_PROPERTIES : string :=
  "hs_meeting_title,hs_meeting_body,hs_meeting_start_time,hs_meeting_end_time,hs_meeting_outcome,hubspot_owner_id,createdate,lastmodifieddate".
Definition LEAD_PROPERTIES : string :=
  "firstname,lastname,email,phone,company,hs_lead_status,hs_leadstatus,createdate,lastmodifieddate".
Definition INVOICE_PROPERTIES : string :=
  "hs_number,hs_status,hs_due_date,hs_amount_billed,hs_currency,createdate".
Definition ORDER_PROPERTIES : string :=
  "hs_order_name,hs_external_order_id,hs_fulfillment_status,hs_total_price,createdate".
(** The property list [listActivities] asks for (line 882). *)
Definition CALL_PROPERTIES : string :=
  "hs_call_title,hs_call_body,hs_call_duration,hs_timestamp".

(** ** HubSpot response shapes (lines 101-147) *)

Module HubSpotObject.
Record t : Type := {
  id : string;
  properties : gmap string (option string);   (* Record<string, string | null> *)
  createdAt : string;
  updatedAt : string;
  archived : bool;
}.
End HubSpotObject.

(** [props.k || undefined]: the property when it is a non-empty string. *)
Definition prop (props : gmap string (option string)) (k : string) : option string :=
  truthy (mjoin (props !! k)).

Module Paging.
Record next_t : Type := { after : string }.
Record t : Type := { next : option next_t }.
End Paging.

Module HubSpotListResponse.
Record t : Type := {
  results : list HubSpotObject.t;
  paging : option Paging.t;
}.
End HubSpotListResponse.

Module HubSpotSearchResponse.
Record t : Type := {
  total : number;
  results : list HubSpotObject.t;
  paging : option Paging.t;
}.
End HubSpotSearchResponse.

Module HubSpotPipelineStage.
Record metadata_t : Type := {
  probability : option string;
  isClosed : option string;
}.
Record t : Type := {
  id : string;
  label : string;
  displayOrder : Z;
  metadata : metadata_t;
}.
End HubSpotPipelineStage.

Module HubSpotPipeline.
Record t : Type := {
  id : string;
  label : string;
  displayOrder : Z;
  stages : list HubSpotPipelineStage.t;
}.
End HubSpotPipeline.

Module HubSpotPipelinesResponse.
Record t : Type := { results : list HubSpotPipeline.t }.
End HubSpotPipelinesResponse.

(** ** Entity model (types/entities.ts) *)

Module PaginationParams.
Record t : Type := {
  limit : option number;
  cursor : option string;
  offset : option number;
}.
End PaginationParams.

Module PaginatedResponse.
Record t (T : Type) : Type := {
  items : list T;
  count : nat;
  total : option number;
  hasMore : bool;
  nextCursor : option string;
}.
Arguments items {T}.
Arguments count {T}.
Arguments total {T}.
Arguments hasMore {T}.
Arguments nextCursor {T}.
End PaginatedResponse.

Inductive FilterOperator : Type :=
| eq_op | neq | lt | lte | gt | gte
| contains | not_contains | starts_with
| in_op | not_in | is_null | is_not_null.

(** The string a [FilterOperator] is at run time. *)
Definition FilterOperator_string (op : FilterOperator) : string :=
  match op with
  | eq_op => "eq" | neq => "neq"
  | lt => "lt" | lte => "lte" | gt => "gt" | gte => "gte"
  | contains => "contains" | not_contains => "not_contains"
  | starts_with => "starts_with"
  | in_op => "in" | not_in => "not_in"
  | is_null => "is_null" | is_not_null => "is_not_null"
  end.

Module SearchFilter.
Record t : Type := {
  field : string;
  operator : FilterOperator;
  value : JsValue;
}.
End SearchFilter.

Inductive SortOrder : Type := asc | desc.

Module SearchParams.
Record t : Type := {
  limit : option number;
  cursor : option string;
  query : option string;
  filters : option (list SearchFilter.t);
  sortBy : option string;
  sortOrder : option SortOrder;
}.
End SearchParams.

Module BatchError.
Record t : Type := { status : string; message : string }.
End BatchError.

Module BatchResult.
Record t (T : Type) : Type := {
  status : string;
  results : list T;
  errors : option (list BatchError.t);
}.
Arguments status {T}.
Arguments results {T}.
Arguments errors {T}.
End BatchResult.

Module PipelineStage.
Record t : Type := {
  id : string;
  name : string;
  order : Z;
  probability : option float;
  isClosed : bool;
}.
End PipelineStage.

Module Pipeline.
Record t : Type := {
  id : string;
  name : string;
  stages : list PipelineStage.t;
}.
End Pipeline.

(** ** Wire bodies *)

(** What [mapping[op] || 'EQ'] evaluates to in [mapFilterOperator]: the name
    of a backend operator, or, for an [op] that names a member every object
    inherits, that member (a function, or the prototype object for
    [__proto__]), which is not a string. *)
Inductive MappedOperator : Type :=
| OperatorName (name : string)
| InheritedMember (key : string).

Module HubSpotFilter.
Record t : Type := {
  propertyName : string;
  operator : MappedOperator;
  value : JsValue;
}.
End HubSpotFilter.

Module FilterGroup.
Record t : Type := { filters : list HubSpotFilter.t }.
End FilterGroup.

Module HubSpotSort.
Record t : Type := { propertyName : string; direction : string }.
End HubSpotSort.

Module SearchBody.
Record t : Type := {
  limit : number;
  properties : list string;
  query : option string;
  after : option string;
  filterGroups : option (list FilterGroup.t);
  sorts : option (list HubSpotSort.t);
}.
End SearchBody.

(** The argument of [JSON.stringify] in each request that has a body; the wire
    text is its serialization. *)
Inductive RequestBody : Type :=
| PropertiesBody (properties : gmap string string)
    (* { properties } *)
| SearchRequestBody (body : SearchBody.t)
| BatchReadBody (ids : list string) (properties : list string)
    (* { inputs: ids.map((id) => ({ id })), properties } *)
| BatchCreateBody (inputs : list (gmap string string))
    (* { inputs: inputs.map((input) => ({ properties: propertyMapper(input) })) } *)
| BatchUpdateBody (inputs : list (string * gmap string string))
    (* { inputs: inputs.map(({ id, ...rest }) => ({ id, properties: propertyMapper(rest) })) } *)
| BatchArchiveBody (ids : list string).

Module RequestInit.
Record t : Type := {
  method : option string;
  headers : option (gmap string string);
  body : option RequestBody;
}.
Definition default : t := {| method := None; headers := None; body := None |}.
Definition with_method (m : string) : t :=
  {| method := Some m; headers := None; body := None |}.
Definition with_body (m : string) (b : RequestBody) : t :=
  {| method := Some m; headers := None; body := Some b |}.
End RequestInit.

(** ** The transport *)

(** One invocation of [fetch(url, init)]. *)
Module FetchCall.
Record t : Type := {
  url : string;
  method : option string;
  headers : gmap string string;
  body : option RequestBody;
}.
End FetchCall.

(** What [response.json()] settles to: it rejects with a [SyntaxError] when the
    body is not JSON, and otherwise resolves to the parsed body, read at the
    type [T] the caller casts it to. *)
Inductive JsonResult (T : Type) : Type :=
| JsonRejected (message : string)
| JsonResolved (value : T).
Arguments JsonRejected {T}.
Arguments JsonResolved {T}.

Module Response.
Record t (T : Type) : Type := {
  status : Z;
  headers : gmap string string;     (* by lower-case header name *)
  text : string;                    (* response.text() *)
  json : JsonResult T;              (* response.json() *)
}.
Arguments status {T}.
Arguments headers {T}.
Arguments text {T}.
Arguments json {T}.
(** [response.ok] *)
Definition ok {T} (r : t T) : bool := (200 <=? status r) && (status r <=? 299).
End Response.

Definition to_lower_ascii (c : ascii) : ascii :=
  let n := N_of_ascii c in
  if ((65 <=? n) && (n <=? 90))%N then ascii_of_N (n + 32) else c.

Fixpoint to_lower (s : string) : string :=
  match s with
  | EmptyString => EmptyString
  | String c s' => String (to_lower_ascii c) (to_lower s')
  end.

(** [response.headers.get(name)]: header names are matched without regard to
    case; [None] is [null]. *)
Definition Headers_get (headers : gmap string string) (name : string) : option string :=
  headers !! to_lower name.

(** The transport log: the calls of [fetch] made so far, oldest first. *)
Definition World : Type := list FetchCall.t.

(** A transport answers a call, possibly depending on the calls before it.
    Every call is answered with a response: a [fetch] whose promise rejects (a
    network failure) is not modelled, and what is proved of a method is proved
    for the responses it received. *)
Definition Transport (T : Type) : Type := World -> FetchCall.t -> Response.t T.

(** The platform's [JSON.parse]: [None] when it throws. *)
Class JSON : Type := JSON_parse : string -> option JsValue.

(** ** Errors *)

(** Modelled from the spec: the error classes of utils/errors.ts, which is not
    among the sources.  The spec (section 4.2) has three tagged failures:
    AuthenticationError; RateLimitError, which carries the retry-after duration
    in seconds; and CrmApiError, which carries the HTTP status and a message.
    Each constructor keeps the arguments client.ts passes to the class.  The
    last two are the platform's own errors. *)
Inductive exn : Type :=
| AuthenticationError (message : string)
| RateLimitError (message : string) (retryAfterSeconds : number)
| CrmApiError (message : JsValue) (statusCode : Z)
| SyntaxError (message : string)
| TypeError (message : string).

(** Modelled from the spec: [error.message] of the classes above (each extends
    [Error], whose constructor stringifies its message argument). *)
Definition exn_message (e : exn) : string :=
  match e with
  | AuthenticationError m => m
  | RateLimitError m _ => m
  | CrmApiError m _ => ToString m
  | SyntaxError m => m
  | TypeError m => m
  end.

(** ** Computations with effects *)

Inductive Outcome (A : Type) : Type :=
| Return (a : A)
| Throw (e : exn).
Arguments Return {A}.
Arguments Throw {A}.

(** An asynchronous adapter method: from the transport log to its outcome and
    the extended log. *)
Definition M (A : Type) : Type := World -> Outcome A * World.

Definition ret {A} (a : A) : M A := fun w => (Return a, w).

Definition throw {A} (e : exn) : M A := fun w => (Throw e, w).

(** [await m], then [k] *)
Definition bind {A B} (m : M A) (k : A -> M B) : M B :=
  fun w =>
    match m w with
    | (Return a, w') => k a w'
    | (Throw e, w') => (Throw e, w')
    end.

(** [try { m } catch (error) { handler }] *)
Definition try_catch {A} (m : M A) (handler : exn -> M A) : M A :=
  fun w =>
    match m w with
    | (Return a, w') => (Return a, w')
    | (Throw e, w') => handler e w'
    end.

Notation "'let!' x ':=' m 'in' k" := (bind m (fun x => k))
  (at level 10, x name, m at level 100, k at level 200).
Notation "'do!' m 'in' k" := (bind m (fun _ => k))
  (at level 10, m at level 100, k at level 200).

(** ** Credentials and the client object *)

Module TenantCredentials.
Record t : Type := {
  apiKey : option string;
  baseUrl : option string;
  accessToken : option string;
}.
End TenantCredentials.

Module CrmClientImpl.
Record t : Type := {
  credentials : TenantCredentials.t;
  baseUrl : string;
}.
End CrmClientImpl.

(** [new CrmClientImpl(credentials)] (lines 338-341) *)
Definition createCrmClient (credentials : TenantCredentials.t) : CrmClientImpl.t :=
  {| CrmClientImpl.credentials := credentials;
     CrmClientImpl.baseUrl :=
       default API_BASE_URL (truthy (TenantCredentials.baseUrl credentials)) |}.

(** ** The request primitive (lines 347-410) *)

Definition bearer_headers (token : string) : gmap string string :=
  <["Content-Type" := "application/json"]>
    (<["Authorization" := "Bearer " +:+ token]> ∅).

Definition getAuthHeaders (this : CrmClientImpl.t) : Outcome (gmap string string) :=
  let credentials := CrmClientImpl.credentials this in
  match truthy (TenantCredentials.accessToken credentials) with
  | Some accessToken => Return (bearer_headers accessToken)
  | None =>
      match truthy (TenantCredentials.apiKey credentials) with
      | Some apiKey => Return (bearer_headers apiKey)
      | None =>
          Throw (AuthenticationError
            "No credentials provided. Include X-CRM-API-Key or X-CRM-Access-Token header.")
      end
  end.

(** The message of a [CrmApiError]: [errorJson.message || errorJson.error ||
    message] inside the [try], the default [message] when [JSON.parse] or a
    property read throws. *)
Definition error_message `{JSON} (errorBody : string) (status : Z) : JsValue :=
  let message := JString ("API error: " +:+ Number_toString (Finite status)) in
  match JSON_parse errorBody with
  | None => message
  | Some errorJson =>
      match JS_get errorJson "message", JS_get errorJson "error" with
      | Some m, Some e => JS_or m (JS_or e message)
      | _, _ => message
      end
  end.

(** Lines 380-409: what [request] makes of the response it received. *)
Definition classify_response `{JSON} {T} (response : Response.t T) : Outcome (option T) :=
  let status := Response.status response in
  if status =? 429 then
    let retryAfter := Headers_get (Response.headers response) "Retry-After" in
    Throw (RateLimitError "Rate limit exceeded"
             match truthy retryAfter with
             | Some retryAfter => parseInt retryAfter
             | None => Finite 60
             end)
  else if (status =? 401) || (status =? 403) then
    Throw (AuthenticationError "Authentication failed. Check your API credentials.")
  else if negb (Response.ok response) then
    Throw (CrmApiError (error_message (Response.text response) status) status)
  else if status =? 204 then
    Return None
  else
    match Response.json response with
    | JsonResolved v => Return (Some v)
    | JsonRejected m => Throw (SyntaxError m)
    end.

(** The call [request] hands to [fetch]: the URL, and [options] with the
    headers [{ ...this.getAuthHeaders(), ...(options.headers || {}) }]. *)
Definition fetch_call (this : CrmClientImpl.t) (auth : gmap string string)
    (endpoint : string) (options : RequestInit.t) : FetchCall.t :=
  let url := CrmClientImpl.baseUrl this +:+ endpoint in
  {| FetchCall.url := url;
     FetchCall.method := RequestInit.method options;
     FetchCall.headers := default ∅ (RequestInit.headers options) ∪ auth;
     FetchCall.body := RequestInit.body options |}.

(** [this.request<T>(endpoint, options)].  The headers are built while the
    argument of [fetch] is evaluated, so a failure of [getAuthHeaders] leaves
    the transport uncalled.  [None] is the [undefined] returned for a 204. *)
Definition request `{JSON} {T} (this : CrmClientImpl.t) (fetch : Transport T)
    (endpoint : string) (options : RequestInit.t) : M (option T) :=
  fun w =>
    match getAuthHeaders this with
    | Throw e => (Throw e, w)
    | Return auth =>
        let call := fetch_call this auth endpoint options in
        let response := fetch w call in
        (classify_response response, w ++ [call])
    end.

(** Reading a property of the value [request] returned: a TypeError when it
    is the [undefined] of a 204. *)
Definition defined {T} (response : option T) (property : string) : M T :=
  match response with
  | Some r => ret r
  | None =>
      throw (TypeError ("Cannot read properties of undefined (reading '" +:+ property +:+ "')"))
  end.

(** ** Connection (lines 416-426) *)

Module ConnectionStatus.
Record t : Type := { connected : bool; message : string }.
End ConnectionStatus.

(** Every error [request] throws is an [Error], so the handler's
    [error instanceof Error ? error.message : 'Connection failed'] is
    [error.message]. *)
Definition testConnection `{JSON} (this : CrmClientImpl.t)
    (fetch : Transport HubSpotListResponse.t) : M ConnectionStatus.t :=
  try_catch
    (do! request this fetch "/crm/v3/objects/contacts?limit=1" RequestInit.default in
     ret {| ConnectionStatus.connected := true;
            ConnectionStatus.message := "Successfully connected to HubSpot CRM" |})
    (fun error =>
       ret {| ConnectionStatus.connected := false;
              ConnectionStatus.message := exn_message error |}).

(** ** Mapping HubSpot objects to entities *)

Module Contact.
Record t : Type := {
  id : string;
  firstName : option string;
  lastName : option string;
  fullName : option string;
  email : option string;
  phone : option string;
  title : option string;
  companyName : option string;
  lifecycleStage : option string;
  status : option string;
  createdAt : string;
  updatedAt : string;
}.
End Contact.

(** Lines 432-451 *)
Definition mapHubSpotContact (obj : HubSpotObject.t) : Contact.t :=
  let props := HubSpotObject.properties obj in
  {| Contact.id := HubSpotObject.id obj;
     Contact.firstName := prop props "firstname";
     Contact.lastName := prop props "lastname";
     Contact.fullName :=
       if bool_decide (is_Some (prop props "firstname") ∨ is_Some (prop props "lastname"))
       then Some (trim (default "" (prop props "firstname") +:+ " "
                        +:+ default "" (prop props "lastname")))
       else None;
     Contact.email := prop props "email";
     Contact.phone := prop props "phone";
     Contact.title := prop props "jobtitle";
     Contact.companyName := prop props "company";
     Contact.lifecycleStage := prop props "lifecyclestage";
     Contact.status := prop props "hs_lead_status";
     Contact.createdAt := default (HubSpotObject.createdAt obj) (prop props "createdate");
     Contact.updatedAt := default (HubSpotObject.updatedAt obj) (prop props "lastmodifieddate") |}.

Module Company.
Record t : Type := {
  id : string;
  name : string;
  domain : option string;
  website : option string;
  industry : option string;
  description : option string;
  numberOfEmployees : option number;
  annualRevenue : option float;
  type : option string;
  phone : option string;
  createdAt : string;
  updatedAt : string;
}.
End Company.

(** Lines 608-624 *)
Definition mapHubSpotCompany (obj : HubSpotObject.t) : Company.t :=
  let props := HubSpotObject.properties obj in
  {| Company.id := HubSpotObject.id obj;
     Company.name := default "" (prop props "name");
     Company.domain := prop props "domain";
     Company.website := prop props "website";
     Company.industry := prop props "industry";
     Company.description := prop props "description";
     Company.numberOfEmployees := parseInt <$> prop props "numberofemployees";
     Company.annualRevenue := parseFloat <$> prop props "annualrevenue";
     Company.type := prop props "type";
     Company.phone := prop props "phone";
     Company.createdAt := default (HubSpotObject.createdAt obj) (prop props "createdate");
     Company.updatedAt := default (HubSpotObject.updatedAt obj) (prop props "lastmodifieddate") |}.

Module Deal.
Record t : Type := {
  id : string;
  name : string;
  amount : option float;
  stageId : option string;
  stage : option string;
  pipelineId : option string;
  closeDate : option string;
  probability : option float;
  createdAt : string;
  updatedAt : string;
}.
End Deal.

(** Lines 714-730 *)
Definition mapHubSpotDeal (obj : HubSpotObject.t) : Deal.t :=
  let props := HubSpotObject.properties obj in
  {| Deal.id := HubSpotObject.id obj;
     Deal.name := default "" (prop props "dealname");
     Deal.amount := parseFloat <$> prop props "amount";
     Deal.stageId := prop props "dealstage";
     Deal.stage := prop props "dealstage";
     Deal.pipelineId := prop props "pipeline";
     Deal.closeDate := prop props "closedate";
     Deal.probability := parseFloat <$> prop props "hs_deal_stage_probability";
     Deal.createdAt := default (HubSpotObject.createdAt obj) (prop props "createdate");
     Deal.updatedAt := default (HubSpotObject.updatedAt obj) (prop props "lastmodifieddate") |}.

Module Ticket.
Record t : Type := {
  id : string;
  subject : string;
  content : option string;
  pipelineId : option string;
  stageId : option string;
  priority : option string;
  ownerId : option string;
  createdAt : string;
  updatedAt : string;
}.
End Ticket.

(** Lines 1099-1112 *)
Definition mapHubSpotTicket (obj : HubSpotObject.t) : Ticket.t :=
  let props := HubSpotObject.properties obj in
  {| Ticket.id := HubSpotObject.id obj;
     Ticket.subject := default "" (prop props "subject");
     Ticket.content := prop props "content";
     Ticket.pipelineId := prop props "hs_pipeline";
     Ticket.stageId := prop props "hs_pipeline_stage";
     Ticket.priority := prop props "hs_ticket_priority";
     Ticket.ownerId := prop props "hubspot_owner_id";
     Ticket.createdAt := default (HubSpotObject.createdAt obj) (prop props "createdate");
     Ticket.updatedAt := default (HubSpotObject.updatedAt obj) (prop props "lastmodifieddate") |}.

Inductive ActivityKind : Type := call | email | note.

Module Activity.
Record t : Type := {
  id : string;
  type : ActivityKind;
  subject : string;
  body : option string;
  durationMinutes : option number;
  activityDate : option string;
  createdAt : string;
  updatedAt : string;
}.
End Activity.

(** [Math.round(parseInt(s, 10) / 1000 / 60)] *)
Definition duration_minutes_of (s : string) : number :=
  match parseInt s with
  | NaN => NaN
  | Finite ms => Finite (Math_round (Qdiv (Qdiv (inject_Z ms) (inject_Z 1000)) (inject_Z 60)))
  end.

(** Lines 837-874 *)
Definition mapHubSpotActivity (obj : HubSpotObject.t) (type : ActivityKind) : Activity.t :=
  let props := HubSpotObject.properties obj in
  match type with
  | call =>
      {| Activity.id := HubSpotObject.id obj;
         Activity.type := call;
         Activity.subject := default "" (prop props "hs_call_title");
         Activity.body := prop props "hs_call_body";
         Activity.durationMinutes := duration_minutes_of <$> prop props "hs_call_duration";
         Activity.activityDate := prop props "hs_timestamp";
         Activity.createdAt := HubSpotObject.createdAt obj;
         Activity.updatedAt := HubSpotObject.updatedAt obj |}
  | email =>
      {| Activity.id := HubSpotObject.id obj;
         Activity.type := email;
         Activity.subject := default "" (prop props "hs_email_subject");
         Activity.body := prop props "hs_email_text";
         Activity.durationMinutes := None;
         Activity.activityDate := prop props "hs_timestamp";
         Activity.createdAt := HubSpotObject.createdAt obj;
         Activity.updatedAt := HubSpotObject.updatedAt obj |}
  | note =>
      {| Activity.id := HubSpotObject.id obj;
         Activity.type := note;
         Activity.subject := "Note";
         Activity.body := prop props "hs_note_body";
         Activity.durationMinutes := None;
         Activity.activityDate := prop props "hs_timestamp";
         Activity.createdAt := HubSpotObject.createdAt obj;
         Activity.updatedAt := HubSpotObject.updatedAt obj |}
  end.

(** ** List operations

    The thirteen paginated list methods ([listContacts], lines 453-470, and its
    twelve siblings) have one body, up to the path, the property list and the
    mapper. *)

(** [params?.limit || 20] *)
Definition limit_or_default (limit : option number) : number :=
  match limit with
  | Some n => if truthy_number n then n else Finite 20
  | None => Finite 20
  end.

(** The query string of a list call. *)
Definition list_query (PROPERTIES : string) (params : option PaginationParams.t)
    : URLSearchParams :=
  let queryParams :=
    [("limit", Number_toString (limit_or_default (params ≫= PaginationParams.limit)));
     ("properties", PROPERTIES)] in
  match truthy (params ≫= PaginationParams.cursor) with
  | Some cursor => URLSearchParams_set queryParams "after" cursor
  | None => queryParams
  end.

(** [response.paging?.next?.after] *)
Definition next_after (paging : option Paging.t) : option string :=
  Paging.after <$> (paging ≫= Paging.next).

(** The object a list method returns for the response it received. *)
Definition paginated {T} (mapper : HubSpotObject.t -> T) (response : HubSpotListResponse.t)
    : PaginatedResponse.t T :=
  {| PaginatedResponse.items := map mapper (HubSpotListResponse.results response);
     PaginatedResponse.count := length (HubSpotListResponse.results response);
     PaginatedResponse.total := None;
     PaginatedResponse.hasMore :=
       bool_decide (is_Some (truthy (next_after (HubSpotListResponse.paging response))));
     PaginatedResponse.nextCursor := next_after (HubSpotListResponse.paging response) |}.

Definition listObjects `{JSON} {T} (path PROPERTIES : string) (mapper : HubSpotObject.t -> T)
    (this : CrmClientImpl.t) (fetch : Transport HubSpotListResponse.t)
    (params : option PaginationParams.t) : M (PaginatedResponse.t T) :=
  let queryParams := list_query PROPERTIES params in
  let! response :=
    request this fetch (path +:+ "?" +:+ URLSearchParams_toString queryParams)
      RequestInit.default in
  let! response := defined response "results" in
  ret (paginated mapper response).

(** The paginated list methods.  A family whose mapper is not modelled takes
    it as an argument. *)
Inductive ListMethod : Type :=
| listContacts | listCompanies | listDeals | listTickets | listProducts
| listLineItems | listQuotes | listNotes | listMeetings | listLeads
| listActivities | listInvoices | listOrders.

Definition list_path (m : ListMethod) : string :=
  match m with
  | listContacts => "/crm/v3/objects/contacts"
  | listCompanies => "/crm/v3/objects/companies"
  | listDeals => "/crm/v3/objects/deals"
  | listTickets => "/crm/v3/objects/tickets"
  | listProducts => "/crm/v3/objects/products"
  | listLineItems => "/crm/v3/objects/line_items"
  | listQuotes => "/crm/v3/objects/quotes"
  | listNotes => "/crm/v3/objects/notes"
  | listMeetings => "/crm/v3/objects/meetings"
  | listLeads => "/crm/v3/objects/leads"
  | listActivities => "/crm/v3/objects/calls"
  | listInvoices => "/crm/v3/objects/invoices"
  | listOrders => "/crm/v3/objects/orders"
  end.

Definition list_properties (m : ListMethod) : string :=
  match m with
  | listContacts => CONTACT_PROPERTIES
  | listCompanies => COMPANY_PROPERTIES
  | listDeals => DEAL_PROPERTIES
  | listTickets => TICKET_PROPERTIES
  | listProducts => PRODUCT_PROPERTIES
  | listLineItems => LINE_ITEM_PROPERTIES
  | listQuotes => QUOTE_PROPERTIES
  | listNotes => NOTE_PROPERTIES
  | listMeetings => MEETING_PROPERTIES
  | listLeads => LEAD_PROPERTIES
  | listActivities => CALL_PROPERTIES
  | listInvoices => INVOICE_PROPERTIES
  | listOrders => ORDER_PROPERTIES
  end.

(** The list method [m], with the mapper of its family. *)
Definition list_method `{JSON} {T} (m : ListMethod) (mapper : HubSpotObject.t -> T)
    : CrmClientImpl.t -> Transport HubSpotListResponse.t -> option PaginationParams.t ->
      M (PaginatedResponse.t T) :=
  listObjects (list_path m) (list_properties m) mapper.

Definition CrmClient_listContacts `{JSON} := list_method listContacts mapHubSpotContact.
Definition CrmClient_listCompanies `{JSON} := list_method listCompanies mapHubSpotCompany.
Definition CrmClient_listDeals `{JSON} := list_method listDeals mapHubSpotDeal.
Definition CrmClient_listTickets `{JSON} := list_method listTickets mapHubSpotTicket.
Definition CrmClient_listActivities `{JSON} :=
  list_method listActivities (fun obj => mapHubSpotActivity obj call).

(** ** Create and update: building the [properties] object

    A builder starts from [{}] and runs a sequence of guarded assignments
    [if (guard) properties.key = value]; the builders below list them in source
    order as [(key, value)] pairs, [value] being [None] when the guard fails.
    The [customFields] loop follows. *)

(** One guarded assignment. *)
Definition assign (properties : gmap string string) (entry : string * option string)
    : gmap string string :=
  match entry.2 with
  | Some v => <[entry.1 := v]> properties
  | None => properties
  end.

Definition assign_all (entries : list (string * option string)) : gmap string string :=
  foldl assign ∅ entries.

(** [value !== undefined && value !== null] *)
Definition not_nullish (value : JsValue) : bool :=
  match value with
  | JUndefined | JNull => false
  | _ => true
  end.

(** The body of the [for (const [key, value] of Object.entries(customFields))]
    loop. *)
Definition merge_entry (key : string) (value : JsValue) (properties : gmap string string)
    : gmap string string :=
  if not_nullish value
  then
    (* [properties.__proto__ = <string>] calls the accessor every object
       inherits, which ignores a string: no own property is added *)
    if String.eqb key "__proto__" then properties
    else <[key := ToString value]> properties
  else properties.

(** [if (input.customFields) { for ... }] *)
Definition merge_customFields (customFields : option (gmap string JsValue))
    (properties : gmap string string) : gmap string string :=
  match customFields with
  | Some entries => map_fold merge_entry properties entries
  | None => properties
  end.

(** Some [String(value)] of the [customFields] loop throws. *)
Definition customFields_throw (customFields : option (gmap string JsValue)) : bool :=
  match customFields with
  | Some entries =>
      bool_decide
        (map_Exists (fun _ value => not_nullish value && String_throws value = true) entries)
  | None => false
  end.

(** The [customFields] loop as a method runs it, before its request: it runs
    to its end, [merge_customFields] being what it leaves, or it throws the
    TypeError of [String]. *)
Definition customFields_loop (customFields : option (gmap string JsValue)) : M unit :=
  if customFields_throw customFields
  then throw (TypeError "Cannot convert object to primitive value")
  else ret tt.

(** [String(n)] of an optional number that passed [n !== undefined]. *)
Definition stringified (n : option number) : option string := Number_toString <$> n.

Module ContactCreateInput.
Record t : Type := {
  firstName : option string;
  lastName : option string;
  email : string;
  phone : option string;
  title : option string;
  companyId : option string;
  source : option string;
  customFields : option (gmap string JsValue);
}.
End ContactCreateInput.

Module ContactUpdateInput.
Record t : Type := {
  firstName : option string;
  lastName : option string;
  email : option string;
  phone : option string;
  title : option string;
  companyId : option string;
  customFields : option (gmap string JsValue);
}.
End ContactUpdateInput.

Module CompanyCreateInput.
Record t : Type := {
  name : string;
  domain : option string;
  industry : option string;
  description : option string;
  numberOfEmployees : option number;
  type : option string;
  phone : option string;
  customFields : option (gmap string JsValue);
}.
End CompanyCreateInput.

Module CompanyUpdateInput.
Record t : Type := {
  name : option string;
  domain : option string;
  industry : option string;
  description : option string;
  numberOfEmployees : option number;
  type : option string;
  phone : option string;
  customFields : option (gmap string JsValue);
}.
End CompanyUpdateInput.

Module DealCreateInput.
Record t : Type := {
  name : string;
  amount : option number;
  currency : option string;
  stageId : option string;
  pipelineId : option string;
  closeDate : option string;
  companyId : option string;
  customFields : option (gmap string JsValue);
}.
End DealCreateInput.

Module DealUpdateInput.
Record t : Type := {
  name : option string;
  amount : option number;
  currency : option string;
  stageId : option string;
  closeDate : option string;
  status : option string;
  closeReason : option string;
  customFields : option (gmap string JsValue);
}.
End DealUpdateInput.

Module TicketCreateInput.
Record t : Type := {
  subject : string;
  content : option string;
  pipelineId : option string;
  stageId : option string;
  priority : option string;
  contactId : option string;
  companyId : option string;
  ownerId : option string;
  customFields : option (gmap string JsValue);
}.
End TicketCreateInput.

Module TicketUpdateInput.
Record t : Type := {
  subject : option string;
  content : option string;
  status : option string;
  priority : option string;
  stageId : option string;
  ownerId : option string;
  customFields : option (gmap string JsValue);
}.
End TicketUpdateInput.

Module ProductCreateInput.
Record t : Type := {
  name : string;
  description : option string;
  price : option number;
  sku : option string;
  recurringBillingPeriod : option string;
  customFields : option (gmap string JsValue);
}.
End ProductCreateInput.

Module ProductUpdateInput.
Record t : Type := {
  name : option string;
  description : option string;
  price : option number;
  sku : option string;
  recurringBillingPeriod : option string;
  customFields : option (gmap string JsValue);
}.
End ProductUpdateInput.

Module LineItemCreateInput.
Record t : Type := {
  name : string;
  quantity : option number;
  price : option number;
  discount : option number;
  productId : option string;
  dealId : option string;
  customFields : option (gmap string JsValue);
}.
End LineItemCreateInput.

Module LineItemUpdateInput.
Record t : Type := {
  name : option string;
  quantity : option number;
  price : option number;
  discount : option number;
  customFields : option (gmap string JsValue);
}.
End LineItemUpdateInput.

Module QuoteCreateInput.
Record t : Type := {
  title : string;
  expirationDate : option string;
  dealId : option string;
  customFields : option (gmap string JsValue);
}.
End QuoteCreateInput.

Module QuoteUpdateInput.
Record t : Type := {
  title : option string;
  expirationDate : option string;
  status : option string;
  customFields : option (gmap string JsValue);
}.
End QuoteUpdateInput.

Module NoteUpdateInput.
Record t : Type := {
  body : option string;
  timestamp : option string;
  ownerId : option string;
}.
End NoteUpdateInput.

Module MeetingUpdateInput.
Record t : Type := {
  title : option string;
  body : option string;
  startTime : option string;
  endTime : option string;
  outcome : option string;
  ownerId : option string;
}.
End MeetingUpdateInput.

Module LeadCreateInput.
Record t : Type := {
  firstName : option string;
  lastName : option string;
  email : option string;
  phone : option string;
  company : option string;
  status : option string;
  source : option string;
  ownerId : option string;
  customFields : option (gmap string JsValue);
}.
End LeadCreateInput.

Module LeadUpdateInput.
Record t : Type := {
  firstName : option string;
  lastName : option string;
  email : option string;
  phone : option string;
  company : option string;
  status : option string;
  source : option string;
  ownerId : option string;
  customFields : option (gmap string JsValue);
}.
End LeadUpdateInput.

(** *** The guarded assignments of each create method, [if (input.x)] for a
    string and [if (input.x !== undefined)] for a number *)

(** Lines 482-486 *)
Definition createContact_fields (input : ContactCreateInput.t) : list (string * option string) :=
  [("firstname", truthy (ContactCreateInput.firstName input));
   ("lastname", truthy (ContactCreateInput.lastName input));
   ("email", truthy (Some (ContactCreateInput.email input)));
   ("phone", truthy (ContactCreateInput.phone input));
   ("jobtitle", truthy (ContactCreateInput.title input))].

(** Lines 655-662 *)
Definition createCompany_fields (input : CompanyCreateInput.t) : list (string * option string) :=
  [("name", truthy (Some (CompanyCreateInput.name input)));
   ("domain", truthy (CompanyCreateInput.domain input));
   ("industry", truthy (CompanyCreateInput.industry input));
   ("description", truthy (CompanyCreateInput.description input));
   ("numberofemployees", stringified (CompanyCreateInput.numberOfEmployees input));
   ("type", truthy (CompanyCreateInput.type input));
   ("phone", truthy (CompanyCreateInput.phone input))].

(** Lines 759-763 *)
Definition createDeal_fields (input : DealCreateInput.t) : list (string * option string) :=
  [("dealname", truthy (Some (DealCreateInput.name input)));
   ("amount", stringified (DealCreateInput.amount input));
   ("dealstage", truthy (DealCreateInput.stageId input));
   ("pipeline", truthy (DealCreateInput.pipelineId input));
   ("closedate", truthy (DealCreateInput.closeDate input))].

(** Lines 1143-1148 *)
Definition createTicket_fields (input : TicketCreateInput.t) : list (string * option string) :=
  [("subject", truthy (Some (TicketCreateInput.subject input)));
   ("content", truthy (TicketCreateInput.content input));
   ("hs_pipeline", truthy (TicketCreateInput.pipelineId input));
   ("hs_pipeline_stage", truthy (TicketCreateInput.stageId input));
   ("hs_ticket_priority", truthy (TicketCreateInput.priority input));
   ("hubspot_owner_id", truthy (TicketCreateInput.ownerId input))].

(** Lines 1320-1324 *)
Definition createProduct_fields (input : ProductCreateInput.t) : list (string * option string) :=
  [("name", truthy (Some (ProductCreateInput.name input)));
   ("description", truthy (ProductCreateInput.description input));
   ("price", stringified (ProductCreateInput.price input));
   ("hs_sku", truthy (ProductCreateInput.sku input));
   ("hs_recurring_billing_period", truthy (ProductCreateInput.recurringBillingPeriod input))].

(** Lines 1457-1461 *)
Definition createLineItem_fields (input : LineItemCreateInput.t) : list (string * option string) :=
  [("name", truthy (Some (LineItemCreateInput.name input)));
   ("quantity", stringified (LineItemCreateInput.quantity input));
   ("price", stringified (LineItemCreateInput.price input));
   ("discount", stringified (LineItemCreateInput.discount input));
   ("hs_product_id", truthy (LineItemCreateInput.productId input))].

(** Lines 1564-1565 *)
Definition createQuote_fields (input : QuoteCreateInput.t) : list (string * option string) :=
  [("hs_title", truthy (Some (QuoteCreateInput.title input)));
   ("hs_expiration_date", truthy (QuoteCreateInput.expirationDate input))].

(** Lines 1859-1865 *)
Definition createLead_fields (input : LeadCreateInput.t) : list (string * option string) :=
  [("firstname", truthy (LeadCreateInput.firstName input));
   ("lastname", truthy (LeadCreateInput.lastName input));
   ("email", truthy (LeadCreateInput.email input));
   ("phone", truthy (LeadCreateInput.phone input));
   ("company", truthy (LeadCreateInput.company input));
   ("hs_lead_status", truthy (LeadCreateInput.status input));
   ("hubspot_owner_id", truthy (LeadCreateInput.ownerId input))].

(** *** The guarded assignments of each update method, [if (input.x !==
    undefined)] throughout *)

(** Lines 508-512 *)
Definition updateContact_fields (input : ContactUpdateInput.t) : list (string * option string) :=
  [("firstname", ContactUpdateInput.firstName input);
   ("lastname", ContactUpdateInput.lastName input);
   ("email", ContactUpdateInput.email input);
   ("phone", ContactUpdateInput.phone input);
   ("jobtitle", ContactUpdateInput.title input)].

(** Lines 684-691 *)
Definition updateCompany_fields (input : CompanyUpdateInput.t) : list (string * option string) :=
  [("name", CompanyUpdateInput.name input);
   ("domain", CompanyUpdateInput.domain input);
   ("industry", CompanyUpdateInput.industry input);
   ("description", CompanyUpdateInput.description input);
   ("numberofemployees", stringified (CompanyUpdateInput.numberOfEmployees input));
   ("type", CompanyUpdateInput.type input);
   ("phone", CompanyUpdateInput.phone input)].

(** Lines 785-788 *)
Definition updateDeal_fields (input : DealUpdateInput.t) : list (string * option string) :=
  [("dealname", DealUpdateInput.name input);
   ("amount", stringified (DealUpdateInput.amount input));
   ("dealstage", DealUpdateInput.stageId input);
   ("closedate", DealUpdateInput.closeDate input)].

(** Lines 1183-1187 *)
Definition updateTicket_fields (input : TicketUpdateInput.t) : list (string * option string) :=
  [("subject", TicketUpdateInput.subject input);
   ("content", TicketUpdateInput.content input);
   ("hs_pipeline_stage", TicketUpdateInput.stageId input);
   ("hs_ticket_priority", TicketUpdateInput.priority input);
   ("hubspot_owner_id", TicketUpdateInput.ownerId input)].

(** Lines 1345-1350 *)
Definition updateProduct_fields (input : ProductUpdateInput.t) : list (string * option string) :=
  [("name", ProductUpdateInput.name input);
   ("description", ProductUpdateInput.description input);
   ("price", stringified (ProductUpdateInput.price input));
   ("hs_sku", ProductUpdateInput.sku input);
   ("hs_recurring_billing_period", ProductUpdateInput.recurringBillingPeriod input)].

(** Lines 1490-1493 *)
Definition updateLineItem_fields (input : LineItemUpdateInput.t) : list (string * option string) :=
  [("name", LineItemUpdateInput.name input);
   ("quantity", stringified (LineItemUpdateInput.quantity input));
   ("price", stringified (LineItemUpdateInput.price input));
   ("discount", stringified (LineItemUpdateInput.discount input))].

(** Lines 1594-1596 *)
Definition updateQuote_fields (input : QuoteUpdateInput.t) : list (string * option string) :=
  [("hs_title", QuoteUpdateInput.title input);
   ("hs_expiration_date", QuoteUpdateInput.expirationDate input);
   ("hs_status", QuoteUpdateInput.status input)].

(** Lines 1695-1697 *)
Definition updateNote_fields (input : NoteUpdateInput.t) : list (string * option string) :=
  [("hs_note_body", NoteUpdateInput.body input);
   ("hs_timestamp", NoteUpdateInput.timestamp input);
   ("hubspot_owner_id", NoteUpdateInput.ownerId input)].

(** Lines 1790-1795 *)
Definition updateMeeting_fields (input : MeetingUpdateInput.t) : list (string * option string) :=
  [("hs_meeting_title", MeetingUpdateInput.title input);
   ("hs_meeting_body", MeetingUpdateInput.body input);
   ("hs_meeting_start_time", MeetingUpdateInput.startTime input);
   ("hs_meeting_end_time", MeetingUpdateInput.endTime input);
   ("hs_meeting_outcome", MeetingUpdateInput.outcome input);
   ("hubspot_owner_id", MeetingUpdateInput.ownerId input)].

(** Lines 1886-1892 *)
Definition updateLead_fields (input : LeadUpdateInput.t) : list (string * option string) :=
  [("firstname", LeadUpdateInput.firstName input);
   ("lastname", LeadUpdateInput.lastName input);
   ("email", LeadUpdateInput.email input);
   ("phone", LeadUpdateInput.phone input);
   ("company", LeadUpdateInput.company input);
   ("hs_lead_status", LeadUpdateInput.status input);
   ("hubspot_owner_id", LeadUpdateInput.ownerId input)].

(** *** The create and update methods *)

Inductive CreateMethod : Type :=
| createContact | createCompany | createDeal | createTicket
| createProduct | createLineItem | createQuote | createLead.

Definition create_input (m : CreateMethod) : Type :=
  match m with
  | createContact => ContactCreateInput.t
  | createCompany => CompanyCreateInput.t
  | createDeal => DealCreateInput.t
  | createTicket => TicketCreateInput.t
  | createProduct => ProductCreateInput.t
  | createLineItem => LineItemCreateInput.t
  | createQuote => QuoteCreateInput.t
  | createLead => LeadCreateInput.t
  end.

Definition create_fields (m : CreateMethod) : create_input m -> list (string * option string) :=
  match m with
  | createContact => createContact_fields
  | createCompany => createCompany_fields
  | createDeal => createDeal_fields
  | createTicket => createTicket_fields
  | createProduct => createProduct_fields
  | createLineItem => createLineItem_fields
  | createQuote => createQuote_fields
  | createLead => createLead_fields
  end.

Definition create_customFields (m : CreateMethod)
    : create_input m -> option (gmap string JsValue) :=
  match m with
  | createContact => ContactCreateInput.customFields
  | createCompany => CompanyCreateInput.customFields
  | createDeal => DealCreateInput.customFields
  | createTicket => TicketCreateInput.customFields
  | createProduct => ProductCreateInput.customFields
  | createLineItem => LineItemCreateInput.customFields
  | createQuote => QuoteCreateInput.customFields
  | createLead => LeadCreateInput.customFields
  end.

(** The [properties] object a create method sends. *)
Definition create_properties (m : CreateMethod) (input : create_input m) : gmap string string :=
  merge_customFields (create_customFields m input) (assign_all (create_fields m input)).

Definition create_path (m : CreateMethod) : string :=
  match m with
  | createContact => "/crm/v3/objects/contacts"
  | createCompany => "/crm/v3/objects/companies"
  | createDeal => "/crm/v3/objects/deals"
  | createTicket => "/crm/v3/objects/tickets"
  | createProduct => "/crm/v3/objects/products"
  | createLineItem => "/crm/v3/objects/line_items"
  | createQuote => "/crm/v3/objects/quotes"
  | createLead => "/crm/v3/objects/leads"
  end.

(** The association request issued for an optional target id. *)
Definition association (path : string) (target : option string) (typeId : string) : list string :=
  match truthy target with
  | Some target => [path +:+ target +:+ "/" +:+ typeId]
  | None => []
  end.

(** The association requests a create method issues after the object exists
    (lines 1163-1175, 1476-1482, 1580-1586), in order. *)
Definition create_associations (m : CreateMethod) : create_input m -> string -> list string :=
  match m with
  | createTicket => fun input id =>
      association ("/crm/v3/objects/tickets/" +:+ id +:+ "/associations/contacts/")
        (TicketCreateInput.contactId input) "16"
      ++ association ("/crm/v3/objects/tickets/" +:+ id +:+ "/associations/companies/")
           (TicketCreateInput.companyId input) "26"
  | createLineItem => fun input id =>
      association ("/crm/v3/objects/line_items/" +:+ id +:+ "/associations/deals/")
        (LineItemCreateInput.dealId input) "20"
  | createQuote => fun input id =>
      association ("/crm/v3/objects/quotes/" +:+ id +:+ "/associations/deals/")
        (QuoteCreateInput.dealId input) "64"
  | _ => fun _ _ => []
  end.

(** [await this.request(path, { method: 'PUT' })] for each path in turn. *)
Fixpoint put_all `{JSON} (this : CrmClientImpl.t) (fetch : Transport JsValue)
    (paths : list string) : M unit :=
  match paths with
  | [] => ret tt
  | path :: rest =>
      do! request this fetch path (RequestInit.with_method "PUT") in
      put_all this fetch rest
  end.

(** A create method; [fetch_put] is the transport as the association calls
    read it. *)
Definition create_method `{JSON} {T} (m : CreateMethod) (mapper : HubSpotObject.t -> T)
    (this : CrmClientImpl.t) (fetch : Transport HubSpotObject.t) (fetch_put : Transport JsValue)
    (input : create_input m) : M T :=
  do! customFields_loop (create_customFields m input) in
  let properties := create_properties m input in
  let! response :=
    request this fetch (create_path m) (RequestInit.with_body "POST" (PropertiesBody properties)) in
  let! response :=
    defined response
      (match create_associations m input "" with [] => "properties" | _ => "id" end) in
  do! put_all this fetch_put (create_associations m input (HubSpotObject.id response)) in
  ret (mapper response).

Inductive UpdateMethod : Type :=
| updateContact | updateCompany | updateDeal | updateTicket | updateProduct
| updateLineItem | updateQuote | updateNote | updateMeeting | updateLead.

Definition update_input (m : UpdateMethod) : Type :=
  match m with
  | updateContact => ContactUpdateInput.t
  | updateCompany => CompanyUpdateInput.t
  | updateDeal => DealUpdateInput.t
  | updateTicket => TicketUpdateInput.t
  | updateProduct => ProductUpdateInput.t
  | updateLineItem => LineItemUpdateInput.t
  | updateQuote => QuoteUpdateInput.t
  | updateNote => NoteUpdateInput.t
  | updateMeeting => MeetingUpdateInput.t
  | updateLead => LeadUpdateInput.t
  end.

Definition update_fields (m : UpdateMethod) : update_input m -> list (string * option string) :=
  match m with
  | updateContact => updateContact_fields
  | updateCompany => updateCompany_fields
  | updateDeal => updateDeal_fields
  | updateTicket => updateTicket_fields
  | updateProduct => updateProduct_fields
  | updateLineItem => updateLineItem_fields
  | updateQuote => updateQuote_fields
  | updateNote => updateNote_fields
  | updateMeeting => updateMeeting_fields
  | updateLead => updateLead_fields
  end.

(** [updateNote] and [updateMeeting] have no [customFields] block. *)
Definition update_customFields (m : UpdateMethod)
    : update_input m -> option (gmap string JsValue) :=
  match m with
  | updateContact => ContactUpdateInput.customFields
  | updateCompany => CompanyUpdateInput.customFields
  | updateDeal => DealUpdateInput.customFields
  | updateTicket => TicketUpdateInput.customFields
  | updateProduct => ProductUpdateInput.customFields
  | updateLineItem => LineItemUpdateInput.customFields
  | updateQuote => QuoteUpdateInput.customFields
  | updateNote => fun _ => None
  | updateMeeting => fun _ => None
  | updateLead => LeadUpdateInput.customFields
  end.

(** The [properties] object an update method sends. *)
Definition update_properties (m : UpdateMethod) (input : update_input m) : gmap string string :=
  merge_customFields (update_customFields m input) (assign_all (update_fields m input)).

Definition update_path (m : UpdateMethod) (id : string) : string :=
  match m with
  | updateContact => "/crm/v3/objects/contacts/"
  | updateCompany => "/crm/v3/objects/companies/"
  | updateDeal => "/crm/v3/objects/deals/"
  | updateTicket => "/crm/v3/objects/tickets/"
  | updateProduct => "/crm/v3/objects/products/"
  | updateLineItem => "/crm/v3/objects/line_items/"
  | updateQuote => "/crm/v3/objects/quotes/"
  | updateNote => "/crm/v3/objects/notes/"
  | updateMeeting => "/crm/v3/objects/meetings/"
  | updateLead => "/crm/v3/objects/leads/"
  end +:+ id.

Definition update_method `{JSON} {T} (m : UpdateMethod) (mapper : HubSpotObject.t -> T)
    (this : CrmClientImpl.t) (fetch : Transport HubSpotObject.t)
    (id : string) (input : update_input m) : M T :=
  do! customFields_loop (update_customFields m input) in
  let properties := update_properties m input in
  let! response :=
    request this fetch (update_path m id)
      (RequestInit.with_body "PATCH" (PropertiesBody properties)) in
  let! response := defined response "properties" in
  ret (mapper response).

Definition CrmClient_createContact `{JSON} := create_method createContact mapHubSpotContact.
Definition CrmClient_updateContact `{JSON} := update_method updateContact mapHubSpotContact.
Definition CrmClient_createCompany `{JSON} := create_method createCompany mapHubSpotCompany.
Definition CrmClient_updateCompany `{JSON} := update_method updateCompany mapHubSpotCompany.
Definition CrmClient_createDeal `{JSON} := create_method createDeal mapHubSpotDeal.
Definition CrmClient_updateDeal `{JSON} := update_method updateDeal mapHubSpotDeal.
Definition CrmClient_createTicket `{JSON} := create_method createTicket mapHubSpotTicket.
Definition CrmClient_updateTicket `{JSON} := update_method updateTicket mapHubSpotTicket.

(** ** Search (lines 537-602 and the five sibling methods) *)

Definition operator_mapping : gmap string string :=
  list_to_map
    [("eq", "EQ"); ("neq", "NEQ"); ("lt", "LT"); ("lte", "LTE"); ("gt", "GT"); ("gte", "GTE");
     ("contains", "CONTAINS_TOKEN"); ("not_contains", "NOT_CONTAINS_TOKEN");
     ("in", "IN"); ("not_in", "NOT_IN");
     ("is_null", "NOT_HAS_PROPERTY"); ("is_not_null", "HAS_PROPERTY")].

(** The members the [mapping] object literal inherits from [Object.prototype]
    (in V8, the engine the adapter runs on). *)
Definition Object_prototype_members : list string :=
  ["constructor"; "__defineGetter__"; "__defineSetter__"; "hasOwnProperty";
   "__lookupGetter__"; "__lookupSetter__"; "isPrototypeOf"; "propertyIsEnumerable";
   "toString"; "valueOf"; "__proto__"; "toLocaleString"].

(** [mapping[op] || 'EQ']: the entry of the table; for a key the table does
    not have, the inherited member of that name when there is one (each is
    truthy), and ['EQ'] otherwise. *)
Definition mapFilterOperator (op : string) : MappedOperator :=
  match truthy (operator_mapping !! op) with
  | Some name => OperatorName name
  | None =>
      if bool_decide (op ∈ Object_prototype_members) then InheritedMember op
      else OperatorName "EQ"
  end.

(** The arrow function of [params.filters.map(...)]. *)
Definition map_filter (f : SearchFilter.t) : HubSpotFilter.t :=
  {| HubSpotFilter.propertyName := SearchFilter.field f;
     HubSpotFilter.operator := mapFilterOperator (FilterOperator_string (SearchFilter.operator f));
     HubSpotFilter.value := SearchFilter.value f |}.

Inductive SearchMethod : Type :=
| searchContacts | searchCompanies | searchDeals | searchTickets | searchProducts | searchLeads.

Definition search_path (m : SearchMethod) : string :=
  match m with
  | searchContacts => "/crm/v3/objects/contacts/search"
  | searchCompanies => "/crm/v3/objects/companies/search"
  | searchDeals => "/crm/v3/objects/deals/search"
  | searchTickets => "/crm/v3/objects/tickets/search"
  | searchProducts => "/crm/v3/objects/products/search"
  | searchLeads => "/crm/v3/objects/leads/search"
  end.

Definition search_properties (m : SearchMethod) : string :=
  match m with
  | searchContacts => CONTACT_PROPERTIES
  | searchCompanies => COMPANY_PROPERTIES
  | searchDeals => DEAL_PROPERTIES
  | searchTickets => TICKET_PROPERTIES
  | searchProducts => PRODUCT_PROPERTIES
  | searchLeads => LEAD_PROPERTIES
  end.

(** [searchProducts] and [searchLeads] have no [if (params.sortBy)] block. *)
Definition search_has_sorts (m : SearchMethod) : bool :=
  match m with
  | searchProducts | searchLeads => false
  | _ => true
  end.

(** The [body] a search method builds. *)
Definition search_body (m : SearchMethod) (params : SearchParams.t) : SearchBody.t :=
  {| SearchBody.limit := limit_or_default (SearchParams.limit params);
     SearchBody.properties := split_comma (search_properties m);
     SearchBody.query := truthy (SearchParams.query params);
     SearchBody.after := truthy (SearchParams.cursor params);
     SearchBody.filterGroups :=
       match SearchParams.filters params with
       | Some filters =>
           if (0 <? length filters)%nat
           then Some [ {| FilterGroup.filters := map map_filter filters |} ]
           else None
       | None => None
       end;
     SearchBody.sorts :=
       if search_has_sorts m then
         match truthy (SearchParams.sortBy params) with
         | Some sortBy =>
             Some [ {| HubSpotSort.propertyName := sortBy;
                       HubSpotSort.direction :=
                         match SearchParams.sortOrder params with
                         | Some desc => "DESCENDING"
                         | _ => "ASCENDING"
                         end |} ]
         | None => None
         end
       else None |}.

Definition search_result {T} (mapper : HubSpotObject.t -> T) (response : HubSpotSearchResponse.t)
    : PaginatedResponse.t T :=
  {| PaginatedResponse.items := map mapper (HubSpotSearchResponse.results response);
     PaginatedResponse.count := length (HubSpotSearchResponse.results response);
     PaginatedResponse.total := Some (HubSpotSearchResponse.total response);
     PaginatedResponse.hasMore :=
       bool_decide (is_Some (truthy (next_after (HubSpotSearchResponse.paging response))));
     PaginatedResponse.nextCursor := next_after (HubSpotSearchResponse.paging response) |}.

Definition search_method `{JSON} {T} (m : SearchMethod) (mapper : HubSpotObject.t -> T)
    (this : CrmClientImpl.t) (fetch : Transport HubSpotSearchResponse.t)
    (params : SearchParams.t) : M (PaginatedResponse.t T) :=
  let body := search_body m params in
  let! response :=
    request this fetch (search_path m) (RequestInit.with_body "POST" (SearchRequestBody body)) in
  let! response := defined response "results" in
  ret (search_result mapper response).

Definition CrmClient_searchCompanies `{JSON} := search_method searchCompanies mapHubSpotCompany.
Definition CrmClient_searchDeals `{JSON} := search_method searchDeals mapHubSpotDeal.
Definition CrmClient_searchTickets `{JSON} := search_method searchTickets mapHubSpotTicket.

(** ** Batch operations (lines 2193-2491) *)

Module BatchResponse.
Record t : Type := {
  status : string;
  results : list HubSpotObject.t;
  errors : option (list BatchError.t);
}.
End BatchResponse.

(** The [BatchResult] the three batch primitives return for a response. *)
Definition batch_result {T} (mapper : HubSpotObject.t -> T) (response : BatchResponse.t)
    : BatchResult.t T :=
  {| BatchResult.status := BatchResponse.status response;
     BatchResult.results := map mapper (BatchResponse.results response);
     BatchResult.errors := BatchResponse.errors response |}.

Definition batchRead `{JSON} {T} (this : CrmClientImpl.t) (fetch : Transport BatchResponse.t)
    (objectType : string) (ids : list string) (properties : list string)
    (mapper : HubSpotObject.t -> T) : M (BatchResult.t T) :=
  let! response :=
    request this fetch ("/crm/v3/objects/" +:+ objectType +:+ "/batch/read")
      (RequestInit.with_body "POST" (BatchReadBody ids properties)) in
  let! response := defined response "status" in
  ret (batch_result mapper response).

Definition batchCreate `{JSON} {I T} (this : CrmClientImpl.t) (fetch : Transport BatchResponse.t)
    (objectType : string) (inputs : list I) (propertyMapper : I -> gmap string string)
    (resultMapper : HubSpotObject.t -> T) : M (BatchResult.t T) :=
  let! response :=
    request this fetch ("/crm/v3/objects/" +:+ objectType +:+ "/batch/create")
      (RequestInit.with_body "POST" (BatchCreateBody (map propertyMapper inputs))) in
  let! response := defined response "status" in
  ret (batch_result resultMapper response).

(** An element of [inputs] is [{ id } & I]: the id and the rest. *)
Definition batchUpdate `{JSON} {I T} (this : CrmClientImpl.t) (fetch : Transport BatchResponse.t)
    (objectType : string) (inputs : list (string * I)) (propertyMapper : I -> gmap string string)
    (resultMapper : HubSpotObject.t -> T) : M (BatchResult.t T) :=
  let! response :=
    request this fetch ("/crm/v3/objects/" +:+ objectType +:+ "/batch/update")
      (RequestInit.with_body "POST"
         (BatchUpdateBody (map (fun input => (input.1, propertyMapper input.2)) inputs))) in
  let! response := defined response "status" in
  ret (batch_result resultMapper response).

Definition batchArchive `{JSON} (this : CrmClientImpl.t) (fetch : Transport JsValue)
    (objectType : string) (ids : list string) : M unit :=
  do! request this fetch ("/crm/v3/objects/" +:+ objectType +:+ "/batch/archive")
        (RequestInit.with_body "POST" (BatchArchiveBody ids)) in
  ret tt.

(** The property mappers of the batch methods read the standard fields only. *)
Definition batchCreateContacts_properties (input : ContactCreateInput.t) : gmap string string :=
  assign_all (createContact_fields input).

Definition batchUpdateContacts_properties (input : ContactUpdateInput.t) : gmap string string :=
  assign_all (updateContact_fields input).

(** Lines 2357-2366 *)
Definition batchCreateCompanies_properties (input : CompanyCreateInput.t) : gmap string string :=
  assign_all
    [("name", truthy (Some (CompanyCreateInput.name input)));
     ("domain", truthy (CompanyCreateInput.domain input));
     ("industry", truthy (CompanyCreateInput.industry input));
     ("description", truthy (CompanyCreateInput.description input));
     ("numberofemployees", stringified (CompanyCreateInput.numberOfEmployees input))].

(** Lines 2377-2386 *)
Definition batchUpdateCompanies_properties (input : CompanyUpdateInput.t) : gmap string string :=
  assign_all
    [("name", CompanyUpdateInput.name input);
     ("domain", CompanyUpdateInput.domain input);
     ("industry", CompanyUpdateInput.industry input);
     ("description", CompanyUpdateInput.description input);
     ("numberofemployees", stringified (CompanyUpdateInput.numberOfEmployees input))].

Definition batchCreateDeals_properties (input : DealCreateInput.t) : gmap string string :=
  assign_all (createDeal_fields input).

Definition batchUpdateDeals_properties (input : DealUpdateInput.t) : gmap string string :=
  assign_all (updateDeal_fields input).

(** Lines 2458-2466 *)
Definition batchCreateTickets_properties (input : TicketCreateInput.t) : gmap string string :=
  assign_all
    [("subject", truthy (Some (TicketCreateInput.subject input)));
     ("content", truthy (TicketCreateInput.content input));
     ("hs_pipeline", truthy (TicketCreateInput.pipelineId input));
     ("hs_pipeline_stage", truthy (TicketCreateInput.stageId input));
     ("hs_ticket_priority", truthy (TicketCreateInput.priority input))].

(** Lines 2477-2484 *)
Definition batchUpdateTickets_properties (input : TicketUpdateInput.t) : gmap string string :=
  assign_all
    [("subject", TicketUpdateInput.subject input);
     ("content", TicketUpdateInput.content input);
     ("hs_pipeline_stage", TicketUpdateInput.stageId input);
     ("hs_ticket_priority", TicketUpdateInput.priority input)].

(** [properties || X_PROPERTIES.split(',')] *)
Definition properties_or (properties : option (list string)) (PROPERTIES : string) : list string :=
  default (split_comma PROPERTIES) properties.

Definition batchReadContacts `{JSON} this fetch (ids : list string)
    (properties : option (list string)) : M (BatchResult.t Contact.t) :=
  batchRead this fetch "contacts" ids (properties_or properties CONTACT_PROPERTIES)
    mapHubSpotContact.
Definition batchCreateContacts `{JSON} this fetch (inputs : list ContactCreateInput.t)
    : M (BatchResult.t Contact.t) :=
  batchCreate this fetch "contacts" inputs batchCreateContacts_properties mapHubSpotContact.
Definition batchUpdateContacts `{JSON} this fetch (inputs : list (string * ContactUpdateInput.t))
    : M (BatchResult.t Contact.t) :=
  batchUpdate this fetch "contacts" inputs batchUpdateContacts_properties mapHubSpotContact.
Definition batchArchiveContacts `{JSON} this fetch (ids : list string) : M unit :=
  batchArchive this fetch "contacts" ids.

Definition batchReadCompanies `{JSON} this fetch (ids : list string)
    (properties : option (list string)) : M (BatchResult.t Company.t) :=
  batchRead this fetch "companies" ids (properties_or properties COMPANY_PROPERTIES)
    mapHubSpotCompany.
Definition batchCreateCompanies `{JSON} this fetch (inputs : list CompanyCreateInput.t)
    : M (BatchResult.t Company.t) :=
  batchCreate this fetch "companies" inputs batchCreateCompanies_properties mapHubSpotCompany.
Definition batchUpdateCompanies `{JSON} this fetch (inputs : list (string * CompanyUpdateInput.t))
    : M (BatchResult.t Company.t) :=
  batchUpdate this fetch "companies" inputs batchUpdateCompanies_properties mapHubSpotCompany.
Definition batchArchiveCompanies `{JSON} this fetch (ids : list string) : M unit :=
  batchArchive this fetch "companies" ids.

Definition batchReadDeals `{JSON} this fetch (ids : list string)
    (properties : option (list string)) : M (BatchResult.t Deal.t) :=
  batchRead this fetch "deals" ids (properties_or properties DEAL_PROPERTIES) mapHubSpotDeal.
Definition batchCreateDeals `{JSON} this fetch (inputs : list DealCreateInput.t)
    : M (BatchResult.t Deal.t) :=
  batchCreate this fetch "deals" inputs batchCreateDeals_properties mapHubSpotDeal.
Definition batchUpdateDeals `{JSON} this fetch (inputs : list (string * DealUpdateInput.t))
    : M (BatchResult.t Deal.t) :=
  batchUpdate this fetch "deals" inputs batchUpdateDeals_properties mapHubSpotDeal.
Definition batchArchiveDeals `{JSON} this fetch (ids : list string) : M unit :=
  batchArchive this fetch "deals" ids.

Definition batchReadTickets `{JSON} this fetch (ids : list string)
    (properties : option (list string)) : M (BatchResult.t Ticket.t) :=
  batchRead this fetch "tickets" ids (properties_or properties TICKET_PROPERTIES)
    mapHubSpotTicket.
Definition batchCreateTickets `{JSON} this fetch (inputs : list TicketCreateInput.t)
    : M (BatchResult.t Ticket.t) :=
  batchCreate this fetch "tickets" inputs batchCreateTickets_properties mapHubSpotTicket.
Definition batchUpdateTickets `{JSON} this fetch (inputs : list (string * TicketUpdateInput.t))
    : M (BatchResult.t Ticket.t) :=
  batchUpdate this fetch "tickets" inputs batchUpdateTickets_properties mapHubSpotTicket.
Definition batchArchiveTickets `{JSON} this fetch (ids : list string) : M unit :=
  batchArchive this fetch "tickets" ids.

(** ** Pipelines (lines 815-831, 1255-1271, 2551-2635) *)

(** [array.sort(compare)]: the stable sort by the sign of [compare], built by
    inserting each element after the elements that do not come after it. *)
Fixpoint sort_insert {A} (compare : A -> A -> Z) (x : A) (sorted : list A) : list A :=
  match sorted with
  | [] => [x]
  | y :: rest =>
      if compare x y <? 0 then x :: y :: rest else y :: sort_insert compare x rest
  end.

Definition Array_sort {A} (compare : A -> A -> Z) (l : list A) : list A :=
  foldl (fun sorted x => sort_insert compare x sorted) [] l.

(** [(a, b) => a.displayOrder - b.displayOrder] *)
Definition by_displayOrder (a b : HubSpotPipelineStage.t) : Z :=
  HubSpotPipelineStage.displayOrder a - HubSpotPipelineStage.displayOrder b.

(** The arrow function mapping a backend stage to a [PipelineStage]. *)
Definition map_stage (s : HubSpotPipelineStage.t) : PipelineStage.t :=
  {| PipelineStage.id := HubSpotPipelineStage.id s;
     PipelineStage.name := HubSpotPipelineStage.label s;
     PipelineStage.order := HubSpotPipelineStage.displayOrder s;
     PipelineStage.probability :=
       parseFloat <$> truthy (HubSpotPipelineStage.probability (HubSpotPipelineStage.metadata s));
     PipelineStage.isClosed :=
       bool_decide (HubSpotPipelineStage.isClosed (HubSpotPipelineStage.metadata s) = Some "true") |}.

(** The object literal [{ id, name, stages: stages.sort(...).map(...) }] that
    the five pipeline methods build, each in its own copy. *)
Definition map_pipeline (p : HubSpotPipeline.t) : Pipeline.t :=
  {| Pipeline.id := HubSpotPipeline.id p;
     Pipeline.name := HubSpotPipeline.label p;
     Pipeline.stages := map map_stage (Array_sort by_displayOrder (HubSpotPipeline.stages p)) |}.

Definition pipelines_of `{JSON} (this : CrmClientImpl.t)
    (fetch : Transport HubSpotPipelinesResponse.t) (path : string) : M (list Pipeline.t) :=
  let! response := request this fetch path RequestInit.default in
  let! response := defined response "results" in
  ret (map map_pipeline (HubSpotPipelinesResponse.results response)).

Definition listPipelines `{JSON} this fetch : M (list Pipeline.t) :=
  pipelines_of this fetch "/crm/v3/pipelines/deals".

Definition listTicketPipelines `{JSON} this fetch : M (list Pipeline.t) :=
  pipelines_of this fetch "/crm/v3/pipelines/tickets".

Definition getPipeline `{JSON} (this : CrmClientImpl.t) (fetch : Transport HubSpotPipeline.t)
    (objectType pipelineId : string) : M Pipeline.t :=
  let! response :=
    request this fetch ("/crm/v3/pipelines/" +:+ objectType +:+ "/" +:+ pipelineId)
      RequestInit.default in
  let! response := defined response "id" in
  ret (map_pipeline response).

(** [createPipeline] and [updatePipeline] send a body built from their input
    and then map the response as [getPipeline] does; [init] is the request
    they built. *)
Definition createPipeline `{JSON} (this : CrmClientImpl.t) (fetch : Transport HubSpotPipeline.t)
    (objectType : string) (init : RequestInit.t) : M Pipeline.t :=
  let! response := request this fetch ("/crm/v3/pipelines/" +:+ objectType) init in
  let! response := defined response "id" in
  ret (map_pipeline response).

Definition updatePipeline `{JSON} (this : CrmClientImpl.t) (fetch : Transport HubSpotPipeline.t)
    (objectType pipelineId : string) (init : RequestInit.t) : M Pipeline.t :=
  let! response :=
    request this fetch ("/crm/v3/pipelines/" +:+ objectType +:+ "/" +:+ pipelineId) init in
  let! response := defined response "id" in
  ret (map_pipeline response).

(** ** Logging a call (lines 928-956) *)

Definition Number_mul (a b : number) : number :=
  match a, b with
  | Finite x, Finite y => Finite (x * y)
  | _, _ => NaN
  end.

(** [if (n)] on an optional number. *)
Definition truthy_opt_number (n : option number) : option number :=
  match n with
  | Some n' => if truthy_number n' then Some n' else None
  | None => None
  end.

(** The [properties] [logCall] sends; [now] is [new Date().toISOString()]. *)
Definition logCall_properties (now : string) (subject : string) (notes : option string)
    (durationMinutes : option number) : gmap string string :=
  let properties : gmap string string :=
    <["hs_timestamp" := now]> (<["hs_call_title" := subject]> ∅) in
  let properties := assign properties ("hs_call_body", truthy notes) in
  assign properties
    ("hs_call_duration",
     (fun d => Number_toString (Number_mul (Number_mul d (Finite 60)) (Finite 1000)))
       <$> truthy_opt_number durationMinutes).

Definition logCall `{JSON} (this : CrmClientImpl.t) (fetch : Transport HubSpotObject.t)
    (fetch_put : Transport JsValue) (now : string)
    (contactId : string) (subject : string) (notes : option string)
    (durationMinutes : option number) : M Activity.t :=
  let properties := logCall_properties now subject notes durationMinutes in
  let! response :=
    request this fetch "/crm/v3/objects/calls"
      (RequestInit.with_body "POST" (PropertiesBody properties)) in
  let! response :=
    defined response (if truthy_string contactId then "id" else "properties") in
  do! put_all this fetch_put
        (association
           ("/crm/v3/objects/calls/" +:+ HubSpotObject.id response +:+ "/associations/contacts/")
           (Some contactId) "194") in
  ret (mapHubSpotActivity response call).

(** ** Reading and deleting one object

    [getContact] (lines 472-477) and its eleven siblings have one body, up to
    the path and the property list; so have [deleteContact] (lines 531-535) and
    its eight siblings. *)

Inductive GetMethod : Type :=
| getContact | getCompany | getDeal | getTicket | getProduct | getLineItem
| getQuote | getNote | getMeeting | getLead | getInvoice | getOrder.

Definition get_path (m : GetMethod) (id : string) : string :=
  match m with
  | getContact => "/crm/v3/objects/contacts/" +:+ id +:+ "?properties=" +:+ CONTACT_PROPERTIES
  | getCompany => "/crm/v3/objects/companies/" +:+ id +:+ "?properties=" +:+ COMPANY_PROPERTIES
  | getDeal => "/crm/v3/objects/deals/" +:+ id +:+ "?properties=" +:+ DEAL_PROPERTIES
  | getTicket => "/crm/v3/objects/tickets/" +:+ id +:+ "?properties=" +:+ TICKET_PROPERTIES
  | getProduct => "/crm/v3/objects/products/" +:+ id +:+ "?properties=" +:+ PRODUCT_PROPERTIES
  | getLineItem =>
      "/crm/v3/objects/line_items/" +:+ id +:+ "?properties=" +:+ LINE_ITEM_PROPERTIES
  | getQuote => "/crm/v3/objects/quotes/" +:+ id +:+ "?properties=" +:+ QUOTE_PROPERTIES
  | getNote => "/crm/v3/objects/notes/" +:+ id +:+ "?properties=" +:+ NOTE_PROPERTIES
  | getMeeting => "/crm/v3/objects/meetings/" +:+ id +:+ "?properties=" +:+ MEETING_PROPERTIES
  | getLead => "/crm/v3/objects/leads/" +:+ id +:+ "?properties=" +:+ LEAD_PROPERTIES
  | getInvoice => "/crm/v3/objects/invoices/" +:+ id +:+ "?properties=" +:+ INVOICE_PROPERTIES
  | getOrder => "/crm/v3/objects/orders/" +:+ id +:+ "?properties=" +:+ ORDER_PROPERTIES
  end.

(** The get method [m], with the mapper of its family. *)
Definition get_method `{JSON} {T} (m : GetMethod) (mapper : HubSpotObject.t -> T)
    (this : CrmClientImpl.t) (fetch : Transport HubSpotObject.t) (id : string) : M T :=
  let! response := request this fetch (get_path m id) RequestInit.default in
  let! response := defined response "properties" in
  ret (mapper response).

Inductive DeleteMethod : Type :=
| deleteContact | deleteCompany | deleteDeal | deleteTicket | deleteProduct
| deleteLineItem | deleteNote | deleteMeeting | deleteLead.

Definition delete_path (m : DeleteMethod) (id : string) : string :=
  match m with
  | deleteContact => "/crm/v3/objects/contacts/"
  | deleteCompany => "/crm/v3/objects/companies/"
  | deleteDeal => "/crm/v3/objects/deals/"
  | deleteTicket => "/crm/v3/objects/tickets/"
  | deleteProduct => "/crm/v3/objects/products/"
  | deleteLineItem => "/crm/v3/objects/line_items/"
  | deleteNote => "/crm/v3/objects/notes/"
  | deleteMeeting => "/crm/v3/objects/meetings/"
  | deleteLead => "/crm/v3/objects/leads/"
  end +:+ id.

Definition delete_method `{JSON} (m : DeleteMethod) (this : CrmClientImpl.t)
    (fetch : Transport JsValue) (id : string) : M unit :=
  do! request this fetch (delete_path m id) (RequestInit.with_method "DELETE") in
  ret tt.

(** ** Moving a deal to a stage (lines 807-813) *)

Definition moveDealStage `{JSON} (this : CrmClientImpl.t) (fetch : Transport HubSpotObject.t)
    (id stageId : string) : M Deal.t :=
  let! response :=
    request this fetch ("/crm/v3/objects/deals/" +:+ id)
      (RequestInit.with_body "PATCH" (PropertiesBody (<["dealstage" := stageId]> ∅))) in
  let! response := defined response "properties" in
  ret (mapHubSpotDeal response).

(** ** Logging an email and creating an activity (lines 896-926, 958-985) *)

Inductive EmailDirection : Type := sent | received.

(** The [properties] [logEmail] sends; [now] is [new Date().toISOString()]. *)
Definition logEmail_properties (now : string) (subject body : string)
    (direction : EmailDirection) : gmap string string :=
  <["hs_timestamp" := now]>
    (<["hs_email_direction" := match direction with
                               | sent => "EMAIL"
                               | received => "INCOMING_EMAIL"
                               end]>
       (<["hs_email_text" := body]> (<["hs_email_subject" := subject]> ∅))).

Definition logEmail `{JSON} (this : CrmClientImpl.t) (fetch : Transport HubSpotObject.t)
    (fetch_put : Transport JsValue) (now : string)
    (contactId : string) (subject body : string) (direction : EmailDirection) : M Activity.t :=
  let properties := logEmail_properties now subject body direction in
  let! response :=
    request this fetch "/crm/v3/objects/emails"
      (RequestInit.with_body "POST" (PropertiesBody properties)) in
  let! response :=
    defined response (if truthy_string contactId then "id" else "properties") in
  do! put_all this fetch_put
        (association
           ("/crm/v3/objects/emails/" +:+ HubSpotObject.id response +:+ "/associations/contacts/")
           (Some contactId) "198") in
  ret (mapHubSpotActivity response email).

Module ActivityType.
Inductive t : Type := call | email | meeting | task | note | other.
End ActivityType.

Module ActivityCreateInput.
Record t : Type := {
  type : ActivityType.t;
  subject : string;
  body : option string;
  dueDate : option string;
  contactIds : option (list string);
  companyId : option string;
  dealId : option string;
  customFields : option (gmap string JsValue);
}.
End ActivityCreateInput.

(** [input.contactIds?.[0] || ''] *)
Definition first_contactId (input : ActivityCreateInput.t) : string :=
  default "" (truthy (ActivityCreateInput.contactIds input ≫= head)).

(** The [properties] of the note [createActivity] stores for a type that is
    neither a call nor an email. *)
Definition createActivity_note_properties (now : string) (input : ActivityCreateInput.t)
    : gmap string string :=
  <["hs_timestamp" := now]>
    (<["hs_note_body" := default (ActivityCreateInput.subject input)
                           (truthy (ActivityCreateInput.body input))]> ∅).

(** The association [createActivity] asks for in its note branch:
    [if (input.contactIds && input.contactIds.length > 0)], to
    [input.contactIds[0]]. *)
Definition createActivity_note_associations (input : ActivityCreateInput.t) (id : string)
    : list string :=
  match ActivityCreateInput.contactIds input with
  | Some (contactId :: _) =>
      ["/crm/v3/objects/notes/" +:+ id +:+ "/associations/contacts/" +:+ contactId +:+ "/202"]
  | _ => []
  end.

Definition createActivity `{JSON} (this : CrmClientImpl.t) (fetch : Transport HubSpotObject.t)
    (fetch_put : Transport JsValue) (now : string) (input : ActivityCreateInput.t)
    : M Activity.t :=
  match ActivityCreateInput.type input with
  | ActivityType.call =>
      let contactId := first_contactId input in
      logCall this fetch fetch_put now contactId (ActivityCreateInput.subject input)
        (ActivityCreateInput.body input) None
  | ActivityType.email =>
      let contactId := first_contactId input in
      logEmail this fetch fetch_put now contactId (ActivityCreateInput.subject input)
        (default "" (truthy (ActivityCreateInput.body input))) sent
  | _ =>
      let properties := createActivity_note_properties now input in
      let! response :=
        request this fetch "/crm/v3/objects/notes"
          (RequestInit.with_body "POST" (PropertiesBody properties)) in
      let! response :=
        defined response
          (match createActivity_note_associations input "" with
           | [] => "properties"
           | _ => "id"
           end) in
      do! put_all this fetch_put
            (createActivity_note_associations input (HubSpotObject.id response)) in
      ret (mapHubSpotActivity response note)
  end.

(** ** Meetings (lines 1717-1785) *)

Module Meeting.
Record t : Type := {
  id : string;
  title : string;
  body : option string;
  startTime : option string;
  endTime : option string;
  outcome : option string;
  ownerId : option string;
  createdAt : string;
  updatedAt : string;
}.
End Meeting.

(** Lines 1717-1730 *)
Definition mapHubSpotMeeting (obj : HubSpotObject.t) : Meeting.t :=
  let props := HubSpotObject.properties obj in
  {| Meeting.id := HubSpotObject.id obj;
     Meeting.title := default "" (prop props "hs_meeting_title");
     Meeting.body := prop props "hs_meeting_body";
     Meeting.startTime := prop props "hs_meeting_start_time";
     Meeting.endTime := prop props "hs_meeting_end_time";
     Meeting.outcome := prop props "hs_meeting_outcome";
     Meeting.ownerId := prop props "hubspot_owner_id";
     Meeting.createdAt := default (HubSpotObject.createdAt obj) (prop props "createdate");
     Meeting.updatedAt := default (HubSpotObject.updatedAt obj) (prop props "lastmodifieddate") |}.

Module MeetingCreateInput.
Record t : Type := {
  title : string;
  body : option string;
  startTime : string;
  endTime : string;
  contactIds : option (list string);
  outcome : option string;
  ownerId : option string;
}.
End MeetingCreateInput.

(** Lines 1759-1767 *)
Definition createMeeting_properties (input : MeetingCreateInput.t) : gmap string string :=
  let properties : gmap string string :=
    <["hs_meeting_end_time" := MeetingCreateInput.endTime input]>
      (<["hs_meeting_start_time" := MeetingCreateInput.startTime input]>
         (<["hs_meeting_title" := MeetingCreateInput.title input]> ∅)) in
  foldl assign properties
    [("hs_meeting_body", truthy (MeetingCreateInput.body input));
     ("hs_meeting_outcome", truthy (MeetingCreateInput.outcome input));
     ("hubspot_owner_id", truthy (MeetingCreateInput.ownerId input))].

(** The association requests of the [for (const contactId of
    input.contactIds)] loop, in order. *)
Definition createMeeting_associations (input : MeetingCreateInput.t) (id : string)
    : list string :=
  map (fun contactId =>
         "/crm/v3/objects/meetings/" +:+ id +:+ "/associations/contacts/" +:+ contactId +:+ "/200")
      (default [] (MeetingCreateInput.contactIds input)).

Definition createMeeting `{JSON} (this : CrmClientImpl.t) (fetch : Transport HubSpotObject.t)
    (fetch_put : Transport JsValue) (input : MeetingCreateInput.t) : M Meeting.t :=
  let properties := createMeeting_properties input in
  let! response :=
    request this fetch "/crm/v3/objects/meetings"
      (RequestInit.with_body "POST" (PropertiesBody properties)) in
  let! response :=
    defined response
      (match createMeeting_associations input "" with [] => "properties" | _ => "id" end) in
  do! put_all this fetch_put (createMeeting_associations input (HubSpotObject.id response)) in
  ret (mapHubSpotMeeting response).

(** ** Vocabulary of the statements *)

(** A response the primitive turns into a result: a 2xx status other than 204
    whose body parses to [b]. *)
Definition delivers {T} (r : Response.t T) (b : T) : Prop :=
  200 <= Response.status r <= 299 /\ Response.status r <> 204 /\
  Response.json r = JsonResolved b.

(** The custom-field entry for [key]: its stringified value when the value
    is neither [undefined] nor [null]. *)
Definition custom_entry (customFields : option (gmap string JsValue)) (key : string)
    : option string :=
  entries ← customFields;
  value ← entries !! key;
  if not_nullish value then Some (ToString value) else None.



(** Every entry of [customFields] whose value is neither [undefined] nor
    [null], that [String] converts, and whose key is not [__proto__], is in
    [properties] under its own key as [String(value)]. *)
Definition merges (customFields : option (gmap string JsValue))
    (properties : gmap string string) : Prop :=
  forall entries key value,
    customFields = Some entries -> entries !! key = Some value ->
    value <> JUndefined -> value <> JNull -> String_throws value = false ->
    key <> "__proto__" ->
    properties !! key = Some (ToString value).

(** The create method [m] merges [customFields], the custom fields of
    [input], into the [properties] of its POST; it throws before any call when
    a [String(value)] throws. *)
Definition create_merges (m : CreateMethod) (input : create_input m)
    (customFields : option (gmap string JsValue)) : Prop :=
  merges customFields (create_properties m input) /\
  (forall (H : JSON) T (mapper : HubSpotObject.t -> T) this fetch fetch_put w auth,
     getAuthHeaders this = Return auth ->
     customFields_throw customFields = false ->
     exists rest,
       (create_method m mapper this fetch fetch_put input w).2 =
         w ++ fetch_call this auth (create_path m)
                (RequestInit.with_body "POST" (PropertiesBody (create_properties m input)))
              :: rest) /\
  (forall (H : JSON) T (mapper : HubSpotObject.t -> T) this fetch fetch_put w,
     customFields_throw customFields = true ->
     create_method m mapper this fetch fetch_put input w =
       (Throw (TypeError "Cannot convert object to primitive value"), w)).

(** The same for the update method [m]. *)
Definition update_merges (m : UpdateMethod) (input : update_input m)
    (customFields : option (gmap string JsValue)) : Prop :=
  merges customFields (update_properties m input) /\
  (forall (H : JSON) T (mapper : HubSpotObject.t -> T) this fetch id w auth,
     getAuthHeaders this = Return auth ->
     customFields_throw customFields = false ->
     (update_method m mapper this fetch id input w).2 =
       w ++ [fetch_call this auth (update_path m id)
               (RequestInit.with_body "PATCH" (PropertiesBody (update_properties m input)))]) /\
  (forall (H : JSON) T (mapper : HubSpotObject.t -> T) this fetch id w,
     customFields_throw customFields = true ->
     update_method m mapper this fetch id input w =
       (Throw (TypeError "Cannot convert object to primitive value"), w)).


(** [stages[i].order <= stages[i+1].order] for all [i] *)
Definition ascending (stages : list PipelineStage.t) : Prop :=
  forall i s t, stages !! i = Some s -> stages !! S i = Some t ->
                PipelineStage.order s <= PipelineStage.order t.

Definition le_displayOrder (a b : HubSpotPipelineStage.t) : Prop :=
  HubSpotPipelineStage.displayOrder a <= HubSpotPipelineStage.displayOrder b.

(** The value of a decimal numeral read left to right from [acc]. *)
Fixpoint uint_value (d : Decimal.uint) (acc : Z) : Z :=
  match d with
  | Decimal.Nil => acc
  | Decimal.D0 d' => uint_value d' (10 * acc + 0)
  | Decimal.D1 d' => uint_value d' (10 * acc + 1)
  | Decimal.D2 d' => uint_value d' (10 * acc + 2)
  | Decimal.D3 d' => uint_value d' (10 * acc + 3)
  | Decimal.D4 d' => uint_value d' (10 * acc + 4)
  | Decimal.D5 d' => uint_value d' (10 * acc + 5)
  | Decimal.D6 d' => uint_value d' (10 * acc + 6)
  | Decimal.D7 d' => uint_value d' (10 * acc + 7)
  | Decimal.D8 d' => uint_value d' (10 * acc + 8)
  | Decimal.D9 d' => uint_value d' (10 * acc + 9)
  end.

(** The association call [put_all] makes for [path]. *)
Definition put_call (this : CrmClientImpl.t) (auth : gmap string string) (path : string)
    : FetchCall.t :=
  fetch_call this auth path (RequestInit.with_method "PUT").

(** The transport answers the call with a response [request] returns from,
    whenever the call is made. *)
Definition accepts `{JSON} {T} (fetch : Transport T) (c : FetchCall.t) : Prop :=
  forall w, exists v, classify_response (fetch w c) = Return v.

(** The transport answers the call with a response on which [request] throws
    [e], whenever the call is made. *)
Definition rejects `{JSON} {T} (fetch : Transport T) (c : FetchCall.t) (e : exn) : Prop :=
  forall w, classify_response (fetch w c) = Throw e.

(** No character of [s] is one of [& = ? #], which separate and delimit the
    parameters of a query string. *)
Fixpoint no_separator (s : string) : bool :=
  match s with
  | EmptyString => true
  | String c s' =>
      negb (Ascii.eqb c "&" || Ascii.eqb c "=" || Ascii.eqb c "?" || Ascii.eqb c "#")
      && no_separator s'
  end.

(** ** Sample data for the worked examples *)

Definition dquote : string := String (ascii_of_nat 34) EmptyString.

(** The body [{"message":"Deal not found"}]. *)
Definition sample_error_body : string :=
  "{" +:+ dquote +:+ "message" +:+ dquote +:+ ":" +:+ dquote +:+ "Deal not found" +:+ dquote +:+ "}".

(** A [JSON.parse] that knows [sample_error_body] and rejects every other text. *)
Definition sample_JSON : JSON :=
  fun body =>
    if String.eqb body sample_error_body
    then Some (JObject [("message", JString "Deal not found")])
    else None.

Definition api_key_client : CrmClientImpl.t :=
  createCrmClient
    {| TenantCredentials.apiKey := Some "pat-na1-0000";
       TenantCredentials.baseUrl := None;
       TenantCredentials.accessToken := None |}.

Definition no_credentials : TenantCredentials.t :=
  {| TenantCredentials.apiKey := None;
     TenantCredentials.baseUrl := None;
     TenantCredentials.accessToken := None |}.

(** A transport that answers every call alike. *)
Definition answering {T} (status : Z) (headers : gmap string string) (text : string)
    (json : JsonResult T) : Transport T :=
  fun _ _ =>
    {| Response.status := status; Response.headers := headers;
       Response.text := text; Response.json := json |}.

Definition rate_limited (retryAfter : option string) : Transport HubSpotListResponse.t :=
  answering 429
    (match retryAfter with Some v => {[ "retry-after" := v ]} | None => ∅ end)
    "" (JsonRejected "").



Definition ann_with_custom_fields : ContactCreateInput.t :=
  {| ContactCreateInput.firstName := Some "Ann";
     ContactCreateInput.lastName := None;
     ContactCreateInput.email := "ann@example.com";
     ContactCreateInput.phone := None;
     ContactCreateInput.title := None;
     ContactCreateInput.companyId := None;
     ContactCreateInput.source := None;
     ContactCreateInput.customFields :=
       Some (<["firstname" := JString "Anna"]>
               (<["vip" := JBool true]> (<["score" := JNumber (Finite 42)]> ∅))) |}.


Definition created (id email : string) : HubSpotObject.t :=
  {| HubSpotObject.id := id;
     HubSpotObject.properties := {[ "email" := Some email ]};
     HubSpotObject.createdAt := "2024-05-01T10:00:00.000Z";
     HubSpotObject.updatedAt := "2024-05-01T10:00:00.000Z";
     HubSpotObject.archived := false |}.

(** A 207 body with two created contacts and one rejected input. *)
Definition two_created_one_rejected : BatchResponse.t :=
  {| BatchResponse.status := "COMPLETE";
     BatchResponse.results := [created "101" "ann@example.com"; created "102" "bob@example.com"];
     BatchResponse.errors :=
       Some [ {| BatchError.status := "error";
                 BatchError.message := "Contact already exists" |} ] |}.

Definition new_contact (email : string) : ContactCreateInput.t :=
  {| ContactCreateInput.firstName := None;
     ContactCreateInput.lastName := None;
     ContactCreateInput.email := email;
     ContactCreateInput.phone := None;
     ContactCreateInput.title := None;
     ContactCreateInput.companyId := None;
     ContactCreateInput.source := None;
     ContactCreateInput.customFields := None |}.

Definition page_with_cursor (after : string) : HubSpotListResponse.t :=
  {| HubSpotListResponse.results := [created "101" "ann@example.com"];
     HubSpotListResponse.paging := Some {| Paging.next := Some {| Paging.after := after |} |} |}.

Definition stage (id label : string) (displayOrder : Z) : HubSpotPipelineStage.t :=
  {| HubSpotPipelineStage.id := id;
     HubSpotPipelineStage.label := label;
     HubSpotPipelineStage.displayOrder := displayOrder;
     HubSpotPipelineStage.metadata :=
       {| HubSpotPipelineStage.probability := Some "0.5";
          HubSpotPipelineStage.isClosed := Some "false" |} |}.

(** A pipeline whose stages the backend returns out of order. *)
Definition shuffled_pipeline : HubSpotPipeline.t :=
  {| HubSpotPipeline.id := "default";
     HubSpotPipeline.label := "Sales";
     HubSpotPipeline.displayOrder := 0;
     HubSpotPipeline.stages :=
       [stage "c" "Contract sent" 2; stage "a" "Appointment" 0;
        stage "d" "Closed won" 3; stage "b" "Qualified" 1] |}.

Definition logged_call (duration : string) : HubSpotObject.t :=
  {| HubSpotObject.id := "7001";
     HubSpotObject.properties :=
       <["hs_call_duration" := Some duration]> {[ "hs_call_title" := Some "Intro call" ]};
     HubSpotObject.createdAt := "2024-05-01T10:00:00.000Z";
     HubSpotObject.updatedAt := "2024-05-01T10:00:00.000Z";
     HubSpotObject.archived := false |}.

(** A contact to create whose first name is the empty string. *)
Definition empty_first_name : ContactCreateInput.t :=
  {| ContactCreateInput.firstName := Some "";
     ContactCreateInput.lastName := Some "Lee";
     ContactCreateInput.email := "lee@example.com";
     ContactCreateInput.phone := None;
     ContactCreateInput.title := None;
     ContactCreateInput.companyId := None;
     ContactCreateInput.source := None;
     ContactCreateInput.customFields := None |}.

(** A ticket update that names nothing. *)
Definition nothing_to_update : TicketUpdateInput.t :=
  {| TicketUpdateInput.subject := None;
     TicketUpdateInput.content := None;
     TicketUpdateInput.status := None;
     TicketUpdateInput.priority := None;
     TicketUpdateInput.stageId := None;
     TicketUpdateInput.ownerId := None;
     TicketUpdateInput.customFields := Some ∅ |}.

(** A transport for the association calls that answers 500 to the calls to
    [url] and 200 to every other call. *)
Definition failing_on (url : string) : Transport JsValue :=
  fun _ c =>
    if String.eqb (FetchCall.url c) url
    then {| Response.status := 500; Response.headers := ∅;
            Response.text := "Internal Server Error";
            Response.json := JsonRejected "Unexpected token" |}
    else {| Response.status := 200; Response.headers := ∅;
            Response.text := "{}"; Response.json := JsonResolved (JObject []) |}.

(** A ticket to create for a contact and a company. *)
Definition ticket_for_contact_and_company : TicketCreateInput.t :=
  {| TicketCreateInput.subject := "Printer on fire";
     TicketCreateInput.content := None;
     TicketCreateInput.pipelineId := None;
     TicketCreateInput.stageId := None;
     TicketCreateInput.priority := Some "HIGH";
     TicketCreateInput.contactId := Some "201";
     TicketCreateInput.companyId := Some "301";
     TicketCreateInput.ownerId := None;
     TicketCreateInput.customFields := None |}.

(** A meeting with three attendees. *)
Definition kickoff_meeting : MeetingCreateInput.t :=
  {| MeetingCreateInput.title := "Kickoff";
     MeetingCreateInput.body := None;
     MeetingCreateInput.startTime := "2024-05-02T09:00:00.000Z";
     MeetingCreateInput.endTime := "2024-05-02T10:00:00.000Z";
     MeetingCreateInput.contactIds := Some ["201"; "202"; "203"];
     MeetingCreateInput.outcome := None;
     MeetingCreateInput.ownerId := None |}.

(** A task to record for two contacts. *)
Definition follow_up_task : ActivityCreateInput.t :=
  {| ActivityCreateInput.type := ActivityType.task;
     ActivityCreateInput.subject := "Send the quote";
     ActivityCreateInput.body := None;
     ActivityCreateInput.dueDate := Some "2024-05-03";
     ActivityCreateInput.contactIds := Some ["201"; "202"];
     ActivityCreateInput.companyId := None;
     ActivityCreateInput.dealId := None;
     ActivityCreateInput.customFields := None |}.

(** A company to create that has no employees yet. *)
Definition company_without_employees : CompanyCreateInput.t :=
  {| CompanyCreateInput.name := "Acme";
     CompanyCreateInput.domain := None;
     CompanyCreateInput.industry := None;
     CompanyCreateInput.description := None;
     CompanyCreateInput.numberOfEmployees := Some (Finite 0);
     CompanyCreateInput.type := None;
     CompanyCreateInput.phone := None;
     CompanyCreateInput.customFields := None |}.

(** A deal update that names only the stage; its one custom field is [null]. *)
Definition stage_only : DealUpdateInput.t :=
  {| DealUpdateInput.name := None;
     DealUpdateInput.amount := None;
     DealUpdateInput.currency := None;
     DealUpdateInput.stageId := Some "closedwon";
     DealUpdateInput.closeDate := None;
     DealUpdateInput.status := None;
     DealUpdateInput.closeReason := None;
     DealUpdateInput.customFields := Some {[ "legacy_score" := JNull ]} |}.


(** A contact to create with the given custom fields. *)
Definition contact_with (customFields : gmap string JsValue) : ContactCreateInput.t :=
  {| ContactCreateInput.firstName := None;
     ContactCreateInput.lastName := None;
     ContactCreateInput.email := "ann@example.com";
     ContactCreateInput.phone := None;
     ContactCreateInput.title := None;
     ContactCreateInput.companyId := None;
     ContactCreateInput.source := None;
     ContactCreateInput.customFields := Some customFields |}.

(* ========================================================================= *)
(** * Part II. Verified properties                                            *)
(* ========================================================================= *)

(** ** The request primitive *)

Lemma bind_throw {A B} (m : M A) (k : A -> M B) (w w' : World) (e : exn) :
  m w = (Throw e, w') -> bind m k w = (Throw e, w').
Proof. intros Hm. unfold bind. by rewrite Hm. Qed.

Lemma bind_return {A B} (m : M A) (k : A -> M B) (w w' : World) (a : A) :
  m w = (Return a, w') -> bind m k w = k a w'.
Proof. intros Hm. unfold bind. by rewrite Hm. Qed.

Lemma bind_ret {A B} (a : A) (k : A -> M B) (w : World) : bind (ret a) k w = k a w.
Proof. reflexivity. Qed.

Lemma getAuthHeaders_none (this : CrmClientImpl.t) :
  truthy (TenantCredentials.apiKey (CrmClientImpl.credentials this)) = None ->
  truthy (TenantCredentials.accessToken (CrmClientImpl.credentials this)) = None ->
  getAuthHeaders this =
    Throw (AuthenticationError
             "No credentials provided. Include X-CRM-API-Key or X-CRM-Access-Token header.").
Proof. intros Hk Ht. unfold getAuthHeaders. by rewrite Ht, Hk. Qed.

Lemma request_unauthenticated `{JSON} {T} (this : CrmClientImpl.t) (fetch : Transport T)
    (endpoint : string) (options : RequestInit.t) (w : World) (e : exn) :
  getAuthHeaders this = Throw e ->
  request this fetch endpoint options w = (Throw e, w).
Proof. intros Ha. unfold request. by rewrite Ha. Qed.

Lemma request_authenticated `{JSON} {T} (this : CrmClientImpl.t) (fetch : Transport T)
    (endpoint : string) (options : RequestInit.t) (w : World) (auth : gmap string string) :
  getAuthHeaders this = Return auth ->
  request this fetch endpoint options w =
    (classify_response (fetch w (fetch_call this auth endpoint options)),
     w ++ [fetch_call this auth endpoint options]).
Proof. intros Ha. unfold request. by rewrite Ha. Qed.

Lemma classify_delivers `{JSON} {T} (r : Response.t T) (b : T) :
  delivers r b -> classify_response r = Return (Some b).
Proof.
  intros (Hs & H204 & Hj). unfold classify_response, Response.ok.
  repeat case_match; try lia; try congruence;
    repeat match goal with
    | H : _ || _ = true |- _ => apply orb_true_iff in H; destruct H
    | H : negb _ = true |- _ => apply negb_true_iff in H
    | H : _ && _ = false |- _ => apply andb_false_iff in H; destruct H
    end; lia.
Qed.

Lemma request_delivers `{JSON} {T} (this : CrmClientImpl.t) (fetch : Transport T)
    (endpoint : string) (options : RequestInit.t) (w : World) (auth : gmap string string) (b : T) :
  getAuthHeaders this = Return auth ->
  delivers (fetch w (fetch_call this auth endpoint options)) b ->
  request this fetch endpoint options w =
    (Return (Some b), w ++ [fetch_call this auth endpoint options]).
Proof.
  intros Ha Hd. rewrite (request_authenticated _ _ _ _ _ _ Ha).
  by rewrite (classify_delivers _ _ Hd).
Qed.

(** [C1] Classification of the response inside [request].  With credentials
    present, [request] calls the transport once and, for the response [r] it
    receives: status 429 throws a RateLimitError; 401 and 403 throw an
    AuthenticationError; any other status outside 200..299 throws a
    CrmApiError with that status, whose message is the first truthy one of the
    JSON body's [message] and [error] fields, and ["API error: <status>"] when
    the body is not JSON, is [null], or has neither field; 204 returns
    [undefined]; any other 2xx status returns what [response.json()] yields
    (the parsed body, or its SyntaxError when the body is not JSON). *)
Theorem C1_request_classification `{JSON} {T} (this : CrmClientImpl.t) (fetch : Transport T)
    (endpoint : string) (options : RequestInit.t) (w : World) (auth : gmap string string) :
  getAuthHeaders this = Return auth ->
  let call := fetch_call this auth endpoint options in
  let r := fetch w call in
  let s := Response.status r in
  let fallback := JString ("API error: " +:+ Number_toString (Finite s)) in
  exists outcome : Outcome (option T),
    request this fetch endpoint options w = (outcome, w ++ [call]) /\
    (s = 429 -> exists delay, outcome = Throw (RateLimitError "Rate limit exceeded" delay)) /\
    (s = 401 \/ s = 403 ->
       outcome = Throw (AuthenticationError "Authentication failed. Check your API credentials.")) /\
    (s <> 429 -> s <> 401 -> s <> 403 -> ~ (200 <= s <= 299) ->
       exists message, outcome = Throw (CrmApiError message s) /\
         match JSON_parse (Response.text r) with
         | None => message = fallback
         | Some errorJson =>
             (errorJson = JNull -> message = fallback) /\
             (forall m e, JS_get errorJson "message" = Some m -> JS_get errorJson "error" = Some e ->
                (ToBoolean m = true -> message = m) /\
                (ToBoolean m = false -> ToBoolean e = true -> message = e) /\
                (m = JUndefined -> e = JUndefined -> message = fallback))
         end) /\
    (s = 204 -> outcome = Return None) /\
    (200 <= s <= 299 -> s <> 204 ->
       outcome = match Response.json r with
                 | JsonResolved v => Return (Some v)
                 | JsonRejected m => Throw (SyntaxError m)
                 end).
Proof.
  intros Ha call r s fallback.
  exists (classify_response r). split; [by apply request_authenticated|].
  unfold classify_response, Response.ok. fold s.
  repeat split.
  - intros ->. simpl. eauto.
  - intros [-> | ->]; reflexivity.
  - intros H429 H401 H403 Hok.
    destruct (s =? 429) eqn:E1; [lia|].
    destruct (s =? 401) eqn:E2; [lia|].
    destruct (s =? 403) eqn:E3; [lia|]. simpl.
    destruct ((200 <=? s) && (s <=? 299)) eqn:E4.
    { apply andb_true_iff in E4. lia. }
    simpl. eexists. split; [reflexivity|].
    unfold error_message. fold fallback.
    destruct (JSON_parse (Response.text r)) as [errorJson|]; [|reflexivity].
    split.
    + intros ->. reflexivity.
    + intros m e Hm He. rewrite Hm, He. unfold JS_or. repeat split.
      * intros ->. reflexivity.
      * intros -> ->. reflexivity.
      * intros -> ->. reflexivity.
  - intros ->. reflexivity.
  - intros Hs H204.
    destruct (s =? 429) eqn:E1; [lia|].
    destruct (s =? 401) eqn:E2; [lia|].
    destruct (s =? 403) eqn:E3; [lia|]. simpl.
    destruct ((200 <=? s) && (s <=? 299)) eqn:E4.
    2:{ apply andb_false_iff in E4. lia. }
    simpl. destruct (s =? 204) eqn:E5; [lia|]. reflexivity.
Qed.

(** A 404 whose body is [{"message":"Deal not found"}]: the CrmApiError carries
    404 and that message. *)
Lemma C1_witness :
  getAuthHeaders api_key_client = Return (bearer_headers "pat-na1-0000") /\
  request (H := sample_JSON) api_key_client
    (answering (T := HubSpotObject.t) 404 ∅ sample_error_body (JsonRejected "unused"))
    "/crm/v3/objects/deals/42" RequestInit.default [] =
  (Throw (CrmApiError (JString "Deal not found") 404),
   [fetch_call api_key_client (bearer_headers "pat-na1-0000")
      "/crm/v3/objects/deals/42" RequestInit.default]).
Proof.
  split; [reflexivity|].
  destruct (C1_request_classification (H := sample_JSON) api_key_client
              (answering (T := HubSpotObject.t) 404 ∅ sample_error_body (JsonRejected "unused"))
              "/crm/v3/objects/deals/42" RequestInit.default []
              (bearer_headers "pat-na1-0000") eq_refl)
    as (outcome & Hrun & _ & _ & Herr & _).
  rewrite Hrun. f_equal.
  destruct Herr as (message & -> & Hmsg); [done|done|done|cbn; lia|].
  vm_compute in Hmsg. destruct Hmsg as [_ Hmsg].
  destruct (Hmsg (JString "Deal not found") JUndefined eq_refl eq_refl) as (Hm & _).
  rewrite (Hm eq_refl). reflexivity.
Defined.

(** ** Missing credentials *)

(** [C2] as amended.  A client built from credentials with neither an API key
    nor an access token never reaches the transport: the request primitive,
    and with it every method that awaits it (the list, create, update, search,
    batch, pipeline and call-logging methods spelled out below), throws the
    AuthenticationError of [getAuthHeaders] and leaves the transport log as it
    was; a create or update method whose custom fields make [String] throw
    throws that TypeError instead, before it reaches the request, the log
    again unchanged; [testConnection] catches the AuthenticationError and
    returns [{connected: false, message}] instead, the log again unchanged. *)
Theorem C2_no_credentials_no_transport_call `{JSON} (credentials : TenantCredentials.t) :
  truthy (TenantCredentials.apiKey credentials) = None ->
  truthy (TenantCredentials.accessToken credentials) = None ->
  let this := createCrmClient credentials in
  let message :=
    "No credentials provided. Include X-CRM-API-Key or X-CRM-Access-Token header." in
  let unauthenticated := AuthenticationError message in
  (forall T A (fetch : Transport T) endpoint options (rest : option T -> M A) w,
     (let! response := request this fetch endpoint options in rest response) w
     = (Throw unauthenticated, w)) /\
  (forall T m (mapper : HubSpotObject.t -> T) fetch params w,
     list_method m mapper this fetch params w = (Throw unauthenticated, w)) /\
  (forall T m (mapper : HubSpotObject.t -> T) fetch fetch_put input w,
     create_method m mapper this fetch fetch_put input w
     = (Throw (if customFields_throw (create_customFields m input)
               then TypeError "Cannot convert object to primitive value"
               else unauthenticated), w)) /\
  (forall T m (mapper : HubSpotObject.t -> T) fetch id input w,
     update_method m mapper this fetch id input w
     = (Throw (if customFields_throw (update_customFields m input)
               then TypeError "Cannot convert object to primitive value"
               else unauthenticated), w)) /\
  (forall T m (mapper : HubSpotObject.t -> T) fetch params w,
     search_method m mapper this fetch params w = (Throw unauthenticated, w)) /\
  (forall T fetch objectType ids properties (mapper : HubSpotObject.t -> T) w,
     batchRead this fetch objectType ids properties mapper w = (Throw unauthenticated, w)) /\
  (forall I T fetch objectType (inputs : list I) propertyMapper
          (resultMapper : HubSpotObject.t -> T) w,
     batchCreate this fetch objectType inputs propertyMapper resultMapper w
     = (Throw unauthenticated, w)) /\
  (forall I T fetch objectType (inputs : list (string * I)) propertyMapper
          (resultMapper : HubSpotObject.t -> T) w,
     batchUpdate this fetch objectType inputs propertyMapper resultMapper w
     = (Throw unauthenticated, w)) /\
  (forall fetch objectType ids w,
     batchArchive this fetch objectType ids w = (Throw unauthenticated, w)) /\
  (forall fetch w, listPipelines this fetch w = (Throw unauthenticated, w)) /\
  (forall fetch w, listTicketPipelines this fetch w = (Throw unauthenticated, w)) /\
  (forall fetch objectType pipelineId w,
     getPipeline this fetch objectType pipelineId w = (Throw unauthenticated, w)) /\
  (forall fetch objectType init w,
     createPipeline this fetch objectType init w = (Throw unauthenticated, w)) /\
  (forall fetch objectType pipelineId init w,
     updatePipeline this fetch objectType pipelineId init w = (Throw unauthenticated, w)) /\
  (forall fetch fetch_put now contactId subject notes durationMinutes w,
     logCall this fetch fetch_put now contactId subject notes durationMinutes w
     = (Throw unauthenticated, w)) /\
  (forall fetch w,
     testConnection this fetch w
     = (Return {| ConnectionStatus.connected := false; ConnectionStatus.message := message |},
        w)).
Proof.
  intros Hk Ht this message unauthenticated.
  assert (Ha : getAuthHeaders this = Throw unauthenticated)
    by (by apply getAuthHeaders_none).
  assert (Hreq : forall T (fetch : Transport T) endpoint options w,
             request this fetch endpoint options w = (Throw unauthenticated, w))
    by (intros; by apply request_unauthenticated).
  repeat split; intros;
    try (apply bind_throw; apply Hreq);
    try (unfold create_method, update_method, customFields_loop;
         destruct (customFields_throw _); [reflexivity|];
         rewrite bind_ret; apply bind_throw; apply Hreq).
  unfold testConnection, try_catch.
  rewrite (bind_throw _ _ _ _ _ (Hreq _ _ _ _ _)). reflexivity.
Qed.

(** With no credentials at all, [listContacts] throws before any call. *)
Lemma C2_witness :
  CrmClient_listContacts (H := sample_JSON) (createCrmClient no_credentials)
    (answering 200 ∅ "" (JsonRejected "")) None []
  = (Throw (AuthenticationError
       "No credentials provided. Include X-CRM-API-Key or X-CRM-Access-Token header."), []).
Proof.
  exact (proj1 (proj2 (C2_no_credentials_no_transport_call (H := sample_JSON)
                         no_credentials eq_refl eq_refl))
           Contact.t listContacts mapHubSpotContact
           (answering 200 ∅ "" (JsonRejected "")) None []).
Defined.

(** [C2] as stated fails for [testConnection]: invoked without credentials it
    returns a value and throws nothing.  It also fails for a create whose
    custom field [String] cannot convert: invoked without credentials it
    throws the TypeError of that conversion, not an AuthenticationError. *)
Lemma C2_counterexample :
  testConnection (H := sample_JSON) (createCrmClient no_credentials)
    (answering 200 ∅ "" (JsonRejected "")) []
  = (Return {| ConnectionStatus.connected := false;
               ConnectionStatus.message :=
                 "No credentials provided. Include X-CRM-API-Key or X-CRM-Access-Token header." |},
     []) /\
  CrmClient_createContact (H := sample_JSON) (createCrmClient no_credentials)
    (answering 201 ∅ "" (JsonResolved (created "1" "ann@example.com")))
    (answering 200 ∅ "" (JsonResolved JNull))
    (contact_with {[ "prefs" := JObject [("toString", JNull)] ]}) []
  = (Throw (TypeError "Cannot convert object to primitive value"), []).
Proof. split; [reflexivity | by vm_compute]. Qed.

(** ** Rate limiting *)

(** [C3] The retry delay of the RateLimitError thrown for a 429.  A header
    [Retry-After: 30] gives 30 and a missing header gives 60, as claimed; a
    header that does not start with a decimal integer, such as the HTTP-date
    form of Retry-After, gives NaN and not the claimed default of 60. *)
Theorem C3_retry_after_delay `{JSON} :
  let run retryAfter :=
    (request api_key_client (rate_limited retryAfter) "/crm/v3/objects/contacts?limit=1"
       RequestInit.default []).1 in
  run (Some "30") = Throw (RateLimitError "Rate limit exceeded" (Finite 30)) /\
  run None = Throw (RateLimitError "Rate limit exceeded" (Finite 60)) /\
  run (Some "Wed, 21 Oct 2015 07:28:00 GMT") = Throw (RateLimitError "Rate limit exceeded" NaN) /\
  run (Some "soon") = Throw (RateLimitError "Rate limit exceeded" NaN).
Proof. repeat split. Qed.

(** ** Building [properties] *)

Lemma foldl_assign_absent (entries : list (string * option string))
    (properties : gmap string string) (k : string) :
  (forall v, (k, Some v) ∉ entries) ->
  foldl assign properties entries !! k = properties !! k.
Proof.
  revert properties. induction entries as [|[k' o] entries IH]; intros properties Hk; [done|].
  simpl. rewrite IH.
  - unfold assign. simpl. destruct o as [v|]; [|done].
    rewrite lookup_insert_ne; [done|]. intros ->. apply (Hk v). left.
  - intros v Hin. apply (Hk v). by right.
Qed.

Lemma foldl_assign_present (entries : list (string * option string))
    (properties : gmap string string) (k v : string) :
  NoDup entries.*1 -> (k, Some v) ∈ entries ->
  foldl assign properties entries !! k = Some v.
Proof.
  revert properties. induction entries as [|[k' o] entries IH]; intros properties Hnd Hin.
  { by apply elem_of_nil in Hin. }
  simpl in Hnd. apply NoDup_cons in Hnd as [Hk' Hnd].
  apply elem_of_cons in Hin as [Heq | Hin]; simpl.
  - injection Heq as <- <-. rewrite foldl_assign_absent.
    + unfold assign. simpl. apply lookup_insert_eq.
    + intros v' Hin. apply Hk'. apply list_elem_of_fmap. by exists (k, Some v').
  - by apply IH.
Qed.

Lemma foldl_assign_inv (entries : list (string * option string))
    (properties : gmap string string) (k v : string) :
  foldl assign properties entries !! k = Some v ->
  (k, Some v) ∈ entries \/ properties !! k = Some v.
Proof.
  revert properties. induction entries as [|[k' o] entries IH]; intros properties Hl; [by right|].
  simpl in Hl. apply IH in Hl as [Hin | Hl]; [left; by right|].
  unfold assign in Hl. simpl in Hl. destruct o as [v'|]; [|by right].
  destruct (decide (k' = k)) as [->|Hne].
  - rewrite lookup_insert_eq in Hl. injection Hl as ->. left. left.
  - rewrite lookup_insert_ne in Hl by done. by right.
Qed.

(** With distinct keys, the guarded assignments leave exactly the entries whose
    guard held. *)
Lemma assign_all_lookup (entries : list (string * option string)) (k v : string) :
  NoDup entries.*1 ->
  assign_all entries !! k = Some v <-> (k, Some v) ∈ entries.
Proof.
  intros Hnd. unfold assign_all. split.
  - intros Hl. apply foldl_assign_inv in Hl as [Hin | Hl]; [done|].
    by rewrite lookup_empty in Hl.
  - by apply foldl_assign_present.
Qed.


(** The [customFields] loop overlays the custom entries on what was built,
    the key [__proto__] apart. *)
Lemma merge_customFields_lookup (customFields : option (gmap string JsValue))
    (properties : gmap string string) (k : string) :
  k <> "__proto__" ->
  merge_customFields customFields properties !! k =
    match custom_entry customFields k with
    | Some s => Some s
    | None => properties !! k
    end.
Proof.
  intros Hk.
  destruct customFields as [entries|]; [|done]. unfold merge_customFields, custom_entry. simpl.
  revert k Hk. apply (map_fold_weak_ind
    (fun r (m : gmap string JsValue) => forall k, k <> "__proto__" -> r !! k =
       match m !! k ≫= (fun value => if not_nullish value then Some (ToString value) else None)
       with Some s => Some s | None => properties !! k end)).
  - intros k _. by rewrite lookup_empty.
  - intros i x m r Hi IH k Hk. unfold merge_entry.
    destruct (decide (i = k)) as [->|Hne].
    + rewrite lookup_insert_eq. simpl.
      destruct (String.eqb_spec k "__proto__") as [->|_]; [done|].
      destruct (not_nullish x).
      * by rewrite lookup_insert_eq.
      * rewrite IH, Hi; done.
    + rewrite lookup_insert_ne by done.
      destruct (not_nullish x); [|by apply IH].
      destruct (String.eqb i "__proto__"); [by apply IH|].
      rewrite lookup_insert_ne by done. by apply IH.
Qed.

(** The loop leaves the key [__proto__] as it was. *)
Lemma merge_customFields_proto (customFields : option (gmap string JsValue))
    (properties : gmap string string) :
  merge_customFields customFields properties !! "__proto__" = properties !! "__proto__".
Proof.
  destruct customFields as [entries|]; [|done]. unfold merge_customFields.
  apply (map_fold_weak_ind
    (fun r (m : gmap string JsValue) => r !! "__proto__" = properties !! "__proto__")).
  - done.
  - intros i x m r Hi IH. unfold merge_entry.
    destruct (not_nullish x); [|done].
    destruct (String.eqb_spec i "__proto__") as [->|Hne]; [done|].
    by rewrite lookup_insert_ne.
Qed.

Lemma merge_customFields_absent (customFields : option (gmap string JsValue))
    (properties : gmap string string) (k : string) :
  custom_entry customFields k = None \/ k = "__proto__" ->
  merge_customFields customFields properties !! k = properties !! k.
Proof.
  destruct (decide (k = "__proto__")) as [->|Hne]; [intros _; apply merge_customFields_proto|].
  intros [Hc|Hk]; [|done]. by rewrite merge_customFields_lookup, Hc.
Qed.

Lemma create_fields_NoDup (m : CreateMethod) (input : create_input m) :
  NoDup (create_fields m input).*1.
Proof. destruct m; apply (bool_decide_unpack _); by vm_compute. Qed.


Lemma custom_entry_Some (customFields : option (gmap string JsValue))
    (entries : gmap string JsValue) (key : string) (value : JsValue) :
  customFields = Some entries -> entries !! key = Some value ->
  value <> JUndefined -> value <> JNull ->
  custom_entry customFields key = Some (ToString value).
Proof.
  intros -> Hv Hu Hn. unfold custom_entry. simpl. rewrite Hv. simpl.
  by destruct value.
Qed.

(** When every custom entry is [undefined] or [null], no [String] is called. *)
Lemma custom_entries_None_no_throw (customFields : option (gmap string JsValue)) :
  (forall k, custom_entry customFields k = None) -> customFields_throw customFields = false.
Proof.
  intros Hnone. destruct customFields as [entries|]; [|done]. unfold customFields_throw.
  apply bool_decide_eq_false. intros (k & value & Hk & Hv).
  specialize (Hnone k). unfold custom_entry in Hnone. simpl in Hnone. rewrite Hk in Hnone.
  simpl in Hnone. apply andb_true_iff in Hv as [Hv _]. by rewrite Hv in Hnone.
Qed.

Lemma customFields_throw_empty : customFields_throw (Some ∅) = false.
Proof.
  apply bool_decide_eq_false. intros (k & value & Hk & _). by rewrite lookup_empty in Hk.
Qed.

Lemma customFields_loop_runs {B} (customFields : option (gmap string JsValue))
    (k : unit -> M B) (w : World) :
  customFields_throw customFields = false ->
  bind (customFields_loop customFields) k w = k tt w.
Proof. intros Hc. unfold customFields_loop. by rewrite Hc. Qed.

Lemma customFields_loop_throws {B} (customFields : option (gmap string JsValue))
    (k : unit -> M B) (w : World) :
  customFields_throw customFields = true ->
  bind (customFields_loop customFields) k w =
    (Throw (TypeError "Cannot convert object to primitive value"), w).
Proof. intros Hc. unfold customFields_loop. by rewrite Hc. Qed.

Lemma update_method_log `{JSON} {T} (m : UpdateMethod) (mapper : HubSpotObject.t -> T)
    (this : CrmClientImpl.t) (fetch : Transport HubSpotObject.t) (id : string)
    (input : update_input m) (w : World) (auth : gmap string string) :
  getAuthHeaders this = Return auth ->
  customFields_throw (update_customFields m input) = false ->
  (update_method m mapper this fetch id input w).2 =
    w ++ [fetch_call this auth (update_path m id)
            (RequestInit.with_body "PATCH" (PropertiesBody (update_properties m input)))].
Proof.
  intros Ha Hc. unfold update_method. rewrite customFields_loop_runs by done. unfold bind.
  rewrite (request_authenticated _ _ _ _ _ _ Ha).
  destruct (classify_response _) as [[r|]|e]; reflexivity.
Qed.

Lemma request_log_prefix `{JSON} {T} (this : CrmClientImpl.t) (fetch : Transport T)
    (endpoint : string) (options : RequestInit.t) (w : World) :
  exists calls, (request this fetch endpoint options w).2 = w ++ calls.
Proof.
  unfold request. destruct (getAuthHeaders this); simpl; [by eexists|].
  exists []. by rewrite app_nil_r.
Qed.

Lemma put_all_log_prefix `{JSON} (this : CrmClientImpl.t) (fetch : Transport JsValue)
    (paths : list string) (w : World) :
  exists calls, (put_all this fetch paths w).2 = w ++ calls.
Proof.
  revert w. induction paths as [|path paths IH]; intros w.
  - exists []. simpl. by rewrite app_nil_r.
  - cbn [put_all]. unfold bind.
    destruct (request_log_prefix this fetch path (RequestInit.with_method "PUT") w)
      as [calls Hcalls].
    destruct (request this fetch path (RequestInit.with_method "PUT") w) as [[r|e] w'];
      simpl in Hcalls; subst w'.
    + destruct (IH (w ++ calls)) as [calls' Hcalls']. exists (calls ++ calls').
      rewrite Hcalls'. by rewrite app_assoc.
    + by exists calls.
Qed.

(** The first call of a method that POSTs and then associates. *)
Lemma post_then_associate_log `{JSON} {A} (this : CrmClientImpl.t)
    (fetch : Transport HubSpotObject.t) (fetch_put : Transport JsValue)
    (path : string) (body : RequestBody) (property : string)
    (associations : HubSpotObject.t -> list string) (result : HubSpotObject.t -> A)
    (w : World) (auth : gmap string string) :
  getAuthHeaders this = Return auth ->
  exists rest,
    (bind (request this fetch path (RequestInit.with_body "POST" body))
       (fun response =>
          bind (defined response property)
            (fun response =>
               bind (put_all this fetch_put (associations response))
                 (fun _ => ret (result response)))) w).2
    = w ++ fetch_call this auth path (RequestInit.with_body "POST" body) :: rest.
Proof.
  intros Ha. unfold bind. rewrite (request_authenticated _ _ _ _ _ _ Ha).
  destruct (classify_response _) as [[obj|]|e]; simpl; try by exists [].
  destruct (put_all_log_prefix this fetch_put (associations obj)
              (w ++ [fetch_call this auth path (RequestInit.with_body "POST" body)]))
    as [calls Hcalls].
  destruct (put_all this fetch_put (associations obj) _) as [[[]|e] w'];
    simpl in Hcalls; subst w'; exists calls; simpl; by rewrite <- app_assoc.
Qed.

Lemma create_method_log `{JSON} {T} (m : CreateMethod) (mapper : HubSpotObject.t -> T)
    (this : CrmClientImpl.t) (fetch : Transport HubSpotObject.t) (fetch_put : Transport JsValue)
    (input : create_input m) (w : World) (auth : gmap string string) :
  getAuthHeaders this = Return auth ->
  customFields_throw (create_customFields m input) = false ->
  exists rest,
    (create_method m mapper this fetch fetch_put input w).2 =
      w ++ fetch_call this auth (create_path m)
             (RequestInit.with_body "POST" (PropertiesBody (create_properties m input)))
           :: rest.
Proof.
  intros Ha Hc. unfold create_method. rewrite customFields_loop_runs by done.
  by apply (post_then_associate_log this fetch fetch_put (create_path m) _ _
              (fun response => create_associations m input (HubSpotObject.id response))
              mapper).
Qed.


Lemma merges_intro (customFields : option (gmap string JsValue))
    (properties : gmap string string) :
  merges customFields (merge_customFields customFields properties).
Proof.
  intros entries key value Hc Hv Hu Hn _ Hk.
  rewrite merge_customFields_lookup by done.
  by rewrite (custom_entry_Some _ _ _ _ Hc Hv Hu Hn).
Qed.

Lemma create_merges_intro (m : CreateMethod) (input : create_input m) :
  create_merges m input (create_customFields m input).
Proof.
  split; [apply merges_intro|]. split.
  - intros. by apply create_method_log.
  - intros. unfold create_method. by apply customFields_loop_throws.
Qed.

Lemma update_merges_intro (m : UpdateMethod) (input : update_input m) :
  update_merges m input (update_customFields m input).
Proof.
  split; [apply merges_intro|]. split.
  - intros. by apply update_method_log.
  - intros. unfold update_method. by apply customFields_loop_throws.
Qed.




(** [C8] as amended.  For each of the eight create methods and the eight
    update methods whose input carries [customFields]: every entry whose
    value is neither [undefined] nor [null] and that [String] converts, and
    whose key is not [__proto__], is in the [properties] of the method under
    its own key, with the value [String(value)], whatever the standard fields
    assigned (on a collision the custom field wins); when no [String(value)]
    throws, those [properties] are the body of the POST, which is the first
    call of a create method, or of the PATCH, which is the one call of an
    update method; and when a [String(value)] throws, the method throws that
    TypeError and calls nothing. *)
Theorem C8_customFields_merged :
  ((forall input : ContactCreateInput.t,
      create_merges createContact input (ContactCreateInput.customFields input)) /\
   (forall input : CompanyCreateInput.t,
      create_merges createCompany input (CompanyCreateInput.customFields input)) /\
   (forall input : DealCreateInput.t,
      create_merges createDeal input (DealCreateInput.customFields input)) /\
   (forall input : TicketCreateInput.t,
      create_merges createTicket input (TicketCreateInput.customFields input)) /\
   (forall input : ProductCreateInput.t,
      create_merges createProduct input (ProductCreateInput.customFields input)) /\
   (forall input : LineItemCreateInput.t,
      create_merges createLineItem input (LineItemCreateInput.customFields input)) /\
   (forall input : QuoteCreateInput.t,
      create_merges createQuote input (QuoteCreateInput.customFields input)) /\
   (forall input : LeadCreateInput.t,
      create_merges createLead input (LeadCreateInput.customFields input))) /\
  ((forall input : ContactUpdateInput.t,
      update_merges updateContact input (ContactUpdateInput.customFields input)) /\
   (forall input : CompanyUpdateInput.t,
      update_merges updateCompany input (CompanyUpdateInput.customFields input)) /\
   (forall input : DealUpdateInput.t,
      update_merges updateDeal input (DealUpdateInput.customFields input)) /\
   (forall input : TicketUpdateInput.t,
      update_merges updateTicket input (TicketUpdateInput.customFields input)) /\
   (forall input : ProductUpdateInput.t,
      update_merges updateProduct input (ProductUpdateInput.customFields input)) /\
   (forall input : LineItemUpdateInput.t,
      update_merges updateLineItem input (LineItemUpdateInput.customFields input)) /\
   (forall input : QuoteUpdateInput.t,
      update_merges updateQuote input (QuoteUpdateInput.customFields input)) /\
   (forall input : LeadUpdateInput.t,
      update_merges updateLead input (LeadUpdateInput.customFields input))).
Proof.
  split.
  - split; [exact (create_merges_intro createContact)|].
    split; [exact (create_merges_intro createCompany)|].
    split; [exact (create_merges_intro createDeal)|].
    split; [exact (create_merges_intro createTicket)|].
    split; [exact (create_merges_intro createProduct)|].
    split; [exact (create_merges_intro createLineItem)|].
    split; [exact (create_merges_intro createQuote)|].
    exact (create_merges_intro createLead).
  - split; [exact (update_merges_intro updateContact)|].
    split; [exact (update_merges_intro updateCompany)|].
    split; [exact (update_merges_intro updateDeal)|].
    split; [exact (update_merges_intro updateTicket)|].
    split; [exact (update_merges_intro updateProduct)|].
    split; [exact (update_merges_intro updateLineItem)|].
    split; [exact (update_merges_intro updateQuote)|].
    exact (update_merges_intro updateLead).
Qed.

(** A create input whose custom field [firstname] collides with the mapped
    first name: the custom value is sent, and the boolean and the number go
    out as text. *)
Lemma C8_witness :
  create_properties createContact ann_with_custom_fields !! "firstname" = Some "Anna" /\
  create_properties createContact ann_with_custom_fields !! "vip" = Some "true" /\
  create_properties createContact ann_with_custom_fields !! "score" = Some "42".
Proof.
  pose proof (proj1 (proj1 (proj1 C8_customFields_merged) ann_with_custom_fields)) as Hm.
  split; [|split].
  - by apply (Hm _ "firstname" (JString "Anna") eq_refl).
  - by apply (Hm _ "vip" (JBool true) eq_refl).
  - by apply (Hm _ "score" (JNumber (Finite 42)) eq_refl).
Defined.

(** [C8] as stated fails three times.  The batch create of the same input
    leaves the custom field [vip] out; a custom field named [__proto__] is
    not sent; and a custom field whose value [String] cannot convert makes
    the create throw a TypeError before any call. *)
Lemma C8_counterexample :
  (ContactCreateInput.customFields ann_with_custom_fields ≫= (.!! "vip") = Some (JBool true) /\
   batchCreateContacts_properties ann_with_custom_fields !! "vip" = None) /\
  create_properties createContact (contact_with {[ "__proto__" := JString "x" ]}) !! "__proto__"
    = None /\
  CrmClient_createContact (H := sample_JSON) api_key_client
    (answering 201 ∅ "" (JsonResolved (created "1" "ann@example.com")))
    (answering 200 ∅ "" (JsonResolved JNull))
    (contact_with {[ "prefs" := JObject [("toString", JNull)] ]}) []
  = (Throw (TypeError "Cannot convert object to primitive value"), []).
Proof. split; [split|split]; by vm_compute. Qed.

(** ** Search filters *)







(** ** Batch operations *)

(** [C6] Partial failure of a batch call.  With credentials present, when the
    backend answers the batch call with a 2xx status other than 204 and a body
    holding results and errors, each of [batchRead], [batchCreate] and
    [batchUpdate] returns (throws nothing) one [BatchResult] with the body's
    status, the mapped results and the body's errors, after exactly one
    transport call; so the result has as many results and as many errors as
    the body: 2 and 1 for a body with 2 successes and 1 error. *)
Theorem C6_batch_partial_failure `{JSON} {I T} (this : CrmClientImpl.t)
    (fetch : Transport BatchResponse.t) (auth : gmap string string) (w : World)
    (objectType : string) (b : BatchResponse.t) (mapper : HubSpotObject.t -> T)
    (propertyMapper : I -> gmap string string) :
  getAuthHeaders this = Return auth ->
  let result :=
    {| BatchResult.status := BatchResponse.status b;
       BatchResult.results := map mapper (BatchResponse.results b);
       BatchResult.errors := BatchResponse.errors b |} in
  (forall ids properties,
     let call :=
       fetch_call this auth ("/crm/v3/objects/" +:+ objectType +:+ "/batch/read")
         (RequestInit.with_body "POST" (BatchReadBody ids properties)) in
     delivers (fetch w call) b ->
     batchRead this fetch objectType ids properties mapper w = (Return result, w ++ [call])) /\
  (forall inputs : list I,
     let call :=
       fetch_call this auth ("/crm/v3/objects/" +:+ objectType +:+ "/batch/create")
         (RequestInit.with_body "POST" (BatchCreateBody (map propertyMapper inputs))) in
     delivers (fetch w call) b ->
     batchCreate this fetch objectType inputs propertyMapper mapper w
     = (Return result, w ++ [call])) /\
  (forall inputs : list (string * I),
     let call :=
       fetch_call this auth ("/crm/v3/objects/" +:+ objectType +:+ "/batch/update")
         (RequestInit.with_body "POST"
            (BatchUpdateBody (map (fun input => (input.1, propertyMapper input.2)) inputs))) in
     delivers (fetch w call) b ->
     batchUpdate this fetch objectType inputs propertyMapper mapper w
     = (Return result, w ++ [call])) /\
  length (BatchResult.results result) = length (BatchResponse.results b) /\
  length <$> BatchResult.errors result = length <$> BatchResponse.errors b.
Proof.
  intros Ha result.
  split; [|split; [|split; [|split]]].
  - intros ids properties call Hd. unfold batchRead.
    erewrite bind_return; [|by apply request_delivers]. reflexivity.
  - intros inputs call Hd. unfold batchCreate.
    erewrite bind_return; [|by apply request_delivers]. reflexivity.
  - intros inputs call Hd. unfold batchUpdate.
    erewrite bind_return; [|by apply request_delivers]. reflexivity.
  - simpl. apply length_map.
  - reflexivity.
Qed.

(** [batchCreateContacts] on a 207 answer with two created contacts and one
    rejected input returns a result with two results and one error. *)
Lemma C6_witness :
  exists result w',
    batchCreateContacts (H := sample_JSON) api_key_client
      (answering 207 ∅ "" (JsonResolved two_created_one_rejected))
      [new_contact "ann@example.com"; new_contact "bob@example.com";
       new_contact "ann@example.com"] []
    = (Return result, w') /\
    length (BatchResult.results result) = 2%nat /\
    length <$> BatchResult.errors result = Some 1%nat /\
    length w' = 1%nat.
Proof.
  destruct (C6_batch_partial_failure (H := sample_JSON) (I := ContactCreateInput.t)
              api_key_client
              (answering 207 ∅ "" (JsonResolved two_created_one_rejected))
              (bearer_headers "pat-na1-0000") [] "contacts" two_created_one_rejected
              mapHubSpotContact batchCreateContacts_properties eq_refl)
    as (_ & Hcreate & _ & Hresults & Herrors).
  eexists _, _. split.
  - apply Hcreate. repeat split; cbn; lia.
  - split; [exact Hresults|]. split; [exact Herrors|]. reflexivity.
Defined.

(** ** Pagination *)

Lemma list_query_default_limit (PROPERTIES : string) (params : option PaginationParams.t) :
  params ≫= PaginationParams.limit = None ->
  URLSearchParams_get (list_query PROPERTIES params) "limit" = Some "20" /\
  exists rest, URLSearchParams_toString (list_query PROPERTIES params) = "limit=20&" +:+ rest.
Proof.
  intros Hl. unfold list_query. rewrite Hl.
  destruct (truthy (params ≫= PaginationParams.cursor)) as [cursor|].
  - split; [reflexivity|]. eexists. cbn. reflexivity.
  - split; [reflexivity|]. eexists. cbn. reflexivity.
Qed.

Lemma list_method_log `{JSON} {T} (m : ListMethod) (mapper : HubSpotObject.t -> T)
    (this : CrmClientImpl.t) (fetch : Transport HubSpotListResponse.t)
    (params : option PaginationParams.t) (w : World) (auth : gmap string string) :
  getAuthHeaders this = Return auth ->
  (list_method m mapper this fetch params w).2 =
    w ++ [fetch_call this auth
            (list_path m +:+ "?"
             +:+ URLSearchParams_toString (list_query (list_properties m) params))
            RequestInit.default].
Proof.
  intros Ha. unfold list_method, listObjects, bind.
  rewrite (request_authenticated _ _ _ _ _ _ Ha).
  destruct (classify_response _) as [[r|]|e]; reflexivity.
Qed.

Lemma list_method_delivers `{JSON} {T} (m : ListMethod) (mapper : HubSpotObject.t -> T)
    (this : CrmClientImpl.t) (fetch : Transport HubSpotListResponse.t)
    (params : option PaginationParams.t) (w : World) (auth : gmap string string)
    (response : HubSpotListResponse.t) :
  getAuthHeaders this = Return auth ->
  delivers (fetch w (fetch_call this auth
                       (list_path m +:+ "?"
                        +:+ URLSearchParams_toString (list_query (list_properties m) params))
                       RequestInit.default)) response ->
  (list_method m mapper this fetch params w).1 = Return (paginated mapper response).
Proof.
  intros Ha Hd. unfold list_method, listObjects.
  erewrite bind_return; [|by apply request_delivers]. reflexivity.
Qed.

(** [C7] as amended.  For each of the thirteen paginated list methods: when no
    limit is given, the query of the one call made has [limit=20]; and the
    page returned for a response has the mapped results as items, their number
    as count, [nextCursor] equal to [paging.next.after] verbatim when that
    pointer is there and [undefined] when [paging] or [next] is missing, and
    [hasMore] true exactly when the pointer is there and is not the empty
    string. *)
Theorem C7_list_pagination `{JSON} {T} (m : ListMethod) (mapper : HubSpotObject.t -> T)
    (this : CrmClientImpl.t) (fetch : Transport HubSpotListResponse.t)
    (params : option PaginationParams.t) (w : World) (auth : gmap string string) :
  getAuthHeaders this = Return auth ->
  let query := list_query (list_properties m) params in
  let call :=
    fetch_call this auth (list_path m +:+ "?" +:+ URLSearchParams_toString query)
      RequestInit.default in
  (list_method m mapper this fetch params w).2 = w ++ [call] /\
  (params ≫= PaginationParams.limit = None ->
     URLSearchParams_get query "limit" = Some "20" /\
     exists rest, URLSearchParams_toString query = "limit=20&" +:+ rest) /\
  (forall response, delivers (fetch w call) response ->
     exists page, (list_method m mapper this fetch params w).1 = Return page /\
       PaginatedResponse.items page = map mapper (HubSpotListResponse.results response) /\
       PaginatedResponse.count page = length (PaginatedResponse.items page) /\
       (forall after,
          HubSpotListResponse.paging response
          = Some {| Paging.next := Some {| Paging.after := after |} |} ->
          PaginatedResponse.nextCursor page = Some after /\
          (PaginatedResponse.hasMore page = true <-> after <> "")) /\
       (HubSpotListResponse.paging response = None \/
        HubSpotListResponse.paging response = Some {| Paging.next := None |} ->
        PaginatedResponse.nextCursor page = None /\ PaginatedResponse.hasMore page = false)).
Proof.
  intros Ha query call. split; [by apply list_method_log|]. split.
  { apply list_query_default_limit. }
  intros response Hd. exists (paginated mapper response).
  split; [by eapply list_method_delivers|].
  split; [reflexivity|]. split; [simpl; by rewrite length_map|]. split.
  - intros after Hp. unfold paginated. simpl. rewrite Hp. simpl. split; [reflexivity|].
    destruct after; simpl; split; intros; done.
  - intros [Hp | Hp]; unfold paginated; simpl; rewrite Hp; simpl; split; try reflexivity.
Qed.

(** [listContacts()] with no parameters against a backend that answers with
    one contact and the cursor ["2048"]. *)
Lemma C7_witness :
  exists page w',
    CrmClient_listContacts (H := sample_JSON) api_key_client
      (answering 200 ∅ "" (JsonResolved (page_with_cursor "2048"))) None []
    = (Return page, w') /\
    FetchCall.url <$> w'
    = ["https://api.hubapi.com/crm/v3/objects/contacts?limit=20&properties=firstname%2Clastname%2Cemail%2Cphone%2Cjobtitle%2Ccompany%2Clifecyclestage%2Chs_lead_status%2Ccreatedate%2Clastmodifieddate"] /\
    PaginatedResponse.count page = 1%nat /\
    PaginatedResponse.hasMore page = true /\
    PaginatedResponse.nextCursor page = Some "2048".
Proof.
  destruct (C7_list_pagination (H := sample_JSON) listContacts mapHubSpotContact api_key_client
              (answering 200 ∅ "" (JsonResolved (page_with_cursor "2048"))) None []
              (bearer_headers "pat-na1-0000") eq_refl)
    as (Hlog & _ & Hpage).
  destruct (Hpage (page_with_cursor "2048")) as (page & Hrun & Hitems & Hcount & Hnext & _).
  { repeat split; cbn; lia. }
  destruct (Hnext "2048" eq_refl) as (Hcursor & Hmore).
  exists page, (CrmClient_listContacts (H := sample_JSON) api_key_client
                  (answering 200 ∅ "" (JsonResolved (page_with_cursor "2048"))) None []).2.
  split; [|split; [|split; [|split]]].
  - rewrite <- Hrun. apply surjective_pairing.
  - unfold CrmClient_listContacts. rewrite Hlog. reflexivity.
  - rewrite Hcount, Hitems. reflexivity.
  - apply Hmore. discriminate.
  - exact Hcursor.
Defined.

(** [C7] as stated fails when the pointer is the empty string: it is present,
    [nextCursor] repeats it, and [hasMore] is false. *)
Lemma C7_counterexample :
  HubSpotListResponse.paging (page_with_cursor "")
  = Some {| Paging.next := Some {| Paging.after := "" |} |} /\
  PaginatedResponse.hasMore (paginated mapHubSpotContact (page_with_cursor "")) = false /\
  PaginatedResponse.nextCursor (paginated mapHubSpotContact (page_with_cursor "")) = Some "".
Proof. by vm_compute. Qed.

(** ** Pipelines *)

Lemma sort_insert_HdRel (y x : HubSpotPipelineStage.t) (l : list HubSpotPipelineStage.t) :
  le_displayOrder y x -> HdRel le_displayOrder y l ->
  HdRel le_displayOrder y (sort_insert by_displayOrder x l).
Proof.
  intros Hyx Hy. destruct l as [|z l]; simpl; [by constructor|].
  destruct (by_displayOrder x z <? 0); constructor; [done|].
  by inversion Hy.
Qed.

Lemma sort_insert_Sorted (x : HubSpotPipelineStage.t) (l : list HubSpotPipelineStage.t) :
  Sorted le_displayOrder l -> Sorted le_displayOrder (sort_insert by_displayOrder x l).
Proof.
  induction l as [|y l IH]; intros Hs; simpl; [by repeat constructor|].
  destruct (by_displayOrder x y <? 0) eqn:Hc.
  - constructor; [done|]. constructor. unfold le_displayOrder, by_displayOrder in *. lia.
  - inversion Hs as [|? ? Hl Hy]; subst. constructor; [by apply IH|].
    apply sort_insert_HdRel; [|done]. unfold le_displayOrder, by_displayOrder in *. lia.
Qed.

Lemma sort_insert_Permutation {A} (compare : A -> A -> Z) (x : A) (l : list A) :
  sort_insert compare x l ≡ₚ x :: l.
Proof.
  induction l as [|y l IH]; simpl; [done|].
  destruct (compare x y <? 0); [done|]. rewrite IH. apply Permutation_swap.
Qed.

Lemma foldl_sort_insert_Sorted (l acc : list HubSpotPipelineStage.t) :
  Sorted le_displayOrder acc ->
  Sorted le_displayOrder (foldl (fun sorted x => sort_insert by_displayOrder x sorted) acc l).
Proof.
  revert acc. induction l as [|x l IH]; intros acc Hs; simpl; [done|].
  apply IH. by apply sort_insert_Sorted.
Qed.

Lemma foldl_sort_insert_Permutation {A} (compare : A -> A -> Z) (l acc : list A) :
  foldl (fun sorted x => sort_insert compare x sorted) acc l ≡ₚ l ++ acc.
Proof.
  revert acc. induction l as [|x l IH]; intros acc; simpl; [done|].
  rewrite IH, sort_insert_Permutation. by rewrite Permutation_middle.
Qed.

Lemma Array_sort_Sorted (l : list HubSpotPipelineStage.t) :
  Sorted le_displayOrder (Array_sort by_displayOrder l).
Proof. apply foldl_sort_insert_Sorted. constructor. Qed.

Lemma Array_sort_Permutation {A} (compare : A -> A -> Z) (l : list A) :
  Array_sort compare l ≡ₚ l.
Proof. unfold Array_sort. rewrite foldl_sort_insert_Permutation. by rewrite app_nil_r. Qed.

Lemma Sorted_adjacent (l : list HubSpotPipelineStage.t) (i : nat)
    (a b : HubSpotPipelineStage.t) :
  Sorted le_displayOrder l -> l !! i = Some a -> l !! S i = Some b -> le_displayOrder a b.
Proof.
  revert i. induction l as [|x l IH]; intros i Hs Ha Hb; [done|].
  inversion Hs as [|? ? Hl Hx]; subst. destruct i as [|i]; simpl in *.
  - injection Ha as ->. destruct l as [|y l]; [done|]. simpl in Hb. injection Hb as ->.
    by inversion Hx.
  - by eapply IH.
Qed.

Lemma map_pipeline_ascending (p : HubSpotPipeline.t) :
  ascending (Pipeline.stages (map_pipeline p)).
Proof.
  intros i s t Hs Ht. simpl in Hs, Ht.
  rewrite list_lookup_fmap in Hs, Ht.
  destruct (Array_sort by_displayOrder (HubSpotPipeline.stages p) !! i) as [a|] eqn:Ha; [|done].
  destruct (Array_sort by_displayOrder (HubSpotPipeline.stages p) !! S i) as [b|] eqn:Hb; [|done].
  simpl in Hs, Ht. injection Hs as <-. injection Ht as <-. simpl.
  eapply Sorted_adjacent; eauto using Array_sort_Sorted.
Qed.

Lemma map_pipeline_Permutation (p : HubSpotPipeline.t) :
  Pipeline.stages (map_pipeline p) ≡ₚ map map_stage (HubSpotPipeline.stages p).
Proof. simpl. by rewrite Array_sort_Permutation. Qed.

Lemma pipelines_of_inv `{JSON} (this : CrmClientImpl.t)
    (fetch : Transport HubSpotPipelinesResponse.t) (path : string) (w w' : World)
    (ps : list Pipeline.t) :
  pipelines_of this fetch path w = (Return ps, w') ->
  exists response, ps = map map_pipeline (HubSpotPipelinesResponse.results response).
Proof.
  unfold pipelines_of, bind. destruct (request _ _ _ _ _) as [[[r|]|e] w1]; simpl; [|done..].
  intros [= <- <-]. by exists r.
Qed.

Lemma pipeline_of_inv `{JSON} (this : CrmClientImpl.t) (fetch : Transport HubSpotPipeline.t)
    (endpoint : string) (init : RequestInit.t) (w w' : World) (p : Pipeline.t) :
  (let! response := request this fetch endpoint init in
   let! response := defined response "id" in
   ret (map_pipeline response)) w = (Return p, w') ->
  exists response, p = map_pipeline response.
Proof.
  unfold bind. destruct (request _ _ _ _ _) as [[[r|]|e] w1]; simpl; [|done..].
  intros [= <- <-]. by exists r.
Qed.

(** [C9] Stage order.  Whatever the transport answers, the stages of every
    pipeline returned by [listPipelines], [listTicketPipelines],
    [getPipeline], [createPipeline] and [updatePipeline] ascend by [order]:
    [stages[i].order <= stages[i+1].order] for all [i]; they are the backend's
    stages, mapped one by one, in sorted order. *)
Theorem C9_pipeline_stages_sorted `{JSON} (this : CrmClientImpl.t) (w w' : World) :
  (forall p, ascending (Pipeline.stages (map_pipeline p)) /\
             Pipeline.stages (map_pipeline p) ≡ₚ map map_stage (HubSpotPipeline.stages p)) /\
  (forall fetch ps, listPipelines this fetch w = (Return ps, w') ->
     Forall (fun p => ascending (Pipeline.stages p)) ps) /\
  (forall fetch ps, listTicketPipelines this fetch w = (Return ps, w') ->
     Forall (fun p => ascending (Pipeline.stages p)) ps) /\
  (forall fetch objectType pipelineId p,
     getPipeline this fetch objectType pipelineId w = (Return p, w') ->
     ascending (Pipeline.stages p)) /\
  (forall fetch objectType init p,
     createPipeline this fetch objectType init w = (Return p, w') ->
     ascending (Pipeline.stages p)) /\
  (forall fetch objectType pipelineId init p,
     updatePipeline this fetch objectType pipelineId init w = (Return p, w') ->
     ascending (Pipeline.stages p)).
Proof.
  split; [|split; [|split; [|split; [|split]]]].
  - intros p. split; [apply map_pipeline_ascending | apply map_pipeline_Permutation].
  - intros fetch ps Hrun. apply pipelines_of_inv in Hrun as [response ->].
    apply Forall_fmap, Forall_forall. intros p _. apply map_pipeline_ascending.
  - intros fetch ps Hrun. apply pipelines_of_inv in Hrun as [response ->].
    apply Forall_fmap, Forall_forall. intros p _. apply map_pipeline_ascending.
  - intros fetch objectType pipelineId p Hrun.
    apply pipeline_of_inv in Hrun as [response ->]. apply map_pipeline_ascending.
  - intros fetch objectType init p Hrun.
    apply pipeline_of_inv in Hrun as [response ->]. apply map_pipeline_ascending.
  - intros fetch objectType pipelineId init p Hrun.
    apply pipeline_of_inv in Hrun as [response ->]. apply map_pipeline_ascending.
Qed.

(** [getPipeline] on that answer returns the stages in the order 0, 1, 2, 3. *)
Lemma C9_witness :
  exists p w',
    getPipeline (H := sample_JSON) api_key_client
      (answering 200 ∅ "" (JsonResolved shuffled_pipeline)) "deals" "default" []
    = (Return p, w') /\
    ascending (Pipeline.stages p) /\
    PipelineStage.order <$> Pipeline.stages p = [0; 1; 2; 3].
Proof.
  eexists _, _. split; [reflexivity|]. split; [|reflexivity].
  exact (proj1 (proj2 (proj2 (proj2
           (C9_pipeline_stages_sorted (H := sample_JSON) api_key_client [] _))))
           (answering 200 ∅ "" (JsonResolved shuffled_pipeline)) "deals" "default" _ eq_refl).
Defined.

(** ** Call duration *)

Lemma parse_digits_numeral (d : Decimal.uint) (acc : Z) :
  parse_digits (NilEmpty.string_of_uint d) (Some acc) = Some (uint_value d acc).
Proof. revert acc. induction d; intros acc; simpl; try apply IHd; reflexivity. Qed.

Lemma uint_value_pos (d : Decimal.uint) (acc : positive) :
  uint_value d (Z.pos acc) = Z.pos (Pos.of_uint_acc d acc).
Proof.
  revert acc. induction d; intros acc; cbn [uint_value Pos.of_uint_acc]; [reflexivity|..];
    match goal with
    | |- uint_value _ ?a = Z.pos (Pos.of_uint_acc _ ?b) =>
        replace a with (Z.pos b) by lia; apply IHd
    end.
Qed.

Lemma uint_value_0 (d : Decimal.uint) : uint_value d 0 = Z.of_uint d.
Proof.
  unfold Z.of_uint. induction d; cbn [uint_value Pos.of_uint]; [reflexivity|exact IHd|..];
    match goal with
    | |- uint_value _ ?a = Z.of_N (N.pos (Pos.of_uint_acc _ ?b)) =>
        replace a with (Z.pos b) by lia; apply uint_value_pos
    end.
Qed.

Lemma parseInt_numeral (d : Decimal.uint) :
  d <> Decimal.Nil -> parseInt (NilEmpty.string_of_uint d) = Finite (Z.of_uint d).
Proof.
  intros Hd. rewrite <- uint_value_0.
  destruct d; [done|..]; unfold parseInt; simpl; rewrite parse_digits_numeral;
    rewrite Z.mul_1_l; reflexivity.
Qed.

Lemma to_uint_not_Nil (p : positive) : Pos.to_uint p <> Decimal.Nil.
Proof.
  intros Hn. pose proof (DecimalPos.Unsigned.of_to p) as Hp. rewrite Hn in Hp. discriminate.
Qed.

Lemma string_of_uint_not_Nil (d : Decimal.uint) :
  d <> Decimal.Nil -> NilZero.string_of_uint d = NilEmpty.string_of_uint d.
Proof. by destruct d. Qed.

(** Within the exactly represented range [String] prints the decimal
    numeral. *)
Lemma Number_toString_decimal (z : Z) :
  Z.abs z <= MAX_SAFE -> Number_toString (Finite z) = NilZero.string_of_int (Z.to_int z).
Proof.
  intros Hz. unfold Number_toString.
  assert (Hlt : (Z.abs z <? 10 ^ 21) = true).
  { apply Z.ltb_lt. assert (Hsafe : MAX_SAFE < 10 ^ 21) by reflexivity. lia. }
  by rewrite Hlt.
Qed.

(** [parseInt] reads back the numeral [String] writes for a positive integer. *)
Lemma parseInt_Number_toString (z : Z) :
  0 < z <= MAX_SAFE -> parseInt (Number_toString (Finite z)) = Finite z.
Proof.
  intros Hz. rewrite Number_toString_decimal by lia.
  destruct z as [|p|p]; [lia| |lia]. simpl.
  rewrite string_of_uint_not_Nil by apply to_uint_not_Nil.
  rewrite parseInt_numeral by apply to_uint_not_Nil.
  unfold Z.of_uint. by rewrite DecimalPos.Unsigned.of_to.
Qed.

Lemma string_of_pos_truthy (p : positive) :
  truthy_string (NilZero.string_of_uint (Pos.to_uint p)) = true.
Proof.
  rewrite string_of_uint_not_Nil by apply to_uint_not_Nil.
  pose proof (to_uint_not_Nil p) as Hnil. by destruct (Pos.to_uint p).
Qed.

Lemma Number_toString_truthy (z : Z) :
  0 < z <= MAX_SAFE -> truthy_string (Number_toString (Finite z)) = true.
Proof.
  intros Hz. rewrite Number_toString_decimal by lia.
  destruct z as [|p|p]; [lia| |lia]. apply string_of_pos_truthy.
Qed.

(** Milliseconds back to minutes: exact on a whole number of minutes. *)
Lemma Math_round_minutes (d : Z) :
  Math_round (Qdiv (Qdiv (inject_Z (d * 60 * 1000)) (inject_Z 1000)) (inject_Z 60)) = d.
Proof.
  unfold Math_round.
  rewrite (Qfloor_comp _ (Qmake (2 * d + 1) 2)).
  - unfold Qfloor. symmetry. apply (Z.div_unique _ _ _ 1); lia.
  - unfold Qeq, Qplus, Qdiv, Qmult, Qinv, inject_Z. simpl. lia.
Qed.

Lemma logCall_log `{JSON} (this : CrmClientImpl.t) (fetch : Transport HubSpotObject.t)
    (fetch_put : Transport JsValue) (now contactId subject : string) (notes : option string)
    (durationMinutes : option number) (w : World) (auth : gmap string string) :
  getAuthHeaders this = Return auth ->
  exists rest,
    (logCall this fetch fetch_put now contactId subject notes durationMinutes w).2 =
      w ++ fetch_call this auth "/crm/v3/objects/calls"
             (RequestInit.with_body "POST"
                (PropertiesBody (logCall_properties now subject notes durationMinutes)))
           :: rest.
Proof.
  intros Ha. unfold logCall.
  by apply (post_then_associate_log this fetch fetch_put "/crm/v3/objects/calls" _ _
              (fun response =>
                 association
                   ("/crm/v3/objects/calls/" +:+ HubSpotObject.id response
                    +:+ "/associations/contacts/") (Some contactId) "194")
              (fun response => mapHubSpotActivity response call)).
Qed.

Lemma logCall_properties_duration (now subject : string) (notes : option string) (d : Z) :
  d <> 0 ->
  logCall_properties now subject notes (Some (Finite d)) !! "hs_call_duration"
  = Some (Number_toString (Finite (d * 60 * 1000))).
Proof.
  intros Hd. unfold logCall_properties, assign. cbn [truthy_opt_number truthy_number].
  assert (Ht : negb (d =? 0) = true) by (apply negb_true_iff, Z.eqb_neq; lia).
  rewrite Ht. cbn [fmap option_fmap option_map snd fst Number_mul]. apply lookup_insert_eq.
Qed.

Lemma logCall_properties_no_duration (now subject : string) (notes : option string)
    (durationMinutes : option number) :
  durationMinutes = None \/ durationMinutes = Some (Finite 0) ->
  logCall_properties now subject notes durationMinutes !! "hs_call_duration" = None.
Proof.
  intros [-> | ->]; unfold logCall_properties, assign; simpl;
    destruct (truthy notes); by simplify_map_eq.
Qed.

(** [C10] as amended.  For a positive whole number of minutes [d] whose
    milliseconds stay within the integers a double holds exactly, the POST
    that [logCall] makes carries [hs_call_duration] as the decimal numeral of
    [d*60*1000], and mapping back a call whose [hs_call_duration] is that
    numeral gives [durationMinutes = d]; with [durationMinutes] 0 or absent
    the POST carries no [hs_call_duration]. *)
Theorem C10_call_duration_round_trip (d : Z) (now subject : string) (notes : option string) :
  0 < d -> d * 60 * 1000 <= MAX_SAFE ->
  let milliseconds := NilZero.string_of_int (Z.to_int (d * 60 * 1000)) in
  (forall (H : JSON) this fetch fetch_put contactId w auth,
     getAuthHeaders this = Return auth ->
     exists properties rest,
       (logCall this fetch fetch_put now contactId subject notes (Some (Finite d)) w).2 =
         w ++ fetch_call this auth "/crm/v3/objects/calls"
                (RequestInit.with_body "POST" (PropertiesBody properties))
              :: rest /\
       properties !! "hs_call_duration" = Some milliseconds) /\
  (forall obj,
     HubSpotObject.properties obj !! "hs_call_duration" = Some (Some milliseconds) ->
     Activity.durationMinutes (mapHubSpotActivity obj call) = Some (Finite d)) /\
  (forall (H : JSON) this fetch fetch_put contactId w auth durationMinutes,
     getAuthHeaders this = Return auth ->
     durationMinutes = None \/ durationMinutes = Some (Finite 0) ->
     exists properties rest,
       (logCall this fetch fetch_put now contactId subject notes durationMinutes w).2 =
         w ++ fetch_call this auth "/crm/v3/objects/calls"
                (RequestInit.with_body "POST" (PropertiesBody properties))
              :: rest /\
       properties !! "hs_call_duration" = None).
Proof.
  intros Hd Hsafe milliseconds.
  assert (Hnum : Number_toString (Finite (d * 60 * 1000)) = milliseconds)
    by (apply Number_toString_decimal; lia).
  split; [|split].
  - intros H this fetch fetch_put contactId w auth Ha.
    destruct (logCall_log this fetch fetch_put now contactId subject notes (Some (Finite d))
                w auth Ha) as [rest Hlog].
    eexists _, rest. split; [exact Hlog|].
    rewrite logCall_properties_duration by lia. by rewrite Hnum.
  - intros obj Hp. cbn [mapHubSpotActivity Activity.durationMinutes]. unfold prop. rewrite Hp.
    cbn [mjoin option_join]. rewrite <- Hnum. unfold truthy.
    rewrite Number_toString_truthy by lia. cbn [fmap option_fmap option_map].
    unfold duration_minutes_of. rewrite parseInt_Number_toString by lia.
    by rewrite Math_round_minutes.
  - intros H this fetch fetch_put contactId w auth durationMinutes Ha Hnone.
    destruct (logCall_log this fetch fetch_put now contactId subject notes durationMinutes
                w auth Ha) as [rest Hlog].
    eexists _, rest. split; [exact Hlog|]. by apply logCall_properties_no_duration.
Qed.

(** A 45 minute call goes out as ["2700000"] and reads back as 45 minutes. *)
Lemma C10_witness :
  (exists properties rest,
     (logCall (H := sample_JSON) api_key_client
        (answering 201 ∅ "" (JsonResolved (logged_call "2700000")))
        (answering 200 ∅ "" (JsonResolved JNull))
        "2024-05-01T10:00:00.000Z" "201" "Intro call" None (Some (Finite 45)) []).2 =
       [] ++ fetch_call api_key_client (bearer_headers "pat-na1-0000") "/crm/v3/objects/calls"
               (RequestInit.with_body "POST" (PropertiesBody properties))
            :: rest /\
     properties !! "hs_call_duration" = Some "2700000") /\
  Activity.durationMinutes (mapHubSpotActivity (logged_call "2700000") call) = Some (Finite 45).
Proof.
  destruct (C10_call_duration_round_trip 45 "2024-05-01T10:00:00.000Z" "Intro call" None
              ltac:(lia) ltac:(by vm_compute))
    as (Hout & Hback & _).
  split.
  - exact (Hout sample_JSON api_key_client
             (answering 201 ∅ "" (JsonResolved (logged_call "2700000")))
             (answering 200 ∅ "" (JsonResolved JNull)) "201" []
             (bearer_headers "pat-na1-0000") eq_refl).
  - by apply Hback.
Defined.

(** [C10] as stated fails for a duration as large as 10^17 minutes: the
    milliseconds, 6 * 10^21, are printed by [String] in exponent form, so the
    POST of [logCall] carries ["6e+21"] and not the decimal numeral; and
    [parseInt] reads 6 from that text, so that it maps back to 0 minutes. *)
Lemma C10_counterexample :
  (logCall (H := sample_JSON) api_key_client
     (answering 201 ∅ "" (JsonResolved (logged_call "6e+21")))
     (answering 200 ∅ "" (JsonResolved JNull))
     "2024-05-01T10:00:00.000Z" "" "Long call" None (Some (Finite (10 ^ 17))) []).2 =
    [fetch_call api_key_client (bearer_headers "pat-na1-0000") "/crm/v3/objects/calls"
       (RequestInit.with_body "POST"
          (PropertiesBody
             (<["hs_call_duration" := "6e+21"]>
                (<["hs_timestamp" := "2024-05-01T10:00:00.000Z"]>
                   (<["hs_call_title" := "Long call"]> ∅)))))] /\
  NilZero.string_of_int (Z.to_int (10 ^ 17 * 60 * 1000)) = "6000000000000000000000" /\
  Activity.durationMinutes (mapHubSpotActivity (logged_call "6e+21") call) = Some (Finite 0).
Proof. split; [by vm_compute|]. split; by vm_compute. Qed.

(** ** Further properties of the request primitive *)

(** The case analysis [classify_response] makes on the status. *)
Ltac status_cases r :=
  unfold classify_response, Response.ok;
  destruct (Z.eqb_spec (Response.status r) 429);
  [|destruct (Z.eqb_spec (Response.status r) 401);
    [|destruct (Z.eqb_spec (Response.status r) 403);
      [|destruct (Z.leb_spec 200 (Response.status r));
        [destruct (Z.leb_spec (Response.status r) 299);
         [destruct (Z.eqb_spec (Response.status r) 204)|]|]]]];
  simpl.

Lemma classify_returns `{JSON} {T} (r : Response.t T) (v : option T) :
  classify_response r = Return v <->
  200 <= Response.status r <= 299 /\
  ((Response.status r = 204 /\ v = None) \/
   (Response.status r <> 204 /\ exists b, Response.json r = JsonResolved b /\ v = Some b)).
Proof.
  status_cases r; try (split; [discriminate | intros [? _]; lia]).
  - split.
    + intros [= <-]. split; [lia|]. by left.
    + intros [_ [[_ ->]|[? _]]]; done.
  - destruct (Response.json r) as [m|b] eqn:Hj.
    + split; [discriminate|]. intros [_ [[? _]|[_ (b & Hb & _)]]]; [done|discriminate].
    + split.
      * intros [= <-]. split; [lia|]. right. split; [done|]. by exists b.
      * intros [_ [[? _]|[_ (b' & [= <-] & ->)]]]; done.
Qed.

Lemma classify_throws `{JSON} {T} (r : Response.t T) (e : exn) :
  classify_response r = Throw e ->
  let status := Response.status r in
  match e with
  | RateLimitError _ _ => status = 429
  | AuthenticationError _ => status = 401 \/ status = 403
  | CrmApiError _ statusCode =>
      statusCode = status /\ ~ 200 <= status <= 299 /\
      status <> 429 /\ status <> 401 /\ status <> 403
  | SyntaxError message =>
      200 <= status <= 299 /\ status <> 204 /\ Response.json r = JsonRejected message
  | TypeError _ => True
  end.
Proof.
  status_cases r; try (intros [= <-]; simpl; lia).
  destruct (Response.json r) as [m|b] eqn:Hj; [|discriminate].
  intros [= <-]. simpl. repeat split; try lia; done.
Qed.

(** [X1] With credentials present, [request] returns normally exactly when the
    status it received is in 200..299 and either it is 204, the result being
    [undefined], or the body parses, the result being the parsed body.  No
    other response makes it return. *)
Theorem request_returns_iff `{JSON} {T} (this : CrmClientImpl.t) (fetch : Transport T)
    (endpoint : string) (options : RequestInit.t) (w : World) (auth : gmap string string)
    (v : option T) :
  getAuthHeaders this = Return auth ->
  let r := fetch w (fetch_call this auth endpoint options) in
  (request this fetch endpoint options w).1 = Return v <->
  200 <= Response.status r <= 299 /\
  ((Response.status r = 204 /\ v = None) \/
   (Response.status r <> 204 /\ exists b, Response.json r = JsonResolved b /\ v = Some b)).
Proof.
  intros Ha r. rewrite (request_authenticated _ _ _ _ _ _ Ha). simpl. apply classify_returns.
Qed.

(** A 201 whose body parses is returned; the same theorem shows that a 500
    does not return. *)
Lemma request_returns_iff_witness :
  (request (H := sample_JSON) api_key_client (answering 201 ∅ "" (JsonResolved (JString "ok")))
     "/crm/v3/objects/contacts" RequestInit.default []).1 = Return (Some (JString "ok")) /\
  (request (H := sample_JSON) api_key_client (answering 500 ∅ "" (JsonResolved (JString "ok")))
     "/crm/v3/objects/contacts" RequestInit.default []).1 <> Return (Some (JString "ok")).
Proof.
  split.
  - apply (request_returns_iff (H := sample_JSON) api_key_client _ _ _ _
             (bearer_headers "pat-na1-0000")); [reflexivity|].
    simpl. split; [lia|]. right. split; [lia|]. by exists (JString "ok").
  - intros Hr.
    apply (request_returns_iff (H := sample_JSON) api_key_client _ _ _ _
             (bearer_headers "pat-na1-0000")) in Hr; [|reflexivity].
    simpl in Hr. lia.
Defined.

(** [X2] The kind of error [request] throws for the response it received,
    once credentials are present, fixes the status class of that response: a
    RateLimitError only for 429; an AuthenticationError only for 401 or 403; a
    CrmApiError only for a status outside 200..299 other than those three, and
    it carries that status; a SyntaxError only for a 2xx other than 204 whose
    body does not parse.  Nothing is said of a TypeError, which is what a
    [fetch] that gets no response rejects with. *)
Theorem request_error_determines_status `{JSON} {T} (this : CrmClientImpl.t)
    (fetch : Transport T) (endpoint : string) (options : RequestInit.t) (w : World)
    (auth : gmap string string) (e : exn) :
  getAuthHeaders this = Return auth ->
  (request this fetch endpoint options w).1 = Throw e ->
  let status := Response.status (fetch w (fetch_call this auth endpoint options)) in
  match e with
  | RateLimitError _ _ => status = 429
  | AuthenticationError _ => status = 401 \/ status = 403
  | CrmApiError _ statusCode =>
      statusCode = status /\ ~ 200 <= status <= 299 /\
      status <> 429 /\ status <> 401 /\ status <> 403
  | SyntaxError message =>
      200 <= status <= 299 /\ status <> 204 /\
      Response.json (fetch w (fetch_call this auth endpoint options)) = JsonRejected message
  | TypeError _ => True
  end.
Proof.
  intros Ha. rewrite (request_authenticated _ _ _ _ _ _ Ha). simpl. apply classify_throws.
Qed.

(** A request answered with 404 throws a CrmApiError; the status that error
    carries is the status of the response, which is neither a 2xx nor one of
    429, 401 and 403. *)
Lemma request_error_determines_status_witness :
  let fetch := answering (T := JsValue) 404 ∅ sample_error_body (JsonRejected "") in
  let status :=
    Response.status
      (fetch [] (fetch_call api_key_client (bearer_headers "pat-na1-0000")
                   "/crm/v3/objects/deals/1" RequestInit.default)) in
  (request (H := sample_JSON) api_key_client fetch "/crm/v3/objects/deals/1"
     RequestInit.default []).1 = Throw (CrmApiError (JString "Deal not found") 404) /\
  (404 = status /\ ~ 200 <= status <= 299 /\ status <> 429 /\ status <> 401 /\ status <> 403).
Proof.
  intros fetch status. split; [reflexivity|].
  exact (request_error_determines_status (H := sample_JSON) api_key_client fetch
           "/crm/v3/objects/deals/1" RequestInit.default []
           (bearer_headers "pat-na1-0000")
           (CrmApiError (JString "Deal not found") 404) eq_refl eq_refl).
Defined.

(** [X3] Where a call goes and what it carries.  For a client built from
    credentials with a usable token, the one transport call of [request] goes
    to the configured base URL followed by the endpoint, the base URL being
    the override when that is a non-empty string and the HubSpot default
    otherwise; and, the options naming no headers, its headers are exactly
    [Authorization: Bearer <token>] and [Content-Type: application/json], the
    token being the access token when that is a non-empty string and the API
    key otherwise. *)
Theorem request_url_and_headers `{JSON} {T} (credentials : TenantCredentials.t)
    (fetch : Transport T) (endpoint : string) (options : RequestInit.t) (w : World)
    (token : string) :
  truthy (TenantCredentials.accessToken credentials) = Some token \/
  (truthy (TenantCredentials.accessToken credentials) = None /\
   truthy (TenantCredentials.apiKey credentials) = Some token) ->
  RequestInit.headers options = None ->
  exists c,
    (request (createCrmClient credentials) fetch endpoint options w).2 = w ++ [c] /\
    FetchCall.url c =
      match TenantCredentials.baseUrl credentials with
      | Some (String a base) => String a base
      | _ => "https://api.hubapi.com"
      end +:+ endpoint /\
    FetchCall.headers c !! "Authorization" = Some ("Bearer " +:+ token) /\
    FetchCall.headers c !! "Content-Type" = Some "application/json" /\
    (forall name, name <> "Authorization" -> name <> "Content-Type" ->
                  FetchCall.headers c !! name = None).
Proof.
  intros Htoken Hh.
  assert (Ha : getAuthHeaders (createCrmClient credentials) = Return (bearer_headers token)).
  { unfold getAuthHeaders. simpl. destruct Htoken as [-> | [-> ->]]; reflexivity. }
  eexists. split; [by rewrite (request_authenticated _ _ _ _ _ _ Ha)|].
  unfold fetch_call. simpl. rewrite Hh. simpl. rewrite (left_id_L ∅ (∪)).
  split; [|split; [|split]].
  - by destruct (TenantCredentials.baseUrl credentials) as [[|a base]|].
  - unfold bearer_headers. by simplify_map_eq.
  - unfold bearer_headers. by simplify_map_eq.
  - intros name H1 H2. unfold bearer_headers. by simplify_map_eq.
Qed.

(** Both tokens and an empty base-URL override given: the access token is
    sent, to the default host. *)
Lemma request_url_and_headers_witness :
  exists c,
    (request (H := sample_JSON)
       (createCrmClient {| TenantCredentials.apiKey := Some "pat-na1-0000";
                           TenantCredentials.baseUrl := Some "";
                           TenantCredentials.accessToken := Some "oauth-1" |})
       (answering 200 ∅ "" (JsonResolved JNull)) "/crm/v3/owners" RequestInit.default []).2
      = [] ++ [c] /\
    FetchCall.url c = "https://api.hubapi.com" +:+ "/crm/v3/owners" /\
    FetchCall.headers c !! "Authorization" = Some ("Bearer " +:+ "oauth-1") /\
    FetchCall.headers c !! "Content-Type" = Some "application/json" /\
    (forall name, name <> "Authorization" -> name <> "Content-Type" ->
                  FetchCall.headers c !! name = None).
Proof.
  apply (request_url_and_headers (H := sample_JSON)
           {| TenantCredentials.apiKey := Some "pat-na1-0000";
              TenantCredentials.baseUrl := Some "";
              TenantCredentials.accessToken := Some "oauth-1" |}
           (answering 200 ∅ "" (JsonResolved JNull)) "/crm/v3/owners" RequestInit.default []
           "oauth-1"); [by left | reflexivity].
Defined.

(** [X4] The value a CrmApiError is built from.  For an error body that
    [JSON.parse] accepts and whose members can be read, it is the body's
    [message] when that is truthy, else the body's [error] when that is
    truthy, else the text [API error: <status>]; for a body that does not
    parse, or that parses to [null], it is that default text.  In each case
    the value is truthy.  It need not be a string: when it is one, the text of
    the error is that string and is not empty; for the body
    [{"message": []}] the value is the empty array, and the text of the error
    is the empty string. *)
Theorem error_message_choice `{JSON} (errorBody : string) (status : Z) :
  let fallback := JString ("API error: " +:+ Number_toString (Finite status)) in
  let chosen := error_message errorBody status in
  ToBoolean chosen = true /\
  (JSON_parse errorBody = None \/ JSON_parse errorBody = Some JNull -> chosen = fallback) /\
  (forall errorJson m e,
     JSON_parse errorBody = Some errorJson ->
     JS_get errorJson "message" = Some m -> JS_get errorJson "error" = Some e ->
     chosen = if ToBoolean m then m else if ToBoolean e then e else fallback) /\
  (forall s, chosen = JString s -> exn_message (CrmApiError chosen status) = s /\ s <> "") /\
  (JSON_parse errorBody = Some (JObject [("message", JArray [])]) ->
   chosen = JArray [] /\ exn_message (CrmApiError chosen status) = "").
Proof.
  intros fallback chosen.
  assert (Hchoice : forall errorJson m e,
             JSON_parse errorBody = Some errorJson ->
             JS_get errorJson "message" = Some m -> JS_get errorJson "error" = Some e ->
             chosen = if ToBoolean m then m else if ToBoolean e then e else fallback).
  { intros errorJson m e Hp Hm He. subst chosen. unfold error_message.
    rewrite Hp, Hm, He. unfold JS_or. by destruct (ToBoolean m), (ToBoolean e). }
  assert (Htruthy : ToBoolean chosen = true).
  { subst chosen. unfold error_message.
    destruct (JSON_parse errorBody) as [errorJson|]; [|reflexivity].
    destruct (JS_get errorJson "message") as [m|]; [|reflexivity].
    destruct (JS_get errorJson "error") as [e|]; [|reflexivity].
    unfold JS_or. destruct (ToBoolean m) eqn:Hm; [done|].
    destruct (ToBoolean e) eqn:He; [done|reflexivity]. }
  split; [exact Htruthy|]. split; [|split; [exact Hchoice|split]].
  - subst chosen. unfold error_message. by intros [-> | ->].
  - intros s Hs. rewrite Hs in Htruthy |- *. split; [reflexivity|].
    intros ->. discriminate.
  - intros Hp. rewrite (Hchoice _ (JArray []) JUndefined Hp eq_refl eq_refl). by split.
Qed.

(** [X5] [testConnection] never throws and calls the transport at most once:
    for every client, transport and log it returns a status; [connected] is
    true exactly when the probing request returned, and then the message is
    the success text; otherwise the message is the message of the error the
    request threw. *)
Theorem testConnection_never_throws `{JSON} (this : CrmClientImpl.t)
    (fetch : Transport HubSpotListResponse.t) (w : World) :
  let probe := request this fetch "/crm/v3/objects/contacts?limit=1" RequestInit.default w in
  exists status,
    testConnection this fetch w = (Return status, probe.2) /\
    (length probe.2 <= length w + 1)%nat /\
    (ConnectionStatus.connected status = true <-> exists v, probe.1 = Return v) /\
    (ConnectionStatus.connected status = true ->
       ConnectionStatus.message status = "Successfully connected to HubSpot CRM") /\
    (forall e, probe.1 = Throw e ->
       ConnectionStatus.connected status = false /\
       ConnectionStatus.message status = exn_message e).
Proof.
  intros probe. unfold testConnection, try_catch, bind. subst probe.
  assert (Hlen : (length (request this fetch "/crm/v3/objects/contacts?limit=1"
                            RequestInit.default w).2 <= length w + 1)%nat).
  { unfold request. destruct (getAuthHeaders this); simpl; [|lia].
    rewrite length_app. simpl. lia. }
  destruct (request this fetch "/crm/v3/objects/contacts?limit=1" RequestInit.default w)
    as [[v|e] w'] eqn:Hr; simpl in *.
  - eexists. split; [reflexivity|]. split; [done|]. simpl.
    split; [split; [by exists v|done]|]. split; [done|]. discriminate.
  - eexists. split; [reflexivity|]. split; [done|]. simpl.
    split; [split; [discriminate|by intros [? ?]]|]. split; [discriminate|].
    by intros ? [= <-].
Qed.

(** ** Retry-After *)

Lemma exponent_form_truthy (digits : string) : truthy_string (exponent_form digits) = true.
Proof.
  unfold exponent_form. destruct (strip_trailing_zeros digits) as [|d [|d' rest]]; reflexivity.
Qed.

(** [String(n)] is never the empty string. *)
Lemma Number_toString_nonempty (n : number) : truthy_string (Number_toString n) = true.
Proof.
  destruct n as [|z]; [reflexivity|]. unfold Number_toString.
  destruct (Z.abs z <? 10 ^ 21).
  - destruct z as [|p|p]; [reflexivity|apply string_of_pos_truthy|reflexivity].
  - destruct (z <? 0); [reflexivity|].
    change ("" +:+ ?s) with s. apply exponent_form_truthy.
Qed.

Lemma parseInt_Number_toString_nonneg (z : Z) :
  0 <= z <= MAX_SAFE -> parseInt (Number_toString (Finite z)) = Finite z.
Proof.
  intros Hz. destruct (decide (z = 0)) as [->|Hne]; [reflexivity|].
  apply parseInt_Number_toString. lia.
Qed.

(** [X6] A numeric Retry-After is carried as it is: for every integer [n]
    from 0 up to the exactly represented range, a 429 whose Retry-After
    header is the decimal numeral of [n] makes [request] throw a
    RateLimitError with delay [n] seconds (with 0 for ["0"], not the default);
    an empty header value gives the default 60. *)
Theorem retry_after_numeric `{JSON} {T} (this : CrmClientImpl.t) (fetch : Transport T)
    (endpoint : string) (options : RequestInit.t) (w : World) (auth : gmap string string)
    (n : Z) :
  getAuthHeaders this = Return auth ->
  let r := fetch w (fetch_call this auth endpoint options) in
  Response.status r = 429 ->
  0 <= n <= MAX_SAFE ->
  (Headers_get (Response.headers r) "Retry-After" = Some (Number_toString (Finite n)) ->
   (request this fetch endpoint options w).1 =
     Throw (RateLimitError "Rate limit exceeded" (Finite n))) /\
  (Headers_get (Response.headers r) "Retry-After" = Some "" ->
   (request this fetch endpoint options w).1 =
     Throw (RateLimitError "Rate limit exceeded" (Finite 60))).
Proof.
  intros Ha r Hs Hn. rewrite (request_authenticated _ _ _ _ _ _ Ha). cbn [fst].
  fold r. unfold classify_response. rewrite Hs.
  change (429 =? 429) with true. cbv iota. split; intros ->; [|reflexivity].
  unfold truthy. rewrite Number_toString_nonempty.
  by rewrite parseInt_Number_toString_nonneg by lia.
Qed.

(** A 429 that asks for 120 seconds. *)
Lemma retry_after_numeric_witness :
  (request (H := sample_JSON) api_key_client (rate_limited (Some "120"))
     "/crm/v3/objects/contacts" RequestInit.default []).1 =
    Throw (RateLimitError "Rate limit exceeded" (Finite 120)).
Proof.
  apply (proj1 (retry_after_numeric (H := sample_JSON) api_key_client
                  (rate_limited (Some "120")) "/crm/v3/objects/contacts" RequestInit.default []
                  (bearer_headers "pat-na1-0000") 120 eq_refl eq_refl
                  ltac:(vm_compute; split; discriminate))).
  reflexivity.
Defined.

(** ** Further properties of the property builders *)

Lemma truthy_nonempty (s : option string) : truthy s <> Some "".
Proof. by destruct s as [[|a s]|]. Qed.

Lemma stringified_nonempty (n : option number) : stringified n <> Some "".
Proof.
  destruct n as [n|]; [|done]. simpl. intros [= Hn].
  pose proof (Number_toString_nonempty n) as Ht. by rewrite Hn in Ht.
Qed.

Lemma create_fields_nonempty (m : CreateMethod) (input : create_input m) (k : string) :
  (k, Some "") ∉ create_fields m input.
Proof.
  intros Hin.
  assert (Hall : Forall (fun e : string * option string => e.2 <> Some "") (create_fields m input)).
  { destruct m; simpl; repeat constructor;
      first [apply truthy_nonempty | apply stringified_nonempty]. }
  rewrite Forall_forall in Hall. by apply (Hall _ Hin).
Qed.

(** [X7] A create method never sends an empty value for a standard field: at
    every key that no custom field supplies, the [properties] of each of the
    eight create methods hold no empty string, so a string field given as the
    empty string is left out (an update sends it); what is there is the value
    of a standard field of that key. *)
Theorem create_sends_no_empty_value (m : CreateMethod) (input : create_input m)
    (k : string) :
  custom_entry (create_customFields m input) k = None ->
  create_properties m input !! k <> Some "" /\
  (forall v, create_properties m input !! k = Some v -> (k, Some v) ∈ create_fields m input).
Proof.
  intros Hc. unfold create_properties. rewrite merge_customFields_absent by (by left).
  pose proof (create_fields_NoDup m input) as Hnd. split.
  - intros Hl. apply assign_all_lookup in Hl; [|done]. by apply create_fields_nonempty in Hl.
  - intros v Hl. by apply assign_all_lookup in Hl.
Qed.

(** A contact created with an empty first name: [firstname] is not sent. *)
Lemma create_sends_no_empty_value_witness :
  create_properties createContact empty_first_name !! "firstname" <> Some "" /\
  (forall v, create_properties createContact empty_first_name !! "firstname" = Some v ->
             (("firstname", Some v) : string * option string)
               ∈ create_fields createContact empty_first_name).
Proof. apply (create_sends_no_empty_value createContact empty_first_name "firstname"). reflexivity. Defined.

Lemma assign_all_dom (entries : list (string * option string)) (k : string) :
  is_Some (assign_all entries !! k) -> k ∈ entries.*1.
Proof.
  intros [v Hv]. unfold assign_all in Hv. apply foldl_assign_inv in Hv as [Hin|Hv].
  - apply list_elem_of_fmap. by exists (k, Some v).
  - by rewrite lookup_empty in Hv.
Qed.

(** [X8] The batch property mappers read the standard fields only: whatever
    the input (its [customFields] included), the [properties] of a batch
    create or update hold nothing outside the listed backend keys.  So a batch
    never sends a custom field; a company batch never sends [type] or [phone],
    a ticket batch never [hubspot_owner_id], and a ticket batch update never
    [hs_pipeline]. *)
Theorem batch_properties_keys (k : string) :
  (forall input, is_Some (batchCreateContacts_properties input !! k) ->
     k ∈ ["firstname"; "lastname"; "email"; "phone"; "jobtitle"]) /\
  (forall input, is_Some (batchUpdateContacts_properties input !! k) ->
     k ∈ ["firstname"; "lastname"; "email"; "phone"; "jobtitle"]) /\
  (forall input, is_Some (batchCreateCompanies_properties input !! k) ->
     k ∈ ["name"; "domain"; "industry"; "description"; "numberofemployees"]) /\
  (forall input, is_Some (batchUpdateCompanies_properties input !! k) ->
     k ∈ ["name"; "domain"; "industry"; "description"; "numberofemployees"]) /\
  (forall input, is_Some (batchCreateDeals_properties input !! k) ->
     k ∈ ["dealname"; "amount"; "dealstage"; "pipeline"; "closedate"]) /\
  (forall input, is_Some (batchUpdateDeals_properties input !! k) ->
     k ∈ ["dealname"; "amount"; "dealstage"; "closedate"]) /\
  (forall input, is_Some (batchCreateTickets_properties input !! k) ->
     k ∈ ["subject"; "content"; "hs_pipeline"; "hs_pipeline_stage"; "hs_ticket_priority"]) /\
  (forall input, is_Some (batchUpdateTickets_properties input !! k) ->
     k ∈ ["subject"; "content"; "hs_pipeline_stage"; "hs_ticket_priority"]).
Proof.
  repeat split; intros input Hk; apply assign_all_dom in Hk; exact Hk.
Qed.

(** [X9] An update that names no field still issues its PATCH, with an empty
    [properties] object: when every standard field is [undefined] and there
    are no custom fields (none given, or an empty object), the body of the
    one call an update method makes is [{ properties: {} }]. *)
Theorem update_of_nothing_sends_empty_properties (m : UpdateMethod) (input : update_input m) :
  Forall (fun entry => entry.2 = None) (update_fields m input) ->
  update_customFields m input = None \/ update_customFields m input = Some ∅ ->
  update_properties m input = ∅ /\
  (forall (H : JSON) T (mapper : HubSpotObject.t -> T) this fetch id w auth,
     getAuthHeaders this = Return auth ->
     (update_method m mapper this fetch id input w).2 =
       w ++ [fetch_call this auth (update_path m id)
               (RequestInit.with_body "PATCH" (PropertiesBody ∅))]).
Proof.
  intros Hnone Hcf.
  assert (Hp : update_properties m input = ∅).
  { unfold update_properties.
    assert (Ha : assign_all (update_fields m input) = ∅).
    { apply map_eq. intros k. rewrite lookup_empty.
      destruct (assign_all (update_fields m input) !! k) as [v|] eqn:Hv; [|done].
      unfold assign_all in Hv. apply foldl_assign_inv in Hv as [Hin|Hv].
      - rewrite Forall_forall in Hnone. by apply Hnone in Hin.
      - by rewrite lookup_empty in Hv. }
    rewrite Ha. destruct Hcf as [-> | ->]; [done|]. simpl. apply map_fold_empty. }
  split; [done|]. intros. rewrite <- Hp. apply update_method_log; [done|].
  destruct Hcf as [-> | ->]; [done|apply customFields_throw_empty].
Qed.

Lemma update_of_nothing_sends_empty_properties_witness :
  update_properties updateTicket nothing_to_update = ∅.
Proof.
  apply (update_of_nothing_sends_empty_properties updateTicket nothing_to_update).
  - simpl. repeat constructor.
  - by right.
Defined.

(** [X10] [moveDealStage] is [updateDeal] with only the stage given: for
    every client, transport, log, deal id and stage id, it makes the same
    call, leaves the same log and has the same outcome as [updateDeal] on any
    input whose only standard field is [stageId] and whose custom fields, if
    any, are all [null] or [undefined]. *)
Theorem moveDealStage_is_updateDeal `{JSON} (this : CrmClientImpl.t)
    (fetch : Transport HubSpotObject.t) (id stageId : string) (w : World)
    (input : DealUpdateInput.t) :
  DealUpdateInput.name input = None ->
  DealUpdateInput.amount input = None ->
  DealUpdateInput.closeDate input = None ->
  DealUpdateInput.stageId input = Some stageId ->
  (forall k, custom_entry (DealUpdateInput.customFields input) k = None) ->
  moveDealStage this fetch id stageId w = CrmClient_updateDeal this fetch id input w.
Proof.
  intros Hname Hamount Hclose Hstage Hcustom.
  assert (Hp : update_properties updateDeal input = <["dealstage" := stageId]> ∅).
  { apply map_eq. intros k. unfold update_properties.
    rewrite merge_customFields_absent by (left; apply Hcustom).
    cbn [update_fields]. unfold updateDeal_fields.
    by rewrite Hname, Hamount, Hclose, Hstage. }
  unfold moveDealStage, CrmClient_updateDeal, update_method.
  rewrite customFields_loop_runs by (by apply custom_entries_None_no_throw).
  by rewrite Hp.
Qed.

(** Moving deal 77 to [closedwon] is the update that names the stage and
    carries one [null] custom field. *)
Lemma moveDealStage_is_updateDeal_witness :
  moveDealStage (H := sample_JSON) api_key_client
    (answering 200 ∅ "" (JsonResolved (created "77" ""))) "77" "closedwon" []
  = CrmClient_updateDeal (H := sample_JSON) api_key_client
      (answering 200 ∅ "" (JsonResolved (created "77" ""))) "77" stage_only [].
Proof.
  apply (moveDealStage_is_updateDeal (H := sample_JSON) api_key_client
           (answering 200 ∅ "" (JsonResolved (created "77" ""))) "77" "closedwon" []
           stage_only); try reflexivity.
  intros k. unfold custom_entry. cbn [stage_only DealUpdateInput.customFields mbind option_bind].
  destruct (decide (k = "legacy_score")) as [->|Hne]; by simplify_map_eq.
Defined.

(** ** A 204 answer *)

Lemma request_no_content `{JSON} {T} (this : CrmClientImpl.t) (fetch : Transport T)
    (endpoint : string) (options : RequestInit.t) (w : World) (auth : gmap string string) :
  getAuthHeaders this = Return auth ->
  Response.status (fetch w (fetch_call this auth endpoint options)) = 204 ->
  request this fetch endpoint options w =
    (Return None, w ++ [fetch_call this auth endpoint options]).
Proof.
  intros Ha Hs. rewrite (request_authenticated _ _ _ _ _ _ Ha). f_equal.
  apply classify_returns. split; [lia|]. by left.
Qed.

(** [X11] A 204 answer.  With credentials present and a transport that
    answers 204: the delete methods and [batchArchive] return normally; the
    methods that map the response (get, update, list, search, batch read)
    throw a TypeError, which is none of the adapter's three error kinds,
    because they read a property of the [undefined] that [request] returned. *)
Theorem no_content_answer `{JSON} (this : CrmClientImpl.t) (w : World)
    (auth : gmap string string) :
  getAuthHeaders this = Return auth ->
  (forall m (fetch : Transport JsValue) id,
     (forall w' c, Response.status (fetch w' c) = 204) ->
     (delete_method m this fetch id w).1 = Return tt) /\
  (forall (fetch : Transport JsValue) objectType ids,
     (forall w' c, Response.status (fetch w' c) = 204) ->
     (batchArchive this fetch objectType ids w).1 = Return tt) /\
  (forall T m (mapper : HubSpotObject.t -> T) fetch id,
     (forall w' c, Response.status (fetch w' c) = 204) ->
     exists message, (get_method m mapper this fetch id w).1 = Throw (TypeError message)) /\
  (forall T m (mapper : HubSpotObject.t -> T) fetch id input,
     (forall w' c, Response.status (fetch w' c) = 204) ->
     exists message,
       (update_method m mapper this fetch id input w).1 = Throw (TypeError message)) /\
  (forall T m (mapper : HubSpotObject.t -> T) fetch params,
     (forall w' c, Response.status (fetch w' c) = 204) ->
     exists message, (list_method m mapper this fetch params w).1 = Throw (TypeError message)) /\
  (forall T m (mapper : HubSpotObject.t -> T) fetch params,
     (forall w' c, Response.status (fetch w' c) = 204) ->
     exists message,
       (search_method m mapper this fetch params w).1 = Throw (TypeError message)) /\
  (forall T (fetch : Transport BatchResponse.t) objectType ids properties
          (mapper : HubSpotObject.t -> T),
     (forall w' c, Response.status (fetch w' c) = 204) ->
     exists message,
       (batchRead this fetch objectType ids properties mapper w).1 = Throw (TypeError message)).
Proof.
  intros Ha.
  repeat split; intros;
    unfold delete_method, batchArchive, get_method, update_method, list_method, listObjects,
      search_method, batchRead, customFields_loop;
    try (destruct (customFields_throw _); [eexists; reflexivity | rewrite bind_ret]);
    (erewrite bind_return; [|by apply request_no_content]);
    first [reflexivity | eexists; reflexivity].
Qed.

(** Deleting a contact that the backend answers with 204. *)
Lemma no_content_answer_witness :
  (delete_method (H := sample_JSON) deleteContact api_key_client
     (answering 204 ∅ "" (JsonRejected "Unexpected end of JSON input")) "101" []).1 = Return tt.
Proof.
  apply (proj1 (no_content_answer (H := sample_JSON) api_key_client []
                  (bearer_headers "pat-na1-0000") eq_refl)).
  reflexivity.
Defined.

(** ** Further properties of list and search *)

Lemma limit_or_default_truthy (limit : option number) :
  truthy_number (limit_or_default limit) = true.
Proof. destruct limit as [n|]; [|reflexivity]. simpl. by destruct (truthy_number n) eqn:Hn. Qed.

(** [X12] The page size sent is never 0 and never NaN.  Both the [limit]
    query parameter of the thirteen list methods and the [limit] of the six
    search bodies are the caller's limit when that is a number other than 0
    and NaN, passed on as it is (no clamping), and 20 in every other case: no
    limit, 0, or NaN. *)
Theorem limit_sent (limit : option number) :
  let n := limit_or_default limit in
  truthy_number n = true /\
  (forall l, limit = Some l -> truthy_number l = true -> n = l) /\
  (limit = None \/ limit = Some (Finite 0) \/ limit = Some NaN -> n = Finite 20) /\
  (forall m cursor offset,
     URLSearchParams_get
       (list_query (list_properties m)
          (Some {| PaginationParams.limit := limit; PaginationParams.cursor := cursor;
                   PaginationParams.offset := offset |})) "limit"
     = Some (Number_toString n)) /\
  (forall m cursor query filters sortBy sortOrder,
     SearchBody.limit
       (search_body m {| SearchParams.limit := limit; SearchParams.cursor := cursor;
                         SearchParams.query := query; SearchParams.filters := filters;
                         SearchParams.sortBy := sortBy; SearchParams.sortOrder := sortOrder |})
     = n).
Proof.
  intros n. subst n. split; [apply limit_or_default_truthy|].
  split; [|split; [|split]].
  - intros l -> Hl. simpl. by rewrite Hl.
  - intros [-> | [-> | ->]]; reflexivity.
  - intros m cursor offset. unfold list_query. simpl.
    by destruct (truthy cursor).
  - reflexivity.
Qed.

Lemma list_query_after (PROPERTIES : string) (params : option PaginationParams.t) :
  URLSearchParams_get (list_query PROPERTIES params) "after"
  = truthy (params ≫= PaginationParams.cursor).
Proof.
  unfold list_query. by destruct (truthy (params ≫= PaginationParams.cursor)).
Qed.

(** [X13] The cursor of a list call.  The query carries an [after] parameter
    exactly when the caller's cursor is a non-empty string, and then its value
    is that cursor, unchanged; the query never has more than the three
    parameters [limit], [properties] and [after], in that order, and the
    [offset] the caller may give is never sent. *)
Theorem list_query_cursor (PROPERTIES : string) (params : option PaginationParams.t) :
  URLSearchParams_get (list_query PROPERTIES params) "after"
    = truthy (params ≫= PaginationParams.cursor) /\
  URLSearchParams_get (list_query PROPERTIES params) "properties" = Some PROPERTIES /\
  (list_query PROPERTIES params).*1
    = ["limit"; "properties"]
      ++ match truthy (params ≫= PaginationParams.cursor) with
         | Some _ => ["after"]
         | None => []
         end /\
  (forall limit cursor offset offset',
     list_query PROPERTIES
       (Some {| PaginationParams.limit := limit; PaginationParams.cursor := cursor;
                PaginationParams.offset := offset |})
     = list_query PROPERTIES
         (Some {| PaginationParams.limit := limit; PaginationParams.cursor := cursor;
                  PaginationParams.offset := offset' |})).
Proof.
  split; [apply list_query_after|]. unfold list_query.
  split; [|split; [|reflexivity]];
    by destruct (truthy (params ≫= PaginationParams.cursor)).
Qed.

(** [X14] Paging through a list composes: when a page says [hasMore], it has
    a [nextCursor], that cursor is the backend's [paging.next.after], and a
    list call given that [nextCursor] as its cursor sends it back verbatim as
    the [after] parameter.  The same holds for the page of a search and the
    [after] field of the next search body. *)
Theorem next_cursor_round_trip {T} (mapper : HubSpotObject.t -> T) :
  (forall response PROPERTIES limit offset,
     PaginatedResponse.hasMore (paginated mapper response) = true ->
     exists c,
       next_after (HubSpotListResponse.paging response) = Some c /\
       PaginatedResponse.nextCursor (paginated mapper response) = Some c /\
       URLSearchParams_get
         (list_query PROPERTIES
            (Some {| PaginationParams.limit := limit;
                     PaginationParams.cursor :=
                       PaginatedResponse.nextCursor (paginated mapper response);
                     PaginationParams.offset := offset |})) "after" = Some c) /\
  (forall response m limit query filters sortBy sortOrder,
     PaginatedResponse.hasMore (search_result mapper response) = true ->
     exists c,
       next_after (HubSpotSearchResponse.paging response) = Some c /\
       PaginatedResponse.nextCursor (search_result mapper response) = Some c /\
       SearchBody.after
         (search_body m
            {| SearchParams.limit := limit;
               SearchParams.cursor := PaginatedResponse.nextCursor (search_result mapper response);
               SearchParams.query := query; SearchParams.filters := filters;
               SearchParams.sortBy := sortBy; SearchParams.sortOrder := sortOrder |})
       = Some c).
Proof.
  split.
  - intros response PROPERTIES limit offset Hmore. rewrite list_query_after. simpl in *.
    apply bool_decide_eq_true in Hmore as [c Hc].
    destruct (next_after (HubSpotListResponse.paging response)) as [[|a c']|]; try done.
    by exists (String a c').
  - intros response m limit query filters sortBy sortOrder Hmore. simpl in *.
    apply bool_decide_eq_true in Hmore as [c Hc].
    destruct (next_after (HubSpotSearchResponse.paging response)) as [[|a c']|]; try done.
    by exists (String a c').
Qed.

(** A page with the cursor ["2048"]: the next list call sends [after=2048]. *)
Lemma next_cursor_round_trip_witness :
  exists c,
    next_after (HubSpotListResponse.paging (page_with_cursor "2048")) = Some c /\
    PaginatedResponse.nextCursor (paginated mapHubSpotContact (page_with_cursor "2048")) = Some c /\
    URLSearchParams_get
      (list_query CONTACT_PROPERTIES
         (Some {| PaginationParams.limit := None;
                  PaginationParams.cursor :=
                    PaginatedResponse.nextCursor
                      (paginated mapHubSpotContact (page_with_cursor "2048"));
                  PaginationParams.offset := None |})) "after" = Some c.
Proof.
  apply (proj1 (next_cursor_round_trip mapHubSpotContact) (page_with_cursor "2048")
           CONTACT_PROPERTIES None None).
  reflexivity.
Defined.

(** [X15] What a search body leaves out.  An absent or empty filter list
    sends no [filterGroups]; an absent or empty [query] no [query]; an absent
    or empty cursor no [after]; [searchProducts] and [searchLeads] never send
    [sorts], whatever [sortBy] is; the other four send [sorts] exactly when
    [sortBy] is a non-empty string, as one entry on that property whose
    direction is DESCENDING for [desc] and ASCENDING otherwise (no order
    given included). *)
Theorem search_body_omissions (m : SearchMethod) (params : SearchParams.t) :
  let body := search_body m params in
  (SearchParams.filters params = None \/ SearchParams.filters params = Some [] ->
   SearchBody.filterGroups body = None) /\
  (SearchParams.query params = None \/ SearchParams.query params = Some "" ->
   SearchBody.query body = None) /\
  (SearchParams.cursor params = None \/ SearchParams.cursor params = Some "" ->
   SearchBody.after body = None) /\
  (m = searchProducts \/ m = searchLeads -> SearchBody.sorts body = None) /\
  (m <> searchProducts -> m <> searchLeads ->
   SearchBody.sorts body =
     match SearchParams.sortBy params with
     | Some (String a sortBy) =>
         Some [ {| HubSpotSort.propertyName := String a sortBy;
                   HubSpotSort.direction :=
                     match SearchParams.sortOrder params with
                     | Some desc => "DESCENDING"
                     | Some asc | None => "ASCENDING"
                     end |} ]
     | _ => None
     end).
Proof.
  intros body. subst body. unfold search_body. simpl.
  split; [by intros [-> | ->]|]. split; [by intros [-> | ->]|]. split; [by intros [-> | ->]|].
  split; [by intros [-> | ->]|].
  intros Hp Hl. destruct m; try done;
    destruct (SearchParams.sortBy params) as [[|a s]|]; try done;
    by destruct (SearchParams.sortOrder params) as [[|]|].
Qed.

(** ** Property lists *)

Lemma string_append_assoc (a b c : string) : (a +:+ b) +:+ c = a +:+ (b +:+ c).
Proof.
  induction a as [|x a IH]; [done|].
  change (String x ((a +:+ b) +:+ c) = String x (a +:+ (b +:+ c))). by rewrite IH.
Qed.

Lemma string_append_empty_r (a : string) : a +:+ "" = a.
Proof.
  induction a as [|x a IH]; [done|]. change (String x (a +:+ "") = String x a). by rewrite IH.
Qed.

Lemma split_comma_aux_not_nil (s cur : string) : split_comma_aux s cur <> [].
Proof. revert cur. induction s as [|c s IH]; intros cur; simpl; [done|]. by destruct (Ascii.eqb c ","). Qed.

Lemma join_split_comma_aux (s cur : string) :
  join "," (split_comma_aux s cur) = cur +:+ s.
Proof.
  revert cur. induction s as [|c s IH]; intros cur.
  - by rewrite string_append_empty_r.
  - cbn [split_comma_aux]. destruct (Ascii.eqb_spec c ",") as [->|Hne].
    + pose proof (split_comma_aux_not_nil s "") as Hnil.
      pose proof (IH "") as IH'. cbn [join].
      destruct (split_comma_aux s "") as [|p rest]; [done|].
      rewrite IH'. reflexivity.
    + rewrite IH. rewrite string_append_assoc. reflexivity.
Qed.

(** [X16] Splitting a property list at the commas loses nothing: joining the
    pieces with commas gives the list back.  So the [properties] array of a
    search body, and the default one of a batch read, name exactly the
    properties of the comma-separated constant that the list call sends. *)
Theorem property_list_round_trip (PROPERTIES : string) :
  join "," (split_comma PROPERTIES) = PROPERTIES /\
  join "," (properties_or None PROPERTIES) = PROPERTIES /\
  (forall m params,
     join "," (SearchBody.properties (search_body m params)) = search_properties m).
Proof.
  assert (Hj : forall s, join "," (split_comma s) = s).
  { intros s. unfold split_comma. by rewrite join_split_comma_aux. }
  split; [apply Hj|]. split; [apply Hj|]. intros m params. apply Hj.
Qed.

(** ** Further properties of the mappers *)

Lemma prop_nonempty (props : gmap string (option string)) (k : string) :
  prop props k <> Some "".
Proof. apply truthy_nonempty. Qed.

(** [X17] A mapped contact has no empty-string field among the eight it
    copies: a backend value that is absent, [null] or the empty string maps to
    [undefined].  [fullName] is there exactly when the first or the last name
    is; and the two timestamps are the backend properties [createdate] and
    [lastmodifieddate] when those are non-empty strings, and the object's own
    [createdAt] and [updatedAt] otherwise. *)
Theorem mapHubSpotContact_fields (obj : HubSpotObject.t) :
  let props := HubSpotObject.properties obj in
  let c := mapHubSpotContact obj in
  Forall (fun field => field <> Some "")
    [Contact.firstName c; Contact.lastName c; Contact.email c; Contact.phone c;
     Contact.title c; Contact.companyName c; Contact.lifecycleStage c; Contact.status c] /\
  (forall k, props !! k = None \/ props !! k = Some None \/ props !! k = Some (Some "") ->
             prop props k = None) /\
  (is_Some (Contact.fullName c) <->
   is_Some (Contact.firstName c) \/ is_Some (Contact.lastName c)) /\
  Contact.createdAt c =
    match props !! "createdate" with
    | Some (Some (String a s)) => String a s
    | _ => HubSpotObject.createdAt obj
    end /\
  Contact.updatedAt c =
    match props !! "lastmodifieddate" with
    | Some (Some (String a s)) => String a s
    | _ => HubSpotObject.updatedAt obj
    end.
Proof.
  intros props c. split; [repeat constructor; apply prop_nonempty|].
  split; [intros k [Hk | [Hk | Hk]]; unfold prop; by rewrite Hk|].
  split; [|split].
  - subst c. unfold mapHubSpotContact. simpl. fold props.
    destruct (bool_decide _) eqn:Hd.
    + apply bool_decide_eq_true in Hd. split; [done|]. intros _. by eexists.
    + apply bool_decide_eq_false in Hd. split; [by intros [? ?]|done].
  - subst c. unfold mapHubSpotContact, prop. simpl. fold props.
    by destruct (props !! "createdate") as [[[|a s]|]|].
  - subst c. unfold mapHubSpotContact, prop. simpl. fold props.
    by destruct (props !! "lastmodifieddate") as [[[|a s]|]|].
Qed.

(** ** Reading a call duration back *)

(** Milliseconds to minutes: the quotient by 60000, rounded to the nearest
    integer, a tie going up. *)
Lemma Math_round_milliseconds (ms : Z) :
  Math_round (Qdiv (Qdiv (inject_Z ms) (inject_Z 1000)) (inject_Z 60)) = (ms + 30000) / 60000.
Proof.
  unfold Math_round.
  rewrite (Qfloor_comp _ (Qmake (ms + 30000) 60000)).
  - reflexivity.
  - unfold Qeq, Qplus, Qdiv, Qmult, Qinv, inject_Z. simpl. lia.
Qed.

(** [X18] Reading a call duration back rounds to the nearest minute.  For a
    call whose [hs_call_duration] is the decimal numeral of [ms] milliseconds
    ([0 <= ms < 2^40], where the double quotient rounds as the exact one),
    [durationMinutes] is the integer [r] with [60000 r - 30000 <= ms <
    60000 r + 30000]: half a minute rounds up, and a call shorter than 30
    seconds reads back as 0 minutes. *)
Theorem call_duration_rounds_to_nearest_minute (obj : HubSpotObject.t) (ms : Z) :
  0 <= ms < 2 ^ 40 ->
  HubSpotObject.properties obj !! "hs_call_duration"
    = Some (Some (Number_toString (Finite ms))) ->
  exists r,
    Activity.durationMinutes (mapHubSpotActivity obj call) = Some (Finite r) /\
    60000 * r - 30000 <= ms < 60000 * r + 30000 /\
    (ms < 30000 -> r = 0).
Proof.
  intros Hms Hp. exists ((ms + 30000) / 60000).
  assert (Hsafe : 2 ^ 40 < MAX_SAFE) by reflexivity.
  assert (Hd : Activity.durationMinutes (mapHubSpotActivity obj call)
               = Some (Finite ((ms + 30000) / 60000))).
  { cbn [mapHubSpotActivity Activity.durationMinutes]. unfold prop. rewrite Hp.
    cbn [mjoin option_join]. unfold truthy. rewrite Number_toString_nonempty.
    cbn [fmap option_fmap option_map]. unfold duration_minutes_of.
    rewrite parseInt_Number_toString_nonneg by lia.
    by rewrite Math_round_milliseconds. }
  split; [exact Hd|].
  pose proof (Z.div_mod (ms + 30000) 60000 ltac:(lia)) as Hdm.
  pose proof (Z.mod_pos_bound (ms + 30000) 60000 ltac:(lia)) as Hb.
  split; [lia|]. intros Hlt. apply Z.div_small. lia.
Qed.

(** A call of 89999 ms reads back as 1 minute. *)
Lemma call_duration_rounds_to_nearest_minute_witness :
  exists r,
    Activity.durationMinutes (mapHubSpotActivity (logged_call "89999") call) = Some (Finite r) /\
    60000 * r - 30000 <= 89999 < 60000 * r + 30000 /\
    (89999 < 30000 -> r = 0).
Proof.
  apply (call_duration_rounds_to_nearest_minute (logged_call "89999") 89999).
  - vm_compute. split; [discriminate | reflexivity].
  - reflexivity.
Defined.

(** ** How the calls of a method compose *)

Lemma put_all_accepted `{JSON} (this : CrmClientImpl.t) (fetch_put : Transport JsValue)
    (auth : gmap string string) (paths : list string) (w : World) :
  getAuthHeaders this = Return auth ->
  Forall (fun path => accepts fetch_put (put_call this auth path)) paths ->
  put_all this fetch_put paths w = (Return tt, w ++ map (put_call this auth) paths).
Proof.
  intros Ha. revert w. induction paths as [|path paths IH]; intros w Hall.
  - simpl. unfold ret. by rewrite app_nil_r.
  - apply Forall_cons in Hall as [Hp Hall]. destruct (Hp w) as [v Hv].
    cbn [put_all]. erewrite bind_return.
    2:{ rewrite (request_authenticated _ _ _ _ _ _ Ha). fold (put_call this auth path).
        by rewrite Hv. }
    rewrite IH by done. by rewrite <- app_assoc.
Qed.

Lemma put_all_rejected `{JSON} (this : CrmClientImpl.t) (fetch_put : Transport JsValue)
    (auth : gmap string string) (done : list string) (path : string) (rest : list string)
    (e : exn) (w : World) :
  getAuthHeaders this = Return auth ->
  Forall (fun path => accepts fetch_put (put_call this auth path)) done ->
  rejects fetch_put (put_call this auth path) e ->
  put_all this fetch_put (done ++ path :: rest) w
  = (Throw e, w ++ map (put_call this auth) (done ++ [path])).
Proof.
  intros Ha Hdone Hrej. revert w. induction done as [|p done IH]; intros w.
  - cbn [app put_all]. erewrite bind_throw; [reflexivity|].
    rewrite (request_authenticated _ _ _ _ _ _ Ha). fold (put_call this auth path).
    by rewrite (Hrej w).
  - apply Forall_cons in Hdone as [Hp Hdone]. destruct (Hp w) as [v Hv].
    cbn [app put_all]. erewrite bind_return.
    2:{ rewrite (request_authenticated _ _ _ _ _ _ Ha). fold (put_call this auth p).
        by rewrite Hv. }
    rewrite IH by done. by rewrite <- app_assoc.
Qed.

(** [X19] A create method that associates.  With credentials present, no
    custom field that makes [String] throw, the POST delivering the created
    object and every association call accepted, a create method returns the
    mapped object, and the calls it made are the POST followed by one PUT per
    association, in source order (for a ticket: the contact, then the
    company), each only for a target id that is a non-empty string. *)
Theorem create_then_associate `{JSON} {T} (m : CreateMethod) (mapper : HubSpotObject.t -> T)
    (this : CrmClientImpl.t) (fetch : Transport HubSpotObject.t) (fetch_put : Transport JsValue)
    (input : create_input m) (w : World) (auth : gmap string string) (obj : HubSpotObject.t) :
  getAuthHeaders this = Return auth ->
  customFields_throw (create_customFields m input) = false ->
  let post := fetch_call this auth (create_path m)
                (RequestInit.with_body "POST" (PropertiesBody (create_properties m input))) in
  let associations := create_associations m input (HubSpotObject.id obj) in
  delivers (fetch w post) obj ->
  Forall (fun path => accepts fetch_put (put_call this auth path)) associations ->
  create_method m mapper this fetch fetch_put input w
  = (Return (mapper obj), w ++ post :: map (put_call this auth) associations).
Proof.
  intros Ha Hc post associations Hd Hall. unfold create_method.
  rewrite customFields_loop_runs by done.
  erewrite bind_return; [|by apply request_delivers].
  cbn [defined]. erewrite bind_return; [|reflexivity].
  erewrite bind_return; [|by apply put_all_accepted].
  unfold ret. by rewrite <- app_assoc.
Qed.

(** A ticket for a contact and a company: three calls, in this order. *)
Lemma create_then_associate_witness :
  (CrmClient_createTicket (H := sample_JSON) api_key_client
     (answering 201 ∅ "" (JsonResolved (created "9001" "")))
     (failing_on "nowhere") ticket_for_contact_and_company []).2
  = [] ++ fetch_call api_key_client (bearer_headers "pat-na1-0000") "/crm/v3/objects/tickets"
            (RequestInit.with_body "POST"
               (PropertiesBody (create_properties createTicket ticket_for_contact_and_company)))
       :: map (put_call api_key_client (bearer_headers "pat-na1-0000"))
            ["/crm/v3/objects/tickets/9001/associations/contacts/201/16";
             "/crm/v3/objects/tickets/9001/associations/companies/301/26"].
Proof.
  unfold CrmClient_createTicket.
  rewrite (create_then_associate (H := sample_JSON) createTicket mapHubSpotTicket api_key_client
             (answering 201 ∅ "" (JsonResolved (created "9001" ""))) (failing_on "nowhere")
             ticket_for_contact_and_company [] (bearer_headers "pat-na1-0000")
             (created "9001" "") eq_refl eq_refl).
  - reflexivity.
  - split; [simpl; lia|]. split; [simpl; lia|reflexivity].
  - repeat constructor; intros w; eexists; reflexivity.
Defined.

(** [X20] No rollback.  When no custom field makes [String] throw, the POST
    delivered the created object and an association call is rejected with [e]
    after the ones before it were accepted, the create method throws [e]; the
    log holds the POST and the association calls up to the rejected one and
    nothing more: the later associations are not attempted, and no call undoes
    the creation or the associations already made. *)
Theorem create_association_failure `{JSON} {T} (m : CreateMethod)
    (mapper : HubSpotObject.t -> T) (this : CrmClientImpl.t)
    (fetch : Transport HubSpotObject.t) (fetch_put : Transport JsValue)
    (input : create_input m) (w : World) (auth : gmap string string) (obj : HubSpotObject.t)
    (done : list string) (path : string) (rest : list string) (e : exn) :
  getAuthHeaders this = Return auth ->
  customFields_throw (create_customFields m input) = false ->
  let post := fetch_call this auth (create_path m)
                (RequestInit.with_body "POST" (PropertiesBody (create_properties m input))) in
  delivers (fetch w post) obj ->
  create_associations m input (HubSpotObject.id obj) = done ++ path :: rest ->
  Forall (fun path => accepts fetch_put (put_call this auth path)) done ->
  rejects fetch_put (put_call this auth path) e ->
  create_method m mapper this fetch fetch_put input w
  = (Throw e, w ++ post :: map (put_call this auth) (done ++ [path])).
Proof.
  intros Ha Hc post Hd Hsplit Hdone Hrej. unfold create_method.
  rewrite customFields_loop_runs by done.
  erewrite bind_return; [|by apply request_delivers].
  cbn [defined]. erewrite bind_return; [|reflexivity].
  erewrite bind_throw; [reflexivity|].
  rewrite Hsplit. rewrite (put_all_rejected _ _ _ _ _ _ _ _ Ha Hdone Hrej).
  by rewrite <- app_assoc.
Qed.

(** The ticket is created, the company association is rejected: the creation
    fails with the 500 although the ticket and its contact association
    exist. *)
Lemma create_association_failure_witness :
  CrmClient_createTicket (H := sample_JSON) api_key_client
    (answering 201 ∅ "" (JsonResolved (created "9001" "")))
    (failing_on "https://api.hubapi.com/crm/v3/objects/tickets/9001/associations/companies/301/26")
    ticket_for_contact_and_company []
  = (Throw (CrmApiError (JString "API error: 500") 500),
     [] ++ fetch_call api_key_client (bearer_headers "pat-na1-0000") "/crm/v3/objects/tickets"
             (RequestInit.with_body "POST"
                (PropertiesBody (create_properties createTicket ticket_for_contact_and_company)))
        :: map (put_call api_key_client (bearer_headers "pat-na1-0000"))
             (["/crm/v3/objects/tickets/9001/associations/contacts/201/16"]
              ++ ["/crm/v3/objects/tickets/9001/associations/companies/301/26"])).
Proof.
  unfold CrmClient_createTicket.
  apply (create_association_failure (H := sample_JSON) createTicket mapHubSpotTicket
           api_key_client (answering 201 ∅ "" (JsonResolved (created "9001" ""))) _
           ticket_for_contact_and_company [] (bearer_headers "pat-na1-0000")
           (created "9001" "")
           ["/crm/v3/objects/tickets/9001/associations/contacts/201/16"]
           "/crm/v3/objects/tickets/9001/associations/companies/301/26" []).
  - reflexivity.
  - reflexivity.
  - split; [simpl; lia|]. split; [simpl; lia|reflexivity].
  - reflexivity.
  - repeat constructor; intros w; eexists; reflexivity.
  - intros w. reflexivity.
Defined.

(** [X21] [createMeeting] associates every contact id, in input order.  With
    the POST delivering the meeting and the association calls accepted, it
    returns the mapped meeting after the POST and one PUT per element of
    [contactIds] (none when the list is absent or empty), so
    [1 + contactIds.length] calls; when a PUT is rejected after the ones
    before it were accepted, it throws that error and the contacts after it
    stay unassociated. *)
Theorem createMeeting_associates_in_order `{JSON} (this : CrmClientImpl.t)
    (fetch : Transport HubSpotObject.t) (fetch_put : Transport JsValue)
    (input : MeetingCreateInput.t) (w : World) (auth : gmap string string)
    (obj : HubSpotObject.t) :
  getAuthHeaders this = Return auth ->
  let post := fetch_call this auth "/crm/v3/objects/meetings"
                (RequestInit.with_body "POST" (PropertiesBody (createMeeting_properties input))) in
  let put contactId :=
    put_call this auth
      ("/crm/v3/objects/meetings/" +:+ HubSpotObject.id obj +:+ "/associations/contacts/"
       +:+ contactId +:+ "/200") in
  let contactIds := default [] (MeetingCreateInput.contactIds input) in
  delivers (fetch w post) obj ->
  (Forall (fun contactId => accepts fetch_put (put contactId)) contactIds ->
   createMeeting this fetch fetch_put input w
   = (Return (mapHubSpotMeeting obj), w ++ post :: map put contactIds)) /\
  (forall done contactId rest e,
     contactIds = done ++ contactId :: rest ->
     Forall (fun contactId => accepts fetch_put (put contactId)) done ->
     rejects fetch_put (put contactId) e ->
     createMeeting this fetch fetch_put input w
     = (Throw e, w ++ post :: map put (done ++ [contactId]))).
Proof.
  intros Ha post put contactIds Hd. split.
  - intros Hall. unfold createMeeting.
    erewrite bind_return; [|by apply request_delivers].
    cbn [defined]. erewrite bind_return; [|reflexivity].
    erewrite bind_return.
    2:{ apply (put_all_accepted _ _ _ _ _ Ha). unfold createMeeting_associations.
        fold contactIds. apply Forall_fmap. exact Hall. }
    unfold ret, createMeeting_associations. fold contactIds.
    rewrite <- app_assoc. simpl. by rewrite map_map.
  - intros done contactId rest e Hsplit Hdone Hrej. unfold createMeeting.
    erewrite bind_return; [|by apply request_delivers].
    cbn [defined]. erewrite bind_return; [|reflexivity].
    erewrite bind_throw; [reflexivity|].
    unfold createMeeting_associations. fold contactIds. rewrite Hsplit.
    rewrite map_app. cbn [map].
    rewrite (put_all_rejected _ _ _ _ _ _ e _ Ha).
    + rewrite <- app_assoc. simpl. rewrite map_app, !map_map, map_app. reflexivity.
    + apply Forall_fmap. exact Hdone.
    + exact Hrej.
Qed.

(** Three attendees: four calls. *)
Lemma createMeeting_associates_in_order_witness :
  length (createMeeting (H := sample_JSON) api_key_client
            (answering 201 ∅ "" (JsonResolved (created "5001" "")))
            (failing_on "nowhere") kickoff_meeting []).2 = 4%nat.
Proof.
  rewrite (proj1 (createMeeting_associates_in_order (H := sample_JSON) api_key_client
                    (answering 201 ∅ "" (JsonResolved (created "5001" "")))
                    (failing_on "nowhere") kickoff_meeting [] (bearer_headers "pat-na1-0000")
                    (created "5001" "") eq_refl
                    ltac:(split; [simpl; lia|split; [simpl; lia|reflexivity]]))).
  - reflexivity.
  - repeat constructor; intros w; eexists; reflexivity.
Defined.

(** ** Creating an activity *)

Lemma request_log_length `{JSON} {T} (this : CrmClientImpl.t) (fetch : Transport T)
    (endpoint : string) (options : RequestInit.t) (w : World) :
  (length (request this fetch endpoint options w).2 <= length w + 1)%nat.
Proof.
  unfold request. destruct (getAuthHeaders this); simpl; [|lia].
  rewrite length_app. simpl. lia.
Qed.

Lemma bind_log_length {A B} (m : M A) (k : A -> M B) (w : World) (a b : nat) :
  (length (m w).2 <= length w + a)%nat ->
  (forall x w', length (k x w').2 <= length w' + b)%nat ->
  (length (bind m k w).2 <= length w + (a + b))%nat.
Proof.
  intros Hm Hk. unfold bind. destruct (m w) as [[x|e] w']; simpl in *.
  - specialize (Hk x w'). lia.
  - lia.
Qed.

Lemma put_all_log_length `{JSON} (this : CrmClientImpl.t) (fetch : Transport JsValue)
    (paths : list string) (w : World) :
  (length (put_all this fetch paths w).2 <= length w + length paths)%nat.
Proof.
  revert w. induction paths as [|path paths IH]; intros w; simpl; [lia|].
  replace (length w + S (length paths))%nat with (length w + (1 + length paths))%nat by lia.
  apply bind_log_length; [apply request_log_length|]. intros _ w'. apply IH.
Qed.

Lemma defined_log_length {T} (response : option T) (property : string) (w : World) :
  (length (defined response property w).2 <= length w + 0)%nat.
Proof. destruct response; simpl; lia. Qed.

Lemma association_length (path : string) (target : option string) (typeId : string) :
  (length (association path target typeId) <= 1)%nat.
Proof. unfold association. destruct (truthy target); simpl; lia. Qed.

(** [X22] [createActivity] makes at most two transport calls, whatever the
    activity type, the answers, and the number of contact ids: it creates one
    object and associates at most the first contact id; the other contact ids,
    [companyId], [dealId], [dueDate] and [customFields] are not sent. *)
Theorem createActivity_at_most_two_calls `{JSON} (this : CrmClientImpl.t)
    (fetch : Transport HubSpotObject.t) (fetch_put : Transport JsValue) (now : string)
    (input : ActivityCreateInput.t) (w : World) :
  (length (createActivity this fetch fetch_put now input w).2 <= length w + 2)%nat.
Proof.
  assert (Hstep : forall (A : Type) (props : gmap string string) path (name : string)
                         (k : HubSpotObject.t -> M A),
            (forall obj w', length (k obj w').2 <= length w' + 1)%nat ->
            (length (bind (request this fetch path
                             (RequestInit.with_body "POST" (PropertiesBody props)))
                       (fun response => bind (defined response name) k) w).2
             <= length w + 2)%nat).
  { intros A props path name k Hk.
    replace (length w + 2)%nat with (length w + (1 + (0 + 1)))%nat by lia.
    apply bind_log_length; [apply request_log_length|]. intros response w1.
    apply bind_log_length; [apply defined_log_length|]. apply Hk. }
  assert (Hput : forall (A : Type) (paths : list string) (result : A) w',
            (length paths <= 1)%nat ->
            (length (bind (put_all this fetch_put paths) (fun _ => ret result) w').2
             <= length w' + 1)%nat).
  { intros A paths result w' Hpaths.
    pose proof (put_all_log_length this fetch_put paths w') as Hp.
    unfold bind. destruct (put_all this fetch_put paths w') as [[[]|e] w2]; simpl in *; lia. }
  unfold createActivity.
  destruct (ActivityCreateInput.type input);
    [unfold logCall | unfold logEmail | | | |];
    apply Hstep; intros obj w'; apply Hput;
    first [apply association_length
          | unfold createActivity_note_associations;
            by destruct (ActivityCreateInput.contactIds input) as [[|? ?]|]; simpl; lia].
Qed.

(** [X23] An activity that is neither a call nor an email is stored as a
    note.  For the types [meeting], [task], [note] and [other], with
    credentials present, the POST delivering the stored object and the
    association accepted: the POST goes to the notes endpoint with
    [hs_note_body] the body when that is a non-empty string and the subject
    otherwise; the activity returned has type [note] and the subject
    ["Note"], not the type and the subject of the input; and the one
    association made is to the first contact id. *)
Theorem createActivity_stores_a_note `{JSON} (this : CrmClientImpl.t)
    (fetch : Transport HubSpotObject.t) (fetch_put : Transport JsValue) (now : string)
    (input : ActivityCreateInput.t) (w : World) (auth : gmap string string)
    (obj : HubSpotObject.t) :
  getAuthHeaders this = Return auth ->
  ActivityCreateInput.type input <> ActivityType.call ->
  ActivityCreateInput.type input <> ActivityType.email ->
  let post := fetch_call this auth "/crm/v3/objects/notes"
                (RequestInit.with_body "POST"
                   (PropertiesBody
                      (<["hs_timestamp" := now]>
                         (<["hs_note_body" :=
                              match ActivityCreateInput.body input with
                              | Some (String a body) => String a body
                              | _ => ActivityCreateInput.subject input
                              end]> ∅)))) in
  let associations :=
    match ActivityCreateInput.contactIds input with
    | Some (contactId :: _) =>
        ["/crm/v3/objects/notes/" +:+ HubSpotObject.id obj +:+ "/associations/contacts/"
         +:+ contactId +:+ "/202"]
    | _ => []
    end in
  delivers (fetch w post) obj ->
  Forall (fun path => accepts fetch_put (put_call this auth path)) associations ->
  exists activity,
    createActivity this fetch fetch_put now input w
    = (Return activity, w ++ post :: map (put_call this auth) associations) /\
    Activity.type activity = note /\
    Activity.subject activity = "Note" /\
    Activity.id activity = HubSpotObject.id obj.
Proof.
  intros Ha Hcall Hemail post associations Hd Hall.
  exists (mapHubSpotActivity obj note). split; [|done].
  assert (Hpost : post = fetch_call this auth "/crm/v3/objects/notes"
                           (RequestInit.with_body "POST"
                              (PropertiesBody (createActivity_note_properties now input)))).
  { subst post. unfold createActivity_note_properties.
    by destruct (ActivityCreateInput.body input) as [[|a body]|]. }
  rewrite Hpost in *. clear Hpost.
  unfold createActivity.
  destruct (ActivityCreateInput.type input); try done;
    (erewrite bind_return; [|by apply request_delivers]);
    cbn [defined]; (erewrite bind_return; [|reflexivity]);
    (erewrite bind_return; [|by apply put_all_accepted]);
    unfold ret; by rewrite <- app_assoc.
Qed.

(** A task for two contacts: stored as a note, returned as a note, and
    associated with the first contact only. *)
Lemma createActivity_stores_a_note_witness :
  exists activity,
    createActivity (H := sample_JSON) api_key_client
      (answering 201 ∅ "" (JsonResolved (created "7100" "")))
      (failing_on "nowhere") "2024-05-01T10:00:00.000Z" follow_up_task []
    = (Return activity,
       [] ++ fetch_call api_key_client (bearer_headers "pat-na1-0000") "/crm/v3/objects/notes"
               (RequestInit.with_body "POST"
                  (PropertiesBody
                     (<["hs_timestamp" := "2024-05-01T10:00:00.000Z"]>
                        (<["hs_note_body" := "Send the quote"]> ∅))))
          :: map (put_call api_key_client (bearer_headers "pat-na1-0000"))
               ["/crm/v3/objects/notes/7100/associations/contacts/201/202"]) /\
    Activity.type activity = note /\
    Activity.subject activity = "Note" /\
    Activity.id activity = "7100".
Proof.
  apply (createActivity_stores_a_note (H := sample_JSON) api_key_client
           (answering 201 ∅ "" (JsonResolved (created "7100" ""))) (failing_on "nowhere")
           "2024-05-01T10:00:00.000Z" follow_up_task [] (bearer_headers "pat-na1-0000")
           (created "7100" "")).
  - reflexivity.
  - discriminate.
  - discriminate.
  - split; [simpl; lia|]. split; [simpl; lia|reflexivity].
  - repeat constructor; intros w; eexists; reflexivity.
Defined.

(** ** Numbers through create and back *)

Lemma parse_digits_None_numeral (d : Decimal.uint) :
  d <> Decimal.Nil -> parse_digits (NilEmpty.string_of_uint d) None = Some (Z.of_uint d).
Proof.
  intros Hd. rewrite <- uint_value_0.
  destruct d; [done|..]; simpl; rewrite parse_digits_numeral; reflexivity.
Qed.

(** [parseInt] reads back the numeral [String] writes for an integer of the
    exactly represented range. *)
Lemma parseInt_Number_toString_int (z : Z) :
  - MAX_SAFE <= z <= MAX_SAFE -> parseInt (Number_toString (Finite z)) = Finite z.
Proof.
  intros Hz.
  destruct z as [|p|p]; [reflexivity|apply parseInt_Number_toString; lia|].
  rewrite Number_toString_decimal by lia.
  change (NilZero.string_of_int (Z.to_int (Z.neg p)))
    with (String "-" (NilZero.string_of_uint (Pos.to_uint p))).
  rewrite string_of_uint_not_Nil by apply to_uint_not_Nil.
  unfold parseInt. cbn [trimStart]. change (is_white_space "-") with false. cbv iota.
  rewrite parse_digits_None_numeral by apply to_uint_not_Nil.
  unfold Z.of_uint. rewrite DecimalPos.Unsigned.of_to. reflexivity.
Qed.

(** [X24] The number of employees survives create and read.  For an integer
    [n] within the exactly represented range, with no custom field of that
    key, [createCompany] sends [numberofemployees] as the decimal numeral of
    [n], 0 included (the guard is [!== undefined], not truthiness), and
    mapping a company whose [numberofemployees] is that numeral gives
    [numberOfEmployees = n]. *)
Theorem numberOfEmployees_round_trip (input : CompanyCreateInput.t) (n : Z)
    (obj : HubSpotObject.t) :
  - MAX_SAFE <= n <= MAX_SAFE ->
  CompanyCreateInput.numberOfEmployees input = Some (Finite n) ->
  custom_entry (CompanyCreateInput.customFields input) "numberofemployees" = None ->
  create_properties createCompany input !! "numberofemployees"
    = Some (Number_toString (Finite n)) /\
  (HubSpotObject.properties obj !! "numberofemployees"
     = Some (Some (Number_toString (Finite n))) ->
   Company.numberOfEmployees (mapHubSpotCompany obj) = Some (Finite n)).
Proof.
  intros Hn Hi Hc. split.
  - unfold create_properties. rewrite merge_customFields_absent by (by left).
    apply assign_all_lookup; [apply (create_fields_NoDup createCompany)|].
    cbn [create_fields]. unfold createCompany_fields. rewrite Hi.
    cbn [stringified fmap option_fmap option_map]. repeat constructor.
  - intros Hp. cbn [mapHubSpotCompany Company.numberOfEmployees]. unfold prop. rewrite Hp.
    cbn [mjoin option_join]. unfold truthy. rewrite Number_toString_nonempty.
    cbn [fmap option_fmap option_map]. by rewrite parseInt_Number_toString_int.
Qed.

(** A company with 0 employees: ["0"] is sent and reads back as 0. *)
Lemma numberOfEmployees_round_trip_witness :
  create_properties createCompany company_without_employees !! "numberofemployees" = Some "0".
Proof.
  apply (proj1 (numberOfEmployees_round_trip company_without_employees 0
                  (created "1" "") ltac:(vm_compute; split; discriminate) eq_refl eq_refl)).
Defined.

(** ** The query string of a list call *)

Lemma hex_digit_no_separator (c : ascii) :
  no_separator (String (hex_digit (N_of_ascii c / 16))
                  (String (hex_digit (N_of_ascii c mod 16)) "")) = true.
Proof. destruct c as [[] [] [] [] [] [] [] []]; reflexivity. Qed.

Lemma safe_no_separator (c : ascii) :
  is_urlencode_safe c = true ->
  negb (Ascii.eqb c "&" || Ascii.eqb c "=" || Ascii.eqb c "?" || Ascii.eqb c "#") = true.
Proof. destruct c as [[] [] [] [] [] [] [] []]; vm_compute; congruence. Qed.

Lemma urlencode_no_separator (s : string) : no_separator (urlencode s) = true.
Proof.
  induction s as [|c s IH]; [reflexivity|]. cbn [urlencode].
  destruct (is_urlencode_safe c) eqn:Hsafe.
  - cbn [no_separator]. by rewrite safe_no_separator, IH.
  - destruct (N_of_ascii c =? 32)%N.
    + cbn [no_separator]. by rewrite IH.
    + pose proof (hex_digit_no_separator c) as Hh. cbn [no_separator] in Hh |- *.
      rewrite IH. apply andb_true_iff in Hh as [H1 Hh]. apply andb_true_iff in Hh as [H2 _].
      by rewrite H1, H2.
Qed.

(** [X25] A cursor cannot add a parameter to a list call.  The query string
    of each list method is [limit=..&properties=..] followed, when the cursor
    is a non-empty string, by [&after=..], each value in its form-urlencoded
    form; and the encoded form of any string has none of the characters
    [& = ? #]. *)
Theorem list_query_is_encoded (PROPERTIES : string) (params : option PaginationParams.t) :
  URLSearchParams_toString (list_query PROPERTIES params)
  = ("limit=" +:+ urlencode (Number_toString (limit_or_default (params ≫= PaginationParams.limit))))
    +:+ "&" +:+ ("properties=" +:+ urlencode PROPERTIES)
    +:+ match truthy (params ≫= PaginationParams.cursor) with
        | Some cursor => "&" +:+ ("after=" +:+ urlencode cursor)
        | None => ""
        end /\
  (forall s, no_separator (urlencode s) = true).
Proof.
  split; [|apply urlencode_no_separator]. unfold list_query.
  destruct (truthy (params ≫= PaginationParams.cursor)) as [cursor|].
  - reflexivity.
  - cbn [URLSearchParams_toString map join]. by rewrite string_append_empty_r.
Qed.
